(** * Task-manager: a shallow embedding of the authentication and task API

    The development follows the TypeScript sources of the repository:

    - [src/lib/validation.ts]      request validation,
    - [src/lib/auth.ts]            password hashing and JWT helpers,
    - [src/lib/middleware.ts]      the [withAuth] middleware,
    - [src/app/api/auth/*/route.ts] register, login, refresh, logout, me,
    - [src/app/api/tasks/**/route.ts] list, create, read, update, delete,
      toggle,
    - [src/lib/api-client.ts]      the token storage of the browser client,
      [fetchWithAuth] with its renewal of the tokens, logout and the query
      of a listing,
    - [src/app/dashboard/page.tsx] the page asked for after a delete and the
      local update after a toggle.

    Conventions of the embedding.

    - JavaScript strings are [string] (byte strings); the character classes
      used by the code ([\s], [toLowerCase], [trim]) are given on ASCII.
    - A number produced by [parseInt] is [NaN] or an integer [Num z]; the
      model is exact on the safe-integer range of a JavaScript number.
    - The relational store is a record of three tables, each a [list] of
      rows in table order.  A statement that throws leaves the store as the
      statements before it left it (the driver runs each statement in its
      own transaction), and the handler's [catch] answers 500.
    - Wall-clock time and the values the database generates (row ids) are
      explicit arguments of a handler.
    - What the sources leave to the platform or to the schema is a parameter
      of the development: the reading of a date string, [ILIKE], the key
      derivation of bcrypt and the type of the [id] columns.  JSON Web
      Tokens are symbolic: a token is the data that was signed. *)

From Stdlib Require Import String Ascii List ZArith Lia Bool Permutation Sorted.
Import ListNotations.

Open Scope string_scope.
Open Scope list_scope.
Open Scope Z_scope.

(* ===================================================================== *)
(** * 1. JavaScript primitives *)
(* ===================================================================== *)

(** [\s] of a regular expression and the white space stripped by
    [String.prototype.trim], on ASCII: TAB, LF, VT, FF, CR and SPACE. *)
Definition isWhiteSpace (c : ascii) : bool :=
  let n := nat_of_ascii c in
  ((n =? 32) || ((9 <=? n) && (n <=? 13)))%nat.

Fixpoint trimStart (s : string) : string :=
  match s with
  | EmptyString => EmptyString
  | String c r => if isWhiteSpace c then trimStart r else s
  end.

Fixpoint reverse (s acc : string) : string :=
  match s with
  | EmptyString => acc
  | String c r => reverse r (String c acc)
  end.

Definition trimEnd (s : string) : string :=
  reverse (trimStart (reverse s EmptyString)) EmptyString.

Definition trim (s : string) : string := trimEnd (trimStart s).

Definition lowerChar (c : ascii) : ascii :=
  let n := nat_of_ascii c in
  if ((65 <=? n) && (n <=? 90))%nat then ascii_of_nat (n + 32) else c.

Fixpoint toLowerCase (s : string) : string :=
  match s with
  | EmptyString => EmptyString
  | String c r => String (lowerChar c) (toLowerCase r)
  end.

(** The result of [Number.parseInt]. *)
Inductive jsnum : Type :=
| NaN
| Num (z : Z).

Definition digitValue (c : ascii) : option Z :=
  let n := nat_of_ascii c in
  if ((48 <=? n) && (n <=? 57))%nat then Some (Z.of_nat n - 48) else None.

(** The longest prefix of decimal digits, read as a number; [acc] is [None]
    until a first digit has been seen. *)
Fixpoint parseDigits (s : string) (acc : option Z) : option Z :=
  match s with
  | EmptyString => acc
  | String c r =>
      match digitValue c with
      | Some d =>
          parseDigits r (Some (10 * (match acc with Some a => a | None => 0 end) + d))
      | None => acc
      end
  end.

(** [Number.parseInt(s, 10)]: leading white space is skipped, one sign is
    read, then the longest run of digits; no digit gives [NaN]. *)
Definition parseInt (s : string) : jsnum :=
  let t := trimStart s in
  let '(sign, body) :=
    match t with
    | String "-" r => (-1, r)
    | String "+" r => (1, r)
    | _ => (1, t)
    end in
  match parseDigits body None with
  | None => NaN
  | Some n => Num (sign * n)
  end.

(** [Number.MAX_SAFE_INTEGER]: up to it, integers are JavaScript numbers
    without rounding. *)
Definition MAX_SAFE_INTEGER : Z := 2 ^ 53 - 1.

(** [Math.max] and [Math.min] on two arguments: [NaN] is contagious. *)
Definition Math_max (a b : jsnum) : jsnum :=
  match a, b with
  | Num x, Num y => Num (Z.max x y)
  | _, _ => NaN
  end.

Definition Math_min (a b : jsnum) : jsnum :=
  match a, b with
  | Num x, Num y => Num (Z.min x y)
  | _, _ => NaN
  end.

(** [Math.ceil(a / b)] for [a >= 0] and [b > 0]. *)
Definition Math_ceil_div (a b : Z) : Z := (a + b - 1) / b.

(** [x || d] on a value that is a string or [null]. *)
Definition orDefault (x : option string) (d : string) : string :=
  match x with
  | Some (String c r) => String c r
  | _ => d
  end.

(** Truthiness of a value that is a string or [null]. *)
Definition truthy (x : option string) : bool :=
  match x with
  | Some (String _ _) => true
  | _ => false
  end.

(** A [try { ... } catch] body either completes or throws. *)
Inductive Result (A : Type) : Type :=
| Ok (a : A)
| Throw (reason : string).
Arguments Ok {A} a.
Arguments Throw {A} reason.

(* ===================================================================== *)
(** * 2. JSON request bodies *)
(* ===================================================================== *)

#[warnings="-register-all"]
Inductive json : Type :=
| JNull
| JBool (b : bool)
| JNum (n : Z)
| JStr (s : string)
| JArr (items : list json)
| JObj (fields : list (string * json)).

(** [!data || typeof data !== "object"] is false exactly on arrays and
    objects ([null] has type "object" but is falsy). *)
Definition isObject (data : json) : bool :=
  match data with
  | JArr _ | JObj _ => true
  | _ => false
  end.

Fixpoint assoc (k : string) (fs : list (string * json)) : option json :=
  match fs with
  | [] => None
  | (k', v) :: r => if String.eqb k k' then Some v else assoc k r
  end.

(** [body.k]; [None] is [undefined]. *)
Definition field (body : json) (k : string) : option json :=
  match body with
  | JObj fs => assoc k fs
  | _ => None
  end.

(** [!v || typeof v !== "string"] fails exactly on a non-empty string. *)
Definition nonEmptyString (v : option json) : option string :=
  match v with
  | Some (JStr (String c r)) => Some (String c r)
  | _ => None
  end.

(* ===================================================================== *)
(** * 3. Data model ([src/lib/types.ts]) *)
(* ===================================================================== *)

(** Instants are milliseconds since the epoch. *)
Definition Date := Z.

Inductive TaskStatus : Type := pending | in_progress | completed.
Inductive TaskPriority : Type := low | medium | high.

Definition TaskStatus_eqb (a b : TaskStatus) : bool :=
  match a, b with
  | pending, pending | in_progress, in_progress | completed, completed => true
  | _, _ => false
  end.

Definition TaskStatus_to_string (s : TaskStatus) : string :=
  match s with
  | pending => "pending"
  | in_progress => "in_progress"
  | completed => "completed"
  end.

(** The two signing secrets of [auth.ts]. *)
Inductive Secret : Type := ACCESS_TOKEN_SECRET | REFRESH_TOKEN_SECRET.

Definition Secret_eqb (a b : Secret) : bool :=
  match a, b with
  | ACCESS_TOKEN_SECRET, ACCESS_TOKEN_SECRET
  | REFRESH_TOKEN_SECRET, REFRESH_TOKEN_SECRET => true
  | _, _ => false
  end.

(** A string met where a token is expected.  [Jws k u e i x] is the compact
    serialization that [SignJWT] yields for the protected header
    [{alg: "HS256"}] and the payload [{userId: u, email: e, iat: i, exp: x}]
    under the secret [k]: HMAC-SHA256 draws no randomness, so the string is
    a function of these values, and it is the only string that [jwtVerify]
    accepts for them.  [Text s] is any other string. *)
Inductive tokenString : Type :=
| Jws (key : Secret) (userId email : string) (iat exp : Z)
| Text (s : string).

Definition tokenString_eqb (a b : tokenString) : bool :=
  match a, b with
  | Jws k u e i x, Jws k' u' e' i' x' =>
      Secret_eqb k k' && String.eqb u u' && String.eqb e e' && (i =? i') && (x =? x')
  | Text s, Text s' => String.eqb s s'
  | _, _ => false
  end.

Module JWTPayload.
Record t : Type := mk { userId : string; email : string }.
End JWTPayload.

Module AuthTokens.
Record t : Type := mk { accessToken : tokenString; refreshToken : tokenString }.
End AuthTokens.

Module User.
Record t : Type := mk {
  id : string;
  email : string;
  password_hash : string;
  name : string;
  created_at : Date
}.
End User.

Module UserPublic.
Record t : Type := mk {
  id : string;
  email : string;
  name : string;
  created_at : Date
}.
End UserPublic.

Module RefreshToken.
Record t : Type := mk {
  id : string;
  user_id : string;
  token : tokenString;
  expires_at : Date;
  created_at : Date
}.
End RefreshToken.

Module Task.
Record t : Type := mk {
  id : string;
  user_id : string;
  title : string;
  description : option string;
  status : TaskStatus;
  priority : TaskPriority;
  due_date : option Date;
  created_at : Date;
  updated_at : Date
}.
End Task.

Module RegisterDTO.
Record t : Type := mk { email : string; password : string; name : string }.
End RegisterDTO.

Module LoginDTO.
Record t : Type := mk { email : string; password : string }.
End LoginDTO.

(** [UpdateTaskDTO]: every key is optional; [due_date] may also be [null]. *)
Module UpdateTaskDTO.
Record t : Type := mk {
  title : option string;
  description : option string;
  status : option TaskStatus;
  priority : option TaskPriority;
  due_date : option (option string)
}.
End UpdateTaskDTO.

(** [ApiResponse<T>] together with the HTTP status of the reply. *)
Module ApiResponse.
Record t (T : Type) : Type := mk {
  http : Z;
  success : bool;
  data : option T;
  error : option string;
  message : option string
}.
Arguments mk {T}.
Arguments http {T}.
Arguments success {T}.
Arguments data {T}.
Arguments error {T}.
Arguments message {T}.
End ApiResponse.

Definition failure {T : Type} (code : Z) (msg : string) : ApiResponse.t T :=
  ApiResponse.mk code false None (Some msg) None.

Definition reply {T : Type} (code : Z) (d : option T) (msg : option string)
  : ApiResponse.t T :=
  ApiResponse.mk code true d None msg.

Module Pagination.
Record t : Type := mk { page : jsnum; limit : jsnum; total : Z; totalPages : jsnum }.
End Pagination.

Module PaginatedResponse.
Record t : Type := mk {
  http : Z;
  success : bool;
  data : list Task.t;
  pagination : Pagination.t
}.
End PaginatedResponse.

(** The relational store. *)
Record DB : Type := mkDB {
  users : list User.t;
  refresh_tokens : list RefreshToken.t;
  tasks : list Task.t
}.

Definition set_users (db : DB) (l : list User.t) : DB :=
  mkDB l (refresh_tokens db) (tasks db).
Definition set_refresh_tokens (db : DB) (l : list RefreshToken.t) : DB :=
  mkDB (users db) l (tasks db).
Definition set_tasks (db : DB) (l : list Task.t) : DB :=
  mkDB (users db) (refresh_tokens db) l.

(* ===================================================================== *)
(** * 4. Validation ([src/lib/validation.ts]) *)
(* ===================================================================== *)

Module ValidationError.
Record t : Type := mk { field : string; message : string }.
End ValidationError.

Module Validation.
Record t (D : Type) : Type := mk {
  valid : bool;
  errors : list ValidationError.t;
  data : option D
}.
Arguments mk {D}.
Arguments valid {D}.
Arguments errors {D}.
Arguments data {D}.
End Validation.

Definition bodyRequired {D : Type} : Validation.t D :=
  Validation.mk false [ValidationError.mk "body" "Request body is required"] None.

(** [validation.errors[0]?.message || "Validation failed"]. *)
Definition firstMessage (errors : list ValidationError.t) : string :=
  match errors with
  | e :: _ => orDefault (Some (ValidationError.message e)) "Validation failed"
  | [] => "Validation failed"
  end.

(** The class [[^\s@]] of [EMAIL_REGEX]. *)
Definition notSpaceNorAt (c : ascii) : bool :=
  negb (isWhiteSpace c || Ascii.eqb c "@").

(** [s] matches [[^\s@]+$]. *)
Fixpoint matchPlusEnd (s : string) : bool :=
  match s with
  | EmptyString => false
  | String c EmptyString => notSpaceNorAt c
  | String c r => notSpaceNorAt c && matchPlusEnd r
  end.

(** [s] matches [[^\s@]*\.[^\s@]+$]. *)
Fixpoint matchDotTail (s : string) : bool :=
  match s with
  | EmptyString => false
  | String c r =>
      notSpaceNorAt c && ((Ascii.eqb c "." && matchPlusEnd r) || matchDotTail r)
  end.

(** [s] matches [[^\s@]*@[^\s@]+\.[^\s@]+$]. *)
Fixpoint matchAtTail (s : string) : bool :=
  match s with
  | EmptyString => false
  | String c r =>
      if Ascii.eqb c "@" then
        match r with
        | EmptyString => false
        | String d r' => notSpaceNorAt d && matchDotTail r'
        end
      else notSpaceNorAt c && matchAtTail r
  end.

(** [EMAIL_REGEX.test(s)] for [/^[^\s@]+@[^\s@]+\.[^\s@]+$/]. *)
Definition EMAIL_REGEX_test (s : string) : bool :=
  match s with
  | EmptyString => false
  | String c r => notSpaceNorAt c && matchAtTail r
  end.

Definition isValidEmail (email : string) : bool := EMAIL_REGEX_test email.

Definition isValidPassword (password : string) : bool :=
  (8 <=? String.length password)%nat.

(** The TypeScript cast [v as string]; it is applied to values that the
    preceding checks have shown to be strings. *)
Definition asString (v : option json) : string :=
  match v with
  | Some (JStr s) => s
  | _ => EmptyString
  end.

Definition validateRegister (data : json) : Validation.t RegisterDTO.t :=
  if negb (isObject data) then bodyRequired
  else
    let body := data in
    let email_errors :=
      match nonEmptyString (field body "email") with
      | None => [ValidationError.mk "email" "Email is required"]
      | Some e =>
          if negb (isValidEmail e)
          then [ValidationError.mk "email" "Invalid email format"] else []
      end in
    let password_errors :=
      match nonEmptyString (field body "password") with
      | None => [ValidationError.mk "password" "Password is required"]
      | Some p =>
          if negb (isValidPassword p)
          then [ValidationError.mk "password" "Password must be at least 8 characters"]
          else []
      end in
    let name_errors :=
      match nonEmptyString (field body "name") with
      | None => [ValidationError.mk "name" "Name is required"]
      | Some n =>
          if (String.length (trim n) <? 2)%nat
          then [ValidationError.mk "name" "Name must be at least 2 characters"]
          else []
      end in
    let errors := email_errors ++ password_errors ++ name_errors in
    match errors with
    | _ :: _ => Validation.mk false errors None
    | [] =>
        Validation.mk true []
          (Some (RegisterDTO.mk
                   (trim (toLowerCase (asString (field body "email"))))
                   (asString (field body "password"))
                   (trim (asString (field body "name")))))
    end.

Definition validateLogin (data : json) : Validation.t LoginDTO.t :=
  if negb (isObject data) then bodyRequired
  else
    let body := data in
    let email_errors :=
      match nonEmptyString (field body "email") with
      | None => [ValidationError.mk "email" "Email is required"]
      | Some e =>
          if negb (isValidEmail e)
          then [ValidationError.mk "email" "Invalid email format"] else []
      end in
    let password_errors :=
      match nonEmptyString (field body "password") with
      | None => [ValidationError.mk "password" "Password is required"]
      | Some _ => []
      end in
    let errors := email_errors ++ password_errors in
    match errors with
    | _ :: _ => Validation.mk false errors None
    | [] =>
        Validation.mk true []
          (Some (LoginDTO.mk
                   (trim (toLowerCase (asString (field body "email"))))
                   (asString (field body "password"))))
    end.

(** [validStatuses.includes(v)] and [validPriorities.includes(v)], with the
    value the cast that follows yields. *)
Definition statusOf (v : json) : option TaskStatus :=
  match v with
  | JStr s =>
      if String.eqb s "pending" then Some pending
      else if String.eqb s "in_progress" then Some in_progress
      else if String.eqb s "completed" then Some completed
      else None
  | _ => None
  end.

Definition priorityOf (v : json) : option TaskPriority :=
  match v with
  | JStr s =>
      if String.eqb s "low" then Some low
      else if String.eqb s "medium" then Some medium
      else if String.eqb s "high" then Some high
      else None
  | _ => None
  end.

Definition isSome {A : Type} (o : option A) : bool :=
  match o with Some _ => true | None => false end.

(** The query string of [GET /tasks]; [None] is a parameter that is absent
    ([searchParams.get] gives [null]). *)
Module Query.
Record t : Type := mk {
  page : option string;
  limit : option string;
  status : option string;
  search : option string
}.
End Query.

Section Server.

(** [new Date(s).getTime()], [None] when it is [NaN]: what a date string
    denotes is left to the JavaScript engine. *)
Variable Date_parse : string -> option Date.

(** [title ILIKE pattern] of PostgreSQL. *)
Variable ILIKE : string -> string -> bool.

(** bcryptjs's key derivation [_crypt] with the encoding of its result:
    from a password and a salt string that passed the checks of [_hash],
    the 60-character hash, or an error. *)
Variable crypt : string -> string -> Result string.

(** Whether a string is a value of the type of the [id] columns.  The type
    is part of the schema, which is not among the sources: for a column of
    type [uuid], a statement comparing it with a string that is no UUID
    fails.  Ids read from rows or from tokens issued by the server are such
    values; the [:id] segment of a URL need not be. *)
Variable isId : string -> bool.

Definition validateUpdateTask (data : json) : Validation.t UpdateTaskDTO.t :=
  if negb (isObject data) then bodyRequired
  else
    let body := data in
    let hasAnyField :=
      isSome (field body "title") || isSome (field body "description") ||
      isSome (field body "status") || isSome (field body "priority") ||
      isSome (field body "due_date") in
    let any_errors :=
      if negb hasAnyField
      then [ValidationError.mk "body" "At least one field must be provided"]
      else [] in
    let title_errors :=
      match field body "title" with
      | None => []
      | Some (JStr s) =>
          if (String.length (trim s) <? 1)%nat
          then [ValidationError.mk "title" "Title cannot be empty"]
          else if (255 <? String.length (trim s))%nat
          then [ValidationError.mk "title" "Title must be less than 255 characters"]
          else []
      | Some _ => [ValidationError.mk "title" "Title must be a string"]
      end in
    let description_errors :=
      match field body "description" with
      | None | Some JNull | Some (JStr _) => []
      | Some _ =>
          [ValidationError.mk "description" "Description must be a string or null"]
      end in
    let status_errors :=
      match field body "status" with
      | None => []
      | Some v =>
          if isSome (statusOf v) then []
          else [ValidationError.mk "status"
                  "Status must be pending, in_progress, or completed"]
      end in
    let priority_errors :=
      match field body "priority" with
      | None => []
      | Some v =>
          if isSome (priorityOf v) then []
          else [ValidationError.mk "priority" "Priority must be low, medium, or high"]
      end in
    let due_date_errors :=
      match field body "due_date" with
      | None | Some JNull => []
      | Some (JStr s) =>
          match Date_parse s with
          | None => [ValidationError.mk "due_date" "Invalid date format"]
          | Some _ => []
          end
      | Some _ => [ValidationError.mk "due_date" "Due date must be a string or null"]
      end in
    let errors :=
      any_errors ++ title_errors ++ description_errors ++ status_errors ++
      priority_errors ++ due_date_errors in
    match errors with
    | _ :: _ => Validation.mk false errors None
    | [] =>
        Validation.mk true []
          (Some (UpdateTaskDTO.mk
                   (match field body "title" with
                    | None => None
                    | Some v => Some (trim (asString (Some v)))
                    end)
                   (match field body "description" with
                    | None => None
                    | Some JNull => None
                    | Some v => Some (trim (asString (Some v)))
                    end)
                   (match field body "status" with
                    | None => None
                    | Some v => statusOf v
                    end)
                   (match field body "priority" with
                    | None => None
                    | Some v => priorityOf v
                    end)
                   (match field body "due_date" with
                    | None => None
                    | Some JNull => Some None
                    | Some v => Some (Some (asString (Some v)))
                    end)))
    end.

(* =================================================================== *)
(** * 5. Passwords and tokens ([src/lib/auth.ts]) *)
(* =================================================================== *)

(** [s.charAt(i) === c]. *)
Definition charIs (s : string) (i : nat) (c : ascii) : bool :=
  match String.get i s with
  | Some d => Ascii.eqb d c
  | None => false
  end.

(** bcryptjs's [_hash(s, salt)] for a salt given as a string: the version
    and revision of the salt and the presence of its rounds are checked,
    then the key derivation runs. *)
Definition bcrypt_hash (s salt : string) : Result string :=
  if negb (charIs salt 0 "$" && charIs salt 1 "2") then
    Throw "Invalid salt version"
  else
    let offset : option nat :=
      if charIs salt 2 "$" then Some 3%nat
      else if (charIs salt 2 "a" || charIs salt 2 "b" || charIs salt 2 "y")
              && charIs salt 3 "$"
      then Some 4%nat
      else None in
    match offset with
    | None => Throw "Invalid salt revision"
    | Some off =>
        match String.get (off + 2) salt with
        | Some c =>
            if (nat_of_ascii "$" <? nat_of_ascii c)%nat
            then Throw "Missing salt rounds"
            else crypt s salt
        | None => crypt s salt
        end
    end.

(** bcryptjs's [compare(s, hash)]: a string that is not 60 characters long
    is no match; otherwise [s] is hashed under the first 29 characters of
    [hash] and the outcome compared with [hash]. *)
Definition bcrypt_compare (s hash : string) : Result bool :=
  if negb (String.length hash =? 60)%nat then Ok false
  else
    match bcrypt_hash s (substring 0 29 hash) with
    | Throw e => Throw e
    | Ok comp => Ok (String.eqb comp hash)
    end.

(** [hashPassword]: [bcrypt.hash(password, 12)] first draws a salt string
    with [genSalt(12)], here the argument [salt], and hashes under it. *)
Definition hashPassword (password salt : string) : Result string :=
  bcrypt_hash password salt.

Definition verifyPassword (password hash : string) : Result bool :=
  bcrypt_compare password hash.

(** Seconds since the epoch, as [setIssuedAt] and [jwtVerify] read the
    clock. *)
Definition epoch (now : Date) : Z := now / 1000.

Definition ACCESS_TOKEN_EXPIRY : Z := 15 * 60.
Definition REFRESH_TOKEN_EXPIRY : Z := 7 * 24 * 60 * 60.

Definition generateAccessToken (payload : JWTPayload.t) (now : Date) : tokenString :=
  Jws ACCESS_TOKEN_SECRET (JWTPayload.userId payload) (JWTPayload.email payload)
      (epoch now) (epoch now + ACCESS_TOKEN_EXPIRY).

Definition generateRefreshToken (payload : JWTPayload.t) (now : Date) : tokenString :=
  Jws REFRESH_TOKEN_SECRET (JWTPayload.userId payload) (JWTPayload.email payload)
      (epoch now) (epoch now + REFRESH_TOKEN_EXPIRY).

Definition generateTokens (payload : JWTPayload.t) (now : Date) : AuthTokens.t :=
  AuthTokens.mk (generateAccessToken payload now) (generateRefreshToken payload now).

(** jose's [jwtVerify]: the signature must verify under the secret and the
    [exp] claim must lie after the current second. *)
Definition jwtVerify (token : tokenString) (secret : Secret) (now : Date)
  : Result JWTPayload.t :=
  match token with
  | Jws k u e _ x =>
      if negb (Secret_eqb k secret) then Throw "signature verification failed"
      else if x <=? epoch now then Throw "exp claim timestamp check failed"
      else Ok (JWTPayload.mk u e)
  | Text _ => Throw "Invalid Compact JWS"
  end.

Definition verifyAccessToken (token : tokenString) (now : Date) : option JWTPayload.t :=
  match jwtVerify token ACCESS_TOKEN_SECRET now with
  | Ok payload => Some payload
  | Throw _ => None
  end.

Definition verifyRefreshToken (token : tokenString) (now : Date) : option JWTPayload.t :=
  match jwtVerify token REFRESH_TOKEN_SECRET now with
  | Ok payload => Some payload
  | Throw _ => None
  end.

(** [getRefreshTokenExpiry]: seven calendar days from now (in UTC, seven
    times 24 hours). *)
Definition getRefreshTokenExpiry (now : Date) : Date :=
  now + 7 * 24 * 60 * 60 * 1000.

(* =================================================================== *)
(** * 6. The authentication middleware ([src/lib/middleware.ts]) *)
(* =================================================================== *)

(** The [Authorization] header as [withAuth] reads it: absent, present
    without the prefix ["Bearer "], or that prefix followed by a token. *)
Inductive AuthorizationHeader : Type :=
| NoHeader
| NotBearer (value : string)
| Bearer (token : tokenString).

Definition withAuth {R : Type} (unauthorized : string -> R)
    (handler : JWTPayload.t -> R)
    (authHeader : AuthorizationHeader) (now : Date) : R :=
  match authHeader with
  | Bearer token =>
      match verifyAccessToken token now with
      | None => unauthorized "Invalid or expired access token"
      | Some payload => handler payload
      end
  | _ => unauthorized "Authorization header required"
  end.

(* =================================================================== *)
(** * 7. SQL statements on the store *)
(* =================================================================== *)

(** Modelled from the spec: the persisted schema (the migration
    [scripts/001-create-tables.sql] is not among the sources).  Section 6
    of the specification gives [users(id, email unique, ...)] and
    [refresh_tokens(id, user_id, token unique, ...)]; [id] is the key of
    each table.  An [INSERT] that breaks one of these raises. *)
Definition INSERT_INTO_refresh_tokens (row : RefreshToken.t) (db : DB) : Result DB :=
  if existsb (fun r => String.eqb (RefreshToken.id r) (RefreshToken.id row)
                       || tokenString_eqb (RefreshToken.token r) (RefreshToken.token row))
             (refresh_tokens db)
  then Throw "duplicate key value violates unique constraint"
  else Ok (set_refresh_tokens db (refresh_tokens db ++ [row])).

(** Modelled from the spec: the persisted schema, as above. *)
Definition INSERT_INTO_users (row : User.t) (db : DB) : Result DB :=
  if existsb (fun u => String.eqb (User.id u) (User.id row)
                       || String.eqb (User.email u) (User.email row))
             (users db)
  then Throw "duplicate key value violates unique constraint"
  else Ok (set_users db (users db ++ [row])).

(** [SELECT ... FROM users WHERE email = ${email}]. *)
Definition SELECT_users_by_email (email : string) (db : DB) : list User.t :=
  filter (fun u => String.eqb (User.email u) email) (users db).

(** [SELECT ... FROM users WHERE id = ${id}]. *)
Definition SELECT_users_by_id (id : string) (db : DB) : list User.t :=
  filter (fun u => String.eqb (User.id u) id) (users db).

(** [SELECT ... FROM refresh_tokens WHERE token = ${t} AND expires_at > NOW()]. *)
Definition SELECT_live_refresh_tokens (t : tokenString) (now : Date) (db : DB)
  : list RefreshToken.t :=
  filter (fun r => tokenString_eqb (RefreshToken.token r) t
                   && (now <? RefreshToken.expires_at r))
         (refresh_tokens db).

(** [DELETE FROM refresh_tokens WHERE id = ${id}]. *)
Definition DELETE_refresh_token_by_id (id : string) (db : DB) : DB :=
  set_refresh_tokens db
    (filter (fun r => negb (String.eqb (RefreshToken.id r) id)) (refresh_tokens db)).

(** The row filter [WHERE id = ${taskId} AND user_id = ${userId}]. *)
Definition ownedBy (taskId userId : string) (t : Task.t) : bool :=
  String.eqb (Task.id t) taskId && String.eqb (Task.user_id t) userId.

Definition SELECT_task (taskId userId : string) (db : DB) : list Task.t :=
  filter (ownedBy taskId userId) (tasks db).

(** [UPDATE tasks SET ... WHERE id = ... AND user_id = ... RETURNING ...]:
    the store after the statement and the rows it returns. *)
Definition UPDATE_task (set : Task.t -> Task.t) (taskId userId : string) (db : DB)
  : DB * list Task.t :=
  (set_tasks db (map (fun t => if ownedBy taskId userId t then set t else t) (tasks db)),
   map set (filter (ownedBy taskId userId) (tasks db))).

(** [DELETE FROM tasks WHERE id = ... AND user_id = ... RETURNING id]. *)
Definition DELETE_task (taskId userId : string) (db : DB) : DB * list string :=
  (set_tasks db (filter (fun t => negb (ownedBy taskId userId t)) (tasks db)),
   map Task.id (filter (ownedBy taskId userId) (tasks db))).

(** [ORDER BY created_at DESC]; rows with equal keys stay in table order
    (SQL leaves their order open). *)
Fixpoint insertByCreatedDesc (x : Task.t) (l : list Task.t) : list Task.t :=
  match l with
  | [] => [x]
  | y :: r =>
      if Task.created_at y <=? Task.created_at x then x :: y :: r
      else y :: insertByCreatedDesc x r
  end.

Definition ORDER_BY_created_at_DESC (l : list Task.t) : list Task.t :=
  fold_right insertByCreatedDesc [] l.

(** [LIMIT ${limit} OFFSET ${offset}]; a parameter that is [NaN] makes the
    statement fail. *)
Definition LIMIT_OFFSET (limit offset : jsnum) (rows : list Task.t)
  : Result (list Task.t) :=
  match limit, offset with
  | Num l, Num o => Ok (firstn (Z.to_nat l) (skipn (Z.to_nat o) rows))
  | _, _ => Throw "invalid input syntax for type bigint"
  end.

(* =================================================================== *)
(** * 8. Authentication routes *)
(* =================================================================== *)

Definition internalError {T : Type} : ApiResponse.t T :=
  failure 500 "Internal server error".

Definition toPublic (u : User.t) : UserPublic.t :=
  UserPublic.mk (User.id u) (User.email u) (User.name u) (User.created_at u).

(** [POST /auth/register] ([src/app/api/auth/register/route.ts]).  [body]
    is [None] when [request.json()] rejects; [salt] is the salt bcrypt
    draws; [user_id] and [token_id] are the keys the database gives to the
    two rows. *)
Definition POST_register (body : option json) (now : Date)
    (salt user_id token_id : string) (db : DB)
  : ApiResponse.t (UserPublic.t * AuthTokens.t) * DB :=
  match body with
  | None => (internalError, db)
  | Some body =>
      let validation := validateRegister body in
      match Validation.valid validation, Validation.data validation with
      | true, Some dto =>
          let email := RegisterDTO.email dto in
          match SELECT_users_by_email email db with
          | _ :: _ => (failure 409 "Email already registered", db)
          | [] =>
              match hashPassword (RegisterDTO.password dto) salt with
              | Throw _ => (internalError, db)
              | Ok passwordHash =>
                  let row := User.mk user_id email passwordHash (RegisterDTO.name dto) now in
                  match INSERT_INTO_users row db with
                  | Throw _ => (internalError, db)
                  | Ok db1 =>
                      let user := toPublic row in
                      let tokens :=
                        generateTokens
                          (JWTPayload.mk (UserPublic.id user) (UserPublic.email user)) now in
                      let expiresAt := getRefreshTokenExpiry now in
                      match INSERT_INTO_refresh_tokens
                              (RefreshToken.mk token_id (UserPublic.id user)
                                 (AuthTokens.refreshToken tokens) expiresAt now) db1 with
                      | Throw _ => (internalError, db1)
                      | Ok db2 =>
                          (reply 201 (Some (user, tokens)) (Some "Registration successful"),
                           db2)
                      end
                  end
              end
          end
      | _, _ => (failure 400 (firstMessage (Validation.errors validation)), db)
      end
  end.

(** [POST /auth/login] ([src/app/api/auth/login/route.ts]). *)
Definition POST_login (body : option json) (now : Date) (token_id : string) (db : DB)
  : ApiResponse.t (UserPublic.t * AuthTokens.t) * DB :=
  match body with
  | None => (internalError, db)
  | Some body =>
      let validation := validateLogin body in
      match Validation.valid validation, Validation.data validation with
      | true, Some dto =>
          match SELECT_users_by_email (LoginDTO.email dto) db with
          | [] => (failure 401 "Invalid email or password", db)
          | user :: _ =>
              match verifyPassword (LoginDTO.password dto) (User.password_hash user) with
              | Throw _ => (internalError, db)
              | Ok false => (failure 401 "Invalid email or password", db)
              | Ok true =>
                  let tokens :=
                    generateTokens (JWTPayload.mk (User.id user) (User.email user)) now in
                  let expiresAt := getRefreshTokenExpiry now in
                  match INSERT_INTO_refresh_tokens
                          (RefreshToken.mk token_id (User.id user)
                             (AuthTokens.refreshToken tokens) expiresAt now) db with
                  | Throw _ => (internalError, db)
                  | Ok db1 =>
                      (reply 200 (Some (toPublic user, tokens)) (Some "Login successful"),
                       db1)
                  end
              end
          end
      | _, _ => (failure 400 (firstMessage (Validation.errors validation)), db)
      end
  end.

(** The [refreshToken] member of the body of [POST /auth/refresh]. *)
Inductive tokenField : Type :=
| NotAString            (* undefined, null, a number, ... *)
| Str (t : tokenString).

(** What [request.json()] yields for [POST /auth/refresh]: a rejection, the
    value [null] (on which the destructuring throws), or a value whose
    [refreshToken] member is read. *)
Inductive RefreshRequest : Type :=
| InvalidJson
| JsonNull
| JsonValue (refreshToken : tokenField).

Definition isEmptyToken (t : tokenString) : bool :=
  match t with
  | Text EmptyString => true
  | _ => false
  end.

(** [POST /auth/refresh] ([src/app/api/auth/refresh/route.ts]). *)
Definition POST_refresh (request : RefreshRequest) (now : Date) (token_id : string)
    (db : DB) : ApiResponse.t AuthTokens.t * DB :=
  match request with
  | InvalidJson | JsonNull => (internalError, db)
  | JsonValue NotAString => (failure 400 "Refresh token is required", db)
  | JsonValue (Str refreshToken) =>
      if isEmptyToken refreshToken then (failure 400 "Refresh token is required", db)
      else
        match verifyRefreshToken refreshToken now with
        | None => (failure 401 "Invalid refresh token", db)
        | Some _ =>
            match SELECT_live_refresh_tokens refreshToken now db with
            | [] => (failure 401 "Refresh token expired or revoked", db)
            | storedToken :: _ =>
                match SELECT_users_by_id (RefreshToken.user_id storedToken) db with
                | [] => (failure 401 "User not found", db)
                | user :: _ =>
                    let db1 := DELETE_refresh_token_by_id (RefreshToken.id storedToken) db in
                    let newTokens :=
                      generateTokens (JWTPayload.mk (User.id user) (User.email user)) now in
                    let expiresAt := getRefreshTokenExpiry now in
                    match INSERT_INTO_refresh_tokens
                            (RefreshToken.mk token_id (User.id user)
                               (AuthTokens.refreshToken newTokens) expiresAt now) db1 with
                    | Throw _ => (internalError, db1)
                    | Ok db2 =>
                        (reply 200 (Some newTokens) (Some "Tokens refreshed successfully"),
                         db2)
                    end
                end
            end
        end
  end.

(* =================================================================== *)
(** * 9. Task routes ([src/app/api/tasks/**/route.ts]) *)
(* =================================================================== *)

Definition jsnum_sub (a b : jsnum) : jsnum :=
  match a, b with Num x, Num y => Num (x - y) | _, _ => NaN end.

Definition jsnum_mul (a b : jsnum) : jsnum :=
  match a, b with Num x, Num y => Num (x * y) | _, _ => NaN end.

(** [Math.ceil(total / limit)]. *)
Definition Math_ceil_quot (total : Z) (limit : jsnum) : jsnum :=
  match limit with Num l => Num (Math_ceil_div total l) | NaN => NaN end.

Definition effectivePage (q : Query.t) : jsnum :=
  Math_max (Num 1) (parseInt (orDefault (Query.page q) "1")).

Definition effectiveLimit (q : Query.t) : jsnum :=
  Math_min (Num 100) (Math_max (Num 1) (parseInt (orDefault (Query.limit q) "10"))).

Definition statusIs (status : string) (t : Task.t) : bool :=
  String.eqb (TaskStatus_to_string (Task.status t)) status.

Definition ownerIs (userId : string) (t : Task.t) : bool :=
  String.eqb (Task.user_id t) userId.

(** [GET /tasks]. *)
Definition getTasks (q : Query.t) (user : JWTPayload.t) (db : DB) : PaginatedResponse.t :=
  let page := effectivePage q in
  let limit := effectiveLimit q in
  let offset := jsnum_mul (jsnum_sub page (Num 1)) limit in
  let status := Query.status q in
  let search := Query.search q in
  let searchPattern := if truthy search then ("%" ++ trim (orDefault search "") ++ "%")%string
                       else EmptyString in
  let userId := JWTPayload.userId user in
  (* total count under the filters *)
  let countResult : list Task.t :=
    if truthy status && truthy search then
      filter (fun t => ownerIs userId t && statusIs (orDefault status "") t
                       && ILIKE (Task.title t) searchPattern) (tasks db)
    else if truthy status then
      filter (fun t => ownerIs userId t && statusIs (orDefault status "") t) (tasks db)
    else if truthy search then
      filter (fun t => ownerIs userId t && ILIKE (Task.title t) searchPattern) (tasks db)
    else
      filter (fun t => ownerIs userId t) (tasks db) in
  let total := Z.of_nat (length countResult) in
  (* the page under the filters *)
  let selected : Result (list Task.t) :=
    if truthy status && truthy search then
      LIMIT_OFFSET limit offset
        (ORDER_BY_created_at_DESC
           (filter (fun t => ownerIs userId t && statusIs (orDefault status "") t
                             && ILIKE (Task.title t) searchPattern) (tasks db)))
    else if truthy status then
      LIMIT_OFFSET limit offset
        (ORDER_BY_created_at_DESC
           (filter (fun t => ownerIs userId t && statusIs (orDefault status "") t)
                   (tasks db)))
    else if truthy search then
      LIMIT_OFFSET limit offset
        (ORDER_BY_created_at_DESC
           (filter (fun t => ownerIs userId t && ILIKE (Task.title t) searchPattern)
                   (tasks db)))
    else
      LIMIT_OFFSET limit offset
        (ORDER_BY_created_at_DESC (filter (fun t => ownerIs userId t) (tasks db))) in
  match selected with
  | Ok rows =>
      PaginatedResponse.mk 200 true rows
        (Pagination.mk page limit total (Math_ceil_quot total limit))
  | Throw _ =>
      PaginatedResponse.mk 500 false [] (Pagination.mk (Num 1) (Num 10) 0 (Num 0))
  end.

(** [GET /tasks/:id]; [taskId] is [params?.id]. *)
Definition getTask (taskId : option string) (user : JWTPayload.t) (db : DB)
  : ApiResponse.t Task.t * DB :=
  if negb (truthy taskId) then (failure 400 "Task ID is required", db)
  else if negb (isId (orDefault taskId "")) then (internalError, db)
  else
    match SELECT_task (orDefault taskId "") (JWTPayload.userId user) db with
    | [] => (failure 404 "Task not found", db)
    | task :: _ => (reply 200 (Some task) None, db)
    end.

(** The assignment of [updateTask]: every column is written, with the
    request's value where it has one and the row's value otherwise. *)
Definition mergeUpdate (updates : UpdateTaskDTO.t) (existingTask : Task.t) (now : Date)
  : Result (Task.t -> Task.t) :=
  let newTitle :=
    match UpdateTaskDTO.title updates with
    | Some s => s
    | None => Task.title existingTask
    end in
  let newDescription :=
    match UpdateTaskDTO.description updates with
    | Some EmptyString => None             (* updates.description || null *)
    | Some s => Some s
    | None => Task.description existingTask
    end in
  let newStatus :=
    match UpdateTaskDTO.status updates with
    | Some s => s
    | None => Task.status existingTask
    end in
  let newPriority :=
    match UpdateTaskDTO.priority updates with
    | Some p => p
    | None => Task.priority existingTask
    end in
  let newDueDate : Result (option Date) :=
    match UpdateTaskDTO.due_date updates with
    | Some (Some (String c r)) =>
        match Date_parse (String c r) with
        | Some d => Ok (Some d)            (* new Date(s).toISOString() *)
        | None => Throw "Invalid time value"
        end
    | Some _ => Ok None
    | None => Ok (Task.due_date existingTask)
    end in
  match newDueDate with
  | Throw e => Throw e
  | Ok due =>
      Ok (fun t => Task.mk (Task.id t) (Task.user_id t) newTitle newDescription
                     newStatus newPriority due (Task.created_at t) now)
  end.

(** [PATCH /tasks/:id]; [body] is [None] when [request.json()] rejects. *)
Definition updateTask (taskId : option string) (body : option json)
    (user : JWTPayload.t) (now : Date) (db : DB) : ApiResponse.t Task.t * DB :=
  if negb (truthy taskId) then (failure 400 "Task ID is required", db)
  else
    match body with
    | None => (internalError, db)
    | Some body =>
        let validation := validateUpdateTask body in
        match Validation.valid validation, Validation.data validation with
        | true, Some updates =>
            let id := orDefault taskId "" in
            let userId := JWTPayload.userId user in
            if negb (isId id) then (internalError, db)
            else
            match SELECT_task id userId db with
            | [] => (failure 404 "Task not found", db)
            | existingTask :: _ =>
                match mergeUpdate updates existingTask now with
                | Throw _ => (internalError, db)
                | Ok set =>
                    let '(db1, updatedTasks) := UPDATE_task set id userId db in
                    (reply 200 (hd_error updatedTasks) (Some "Task updated successfully"),
                     db1)
                end
            end
        | _, _ => (failure 400 (firstMessage (Validation.errors validation)), db)
        end
    end.

(** [DELETE /tasks/:id]. *)
Definition deleteTask (taskId : option string) (user : JWTPayload.t) (db : DB)
  : ApiResponse.t Task.t * DB :=
  if negb (truthy taskId) then (failure 400 "Task ID is required", db)
  else if negb (isId (orDefault taskId "")) then (internalError, db)
  else
    match DELETE_task (orDefault taskId "") (JWTPayload.userId user) db with
    | (_, []) => (failure 404 "Task not found", db)
    | (db1, _ :: _) => (reply 200 None (Some "Task deleted successfully"), db1)
    end.

(** [PATCH /tasks/:id/toggle]. *)
Definition toggleTask (taskId : option string) (user : JWTPayload.t) (now : Date)
    (db : DB) : ApiResponse.t Task.t * DB :=
  if negb (truthy taskId) then (failure 400 "Task ID is required", db)
  else if negb (isId (orDefault taskId "")) then (internalError, db)
  else
    let id := orDefault taskId "" in
    let userId := JWTPayload.userId user in
    match SELECT_task id userId db with
    | [] => (failure 404 "Task not found", db)
    | existingTask :: _ =>
        let currentStatus := Task.status existingTask in
        let newStatus :=
          if TaskStatus_eqb currentStatus completed then pending else completed in
        let '(db1, updatedTasks) :=
          UPDATE_task
            (fun t => Task.mk (Task.id t) (Task.user_id t) (Task.title t)
                        (Task.description t) newStatus (Task.priority t)
                        (Task.due_date t) (Task.created_at t) now)
            id userId db in
        (reply 200 (hd_error updatedTasks)
           (Some ("Task marked as " ++ TaskStatus_to_string newStatus)%string),
         db1)
    end.

Definition unauthorized {T : Type} (msg : string) (db : DB) : ApiResponse.t T * DB :=
  (failure 401 msg, db).

(** The exported handlers: [export const GET = withAuth(getTask)] and its
    siblings. *)
Definition GET_task (authHeader : AuthorizationHeader) (taskId : option string)
    (now : Date) (db : DB) : ApiResponse.t Task.t * DB :=
  withAuth unauthorized (fun user => getTask taskId user) authHeader now db.

Definition PATCH_task (authHeader : AuthorizationHeader) (taskId : option string)
    (body : option json) (now : Date) (db : DB) : ApiResponse.t Task.t * DB :=
  withAuth unauthorized (fun user => updateTask taskId body user now) authHeader now db.

Definition DELETE_task_route (authHeader : AuthorizationHeader) (taskId : option string)
    (now : Date) (db : DB) : ApiResponse.t Task.t * DB :=
  withAuth unauthorized (fun user => deleteTask taskId user) authHeader now db.

Definition PATCH_toggle (authHeader : AuthorizationHeader) (taskId : option string)
    (now : Date) (db : DB) : ApiResponse.t Task.t * DB :=
  withAuth unauthorized (fun user => toggleTask taskId user now) authHeader now db.

End Server.

Arguments withAuth {R} unauthorized handler authHeader now.
Arguments unauthorized {T} msg db.
Arguments internalError {T}.

(* ===================================================================== *)
(** * 10. Instances of the platform functions

    The theorems below hold for every [Date_parse], [ILIKE] and [crypt].
    The following instances serve to run the handlers on concrete
    requests. *)
(* ===================================================================== *)

(** A date string read as a count of milliseconds. *)
Definition Date_parse0 (s : string) : option Date :=
  match parseInt s with
  | Num z => Some z
  | NaN => None
  end.

(** [LIKE] with the wildcards [%] and [_]. *)
Fixpoint like (pattern s : string) : bool :=
  match pattern with
  | EmptyString => match s with EmptyString => true | _ => false end
  | String "%" p =>
      (fix star (s : string) : bool :=
         like p s || match s with
                     | EmptyString => false
                     | String _ r => star r
                     end) s
  | String "_" p => match s with EmptyString => false | String _ r => like p r end
  | String c p =>
      match s with
      | EmptyString => false
      | String d r => Ascii.eqb c d && like p r
      end
  end.

Definition ILIKE0 (value pattern : string) : bool :=
  like (toLowerCase pattern) (toLowerCase value).

(** A key derivation that keeps the salt and pads the password to 31
    characters. *)
Definition crypt0 (s salt : string) : Result string :=
  Ok (salt ++ substring 0 31 (s ++ "..............................."))%string.

(** [id] columns of type [text]: every string is a value. *)
Definition isId0 (s : string) : bool := true.

Definition salt0 : string := "$2b$12$abcdefghijklmnopqrstuv".

Definition emptyDB : DB := mkDB [] [] [].

Definition credentials (email password name : string) : json :=
  JObj [("email", JStr email); ("password", JStr password); ("name", JStr name)].

(* ===================================================================== *)
(** * 11. Definitions used in the statements

    Predicates in the words of the specification, the rows that the
    handlers are shown to store, and the stores of the worked runs. *)
(* ===================================================================== *)

Ltac each_ascii c := destruct c as [[] [] [] [] [] [] [] []].

(** No character of [s] is white space. *)
Fixpoint noWhiteSpace (s : string) : bool :=
  match s with
  | EmptyString => true
  | String c r => negb (isWhiteSpace c) && noWhiteSpace r
  end.

(** The row that a successful rotation inserts. *)
Definition rotatedRow (user : User.t) (now : Date) (token_id : string) : RefreshToken.t :=
  RefreshToken.mk token_id (User.id user)
    (generateRefreshToken (JWTPayload.mk (User.id user) (User.email user)) now)
    (getRefreshTokenExpiry now) now.

(** A run: Alice registers at 1.5 s after the epoch; [aliceDB] is the store
    the registration leaves and [aliceToken] the refresh token it issued. *)
Definition aliceDB : DB :=
  snd (POST_register crypt0 (Some (credentials "Alice@Example.com" "password123" "Alice"))
         1500 salt0 "u1" "r1" emptyDB).

Definition aliceToken : tokenString :=
  Jws REFRESH_TOKEN_SECRET "u1" "alice@example.com" 1 604801.

Definition aliceRow : RefreshToken.t :=
  RefreshToken.mk "r1" "u1" aliceToken 604801500 1500.

Definition alice : User.t :=
  User.mk "u1" "alice@example.com"
    "$2b$12$abcdefghijklmnopqrstuvpassword123...................." "Alice" 1500.

(** The table with the row of key [id t'] replaced by [t']. *)
Definition replaceTask (t' : Task.t) (l : list Task.t) : list Task.t :=
  map (fun x => if String.eqb (Task.id x) (Task.id t') then t' else x) l.

(** What [PATCH /tasks/:id] answers to a caller who owns no row of the id:
    the body is read and validated before the row is looked up. *)
Definition patchUnseen (Date_parse : string -> option Date) (body : option json)
  : ApiResponse.t Task.t :=
  match body with
  | None => internalError
  | Some b =>
      let validation := validateUpdateTask Date_parse b in
      match Validation.valid validation, Validation.data validation with
      | true, Some _ => failure 404 "Task not found"
      | _, _ => failure 400 (firstMessage (Validation.errors validation))
      end
  end.

(** A store with one task, Bob's; Alice holds a valid access token. *)
Definition bobTask : Task.t :=
  Task.mk "t1" "u2" "Buy milk" (Some "2 litres") pending medium (Some 1000) 2000 2000.

Definition bobDB : DB := mkDB [] [] [bobTask].

Definition aliceAccess : tokenString :=
  Jws ACCESS_TOKEN_SECRET "u1" "alice@example.com" 1 901.

Definition bobAccess : tokenString :=
  Jws ACCESS_TOKEN_SECRET "u2" "bob@example.com" 1 901.

(** The target of a toggle, in the words of the specification:
    [completed -> pending], anything else [-> completed]. *)
Definition flip (s : TaskStatus) : TaskStatus :=
  match s with
  | completed => pending
  | pending | in_progress => completed
  end.

(** The row of [t] after a toggle at [now]. *)
Definition toggled (t : Task.t) (now : Date) : Task.t :=
  Task.mk (Task.id t) (Task.user_id t) (Task.title t) (Task.description t)
    (flip (Task.status t)) (Task.priority t) (Task.due_date t) (Task.created_at t) now.

(** The row of [t] with nothing but [updated_at] changed. *)
Definition touched (t : Task.t) (now : Date) : Task.t :=
  Task.mk (Task.id t) (Task.user_id t) (Task.title t) (Task.description t)
    (Task.status t) (Task.priority t) (Task.due_date t) (Task.created_at t) now.

(** The filter of a listing in the words of the specification: the rows of
    the user, with the status when one is given and with a title matching
    the search when one is given. *)
Definition matchesFilter (ILIKE : string -> string -> bool) (userId : string)
    (status search : option string) (t : Task.t) : bool :=
  ownerIs userId t
  && (if truthy status then statusIs (orDefault status "") t else true)
  && (if truthy search
      then ILIKE (Task.title t) ("%" ++ trim (orDefault search "") ++ "%")%string
      else true).



(** A string of 60 letters, not a bcrypt hash. *)
Definition malformedHash : string :=
  "xxxxxxxxxxxxxxxxxxxxxxxxxxxxxxxxxxxxxxxxxxxxxxxxxxxxxxxxxxxx".

Definition malloryDB : DB :=
  mkDB [User.mk "u9" "mallory@example.com" malformedHash "Mallory" 0] [] [].

(** A request body whose [email] member is the string [e]. *)
Definition withEmail (e : string) (rest : list (string * json)) : json :=
  JObj (("email", JStr e) :: rest).

(** [s] consists of characters of the class [[^\s@]]. *)
Fixpoint inClass (s : string) : bool :=
  match s with
  | EmptyString => true
  | String c r => notSpaceNorAt c && inClass r
  end.

(** [s] matches [[^\s@]+]. *)
Definition plusClass (s : string) : Prop := s <> EmptyString /\ inClass s = true.

(** The language of [EMAIL_REGEX], read off the pattern:
    [[^\s@]+ @ [^\s@]+ \. [^\s@]+]. *)
Definition matchesEmailPattern (s : string) : Prop :=
  exists a b c,
    s = (a ++ "@" ++ b ++ "." ++ c)%string /\ plusClass a /\ plusClass b /\ plusClass c.

(** The constraints of the schema as properties of a store: the [token]
    column of [refresh_tokens] and the [id] column of [tasks] hold each value
    once. *)
Definition tokensUnique (db : DB) : Prop :=
  NoDup (map RefreshToken.token (refresh_tokens db)).

Definition taskIdsUnique (db : DB) : Prop :=
  NoDup (map Task.id (tasks db)).

(* ===================================================================== *)
(** * Further routes: create, logout and the current user *)
(* ===================================================================== *)

(** [CreateTaskDTO]; at run time [due_date] may also be [null], which the
    validator lets through. *)
Module CreateTaskDTO.
Record t : Type := mk {
  title : string;
  description : option string;
  status : option TaskStatus;
  priority : option TaskPriority;
  due_date : option (option string)
}.
End CreateTaskDTO.

(** [validateCreateTask] ([src/lib/validation.ts]). *)
Definition validateCreateTask (Date_parse : string -> option Date) (data : json)
  : Validation.t CreateTaskDTO.t :=
  if negb (isObject data) then bodyRequired
  else
    let body := data in
    let title_errors :=
      match nonEmptyString (field body "title") with
      | None => [ValidationError.mk "title" "Title is required"]
      | Some s =>
          if (String.length (trim s) <? 1)%nat
          then [ValidationError.mk "title" "Title cannot be empty"]
          else if (255 <? String.length (trim s))%nat
          then [ValidationError.mk "title" "Title must be less than 255 characters"]
          else []
      end in
    let description_errors :=
      match field body "description" with
      | None | Some (JStr _) => []
      | Some _ => [ValidationError.mk "description" "Description must be a string"]
      end in
    let status_errors :=
      match field body "status" with
      | None => []
      | Some v =>
          if isSome (statusOf v) then []
          else [ValidationError.mk "status"
                  "Status must be pending, in_progress, or completed"]
      end in
    let priority_errors :=
      match field body "priority" with
      | None => []
      | Some v =>
          if isSome (priorityOf v) then []
          else [ValidationError.mk "priority" "Priority must be low, medium, or high"]
      end in
    let due_date_errors :=
      match field body "due_date" with
      | None | Some JNull => []
      | Some (JStr s) =>
          match Date_parse s with
          | None => [ValidationError.mk "due_date" "Invalid date format"]
          | Some _ => []
          end
      | Some _ => [ValidationError.mk "due_date" "Due date must be a string"]
      end in
    let errors :=
      title_errors ++ description_errors ++ status_errors ++ priority_errors ++
      due_date_errors in
    match errors with
    | _ :: _ => Validation.mk false errors None
    | [] =>
        Validation.mk true []
          (Some (CreateTaskDTO.mk
                   (trim (asString (field body "title")))
                   (match field body "description" with
                    | Some (JStr (String c r)) => Some (trim (String c r))
                    | _ => None
                    end)
                   (match field body "status" with
                    | None => None
                    | Some v => statusOf v
                    end)
                   (match field body "priority" with
                    | None => None
                    | Some v => priorityOf v
                    end)
                   (match field body "due_date" with
                    | None => None
                    | Some JNull => Some None
                    | Some v => Some (Some (asString (Some v)))
                    end)))
    end.

(** Modelled from the spec: the persisted schema, as for the other tables;
    [id] is the key of [tasks], and the row is stamped with the current
    instant ([created_at], [updated_at]). *)
Definition INSERT_INTO_tasks (row : Task.t) (db : DB) : Result DB :=
  if existsb (fun t => String.eqb (Task.id t) (Task.id row)) (tasks db)
  then Throw "duplicate key value violates unique constraint"
  else Ok (set_tasks db (tasks db ++ [row])).

(** The row that [createTask] inserts for a validated request. *)
Definition createdRow (dto : CreateTaskDTO.t) (userId new_id : string)
    (due : option Date) (now : Date) : Task.t :=
  Task.mk new_id userId (CreateTaskDTO.title dto)
    (match CreateTaskDTO.description dto with      (* description || null *)
     | Some (String c r) => Some (String c r)
     | _ => None
     end)
    (match CreateTaskDTO.status dto with           (* status || "pending" *)
     | Some s => s
     | None => pending
     end)
    (match CreateTaskDTO.priority dto with         (* priority || "medium" *)
     | Some p => p
     | None => medium
     end)
    due now now.

(** [POST /tasks] ([src/app/api/tasks/route.ts]); [new_id] is the key the
    database gives to the row. *)
Definition createTask (Date_parse : string -> option Date) (body : option json)
    (user : JWTPayload.t) (now : Date) (new_id : string) (db : DB)
  : ApiResponse.t Task.t * DB :=
  match body with
  | None => (internalError, db)
  | Some body =>
      let validation := validateCreateTask Date_parse body in
      match Validation.valid validation, Validation.data validation with
      | true, Some dto =>
          let due : Result (option Date) :=
            match CreateTaskDTO.due_date dto with
            | Some (Some (String c r)) =>
                match Date_parse (String c r) with
                | Some d => Ok (Some d)          (* new Date(s).toISOString() *)
                | None => Throw "Invalid time value"
                end
            | _ => Ok None
            end in
          match due with
          | Throw _ => (internalError, db)
          | Ok due =>
              let row := createdRow dto (JWTPayload.userId user) new_id due now in
              match INSERT_INTO_tasks row db with
              | Throw _ => (internalError, db)
              | Ok db1 => (reply 201 (Some row) (Some "Task created successfully"), db1)
              end
          end
      | _, _ => (failure 400 (firstMessage (Validation.errors validation)), db)
      end
  end.

(** [export const POST = withAuth(createTask)]. *)
Definition POST_task (Date_parse : string -> option Date)
    (authHeader : AuthorizationHeader) (body : option json) (now : Date)
    (new_id : string) (db : DB) : ApiResponse.t Task.t * DB :=
  withAuth unauthorized (fun user => createTask Date_parse body user now new_id)
    authHeader now db.

(** The body of [POST /auth/logout] as the handler reads it.  [NoBody]: the
    call [request.json()] rejects, or yields [null] so that reading the member
    throws; either is caught and ignored.  [LogoutBody m]: the member
    [refreshToken], of declared type [string | undefined], is the string [t]
    for [m = Some t] and absent or [null] for [m = None]. *)
Inductive LogoutRequest : Type :=
| NoBody
| LogoutBody (refreshToken : option tokenString).

(** [DELETE FROM refresh_tokens WHERE user_id = ${u} AND token = ${t}]. *)
Definition DELETE_refresh_token_of (userId : string) (t : tokenString) (db : DB) : DB :=
  set_refresh_tokens db
    (filter (fun r => negb (String.eqb (RefreshToken.user_id r) userId
                            && tokenString_eqb (RefreshToken.token r) t))
            (refresh_tokens db)).

(** [DELETE FROM refresh_tokens WHERE user_id = ${u}]. *)
Definition DELETE_refresh_tokens_of_user (userId : string) (db : DB) : DB :=
  set_refresh_tokens db
    (filter (fun r => negb (String.eqb (RefreshToken.user_id r) userId))
            (refresh_tokens db)).

(** [POST /auth/logout] ([src/app/api/auth/logout/route.ts]). *)
Definition POST_logout (authHeader : AuthorizationHeader) (request : LogoutRequest)
    (now : Date) (db : DB) : ApiResponse.t unit * DB :=
  match authHeader with
  | Bearer accessToken =>
      match verifyAccessToken accessToken now with
      | None => (failure 401 "Invalid access token", db)
      | Some payload =>
          let refreshToken : option tokenString :=
            match request with
            | NoBody => None
            | LogoutBody m => m
            end in
          let db1 :=
            match refreshToken with
            | Some t =>
                if isEmptyToken t                       (* if (refreshToken) *)
                then DELETE_refresh_tokens_of_user (JWTPayload.userId payload) db
                else DELETE_refresh_token_of (JWTPayload.userId payload) t db
            | None => DELETE_refresh_tokens_of_user (JWTPayload.userId payload) db
            end in
          (reply 200 None (Some "Logout successful"), db1)
      end
  | _ => (failure 401 "Authorization header required", db)
  end.

(** [GET /auth/me]. *)
Definition GET_me (authHeader : AuthorizationHeader) (now : Date) (db : DB)
  : ApiResponse.t UserPublic.t * DB :=
  match authHeader with
  | Bearer accessToken =>
      match verifyAccessToken accessToken now with
      | None => (failure 401 "Invalid or expired access token", db)
      | Some payload =>
          match SELECT_users_by_id (JWTPayload.userId payload) db with
          | [] => (failure 404 "User not found", db)
          | user :: _ => (reply 200 (Some (toPublic user)) None, db)
          end
      end
  | _ => (failure 401 "Authorization header required", db)
  end.

(* ===================================================================== *)
(** * Definitions used in the statements on the further code *)
(* ===================================================================== *)

(** The rows of [tasks] that belong to somebody other than [userId]. *)
Definition rowsOfOthers (userId : string) (db : DB) : list Task.t :=
  filter (fun t => negb (ownerIs userId t)) (tasks db).

(** [db'] differs from [db] at most in task rows of [userId]. *)
Definition sparesOthers (userId : string) (db db' : DB) : Prop :=
  rowsOfOthers userId db' = rowsOfOthers userId db
  /\ users db' = users db
  /\ refresh_tokens db' = refresh_tokens db.

(** The columns that no request assigns. *)
Definition fixedColumns (t : Task.t) : string * string * Date :=
  (Task.id t, Task.user_id t, Task.created_at t).

(** Every character of [s] is an ASCII character.  On such a string a byte
    is a UTF-16 code unit, so that [String.length] is the [length] of
    JavaScript, and [trim], [toLowerCase] and the white-space class of a
    pattern are those of JavaScript; on other strings they are not (JavaScript
    folds the case of letters and strips white space beyond ASCII). *)
Fixpoint isASCII (s : string) : bool :=
  match s with
  | EmptyString => true
  | String c r => (nat_of_ascii c <? 128)%nat && isASCII r
  end.

(** The members [keys] of [body] that are strings are ASCII strings. *)
Definition asciiMembers (body : json) (keys : list string) : bool :=
  forallb (fun k => match field body k with
                    | Some (JStr s) => isASCII s
                    | _ => true
                    end)
          keys.

(** The same of a request whose body may be unreadable. *)
Definition asciiRequest (body : option json) (keys : list string) : bool :=
  match body with
  | Some b => asciiMembers b keys
  | None => true
  end.

(** An ASCII title as the validators let it through: trimmed, of 1 to 255
    characters. *)
Definition titleOk (s : string) : Prop :=
  isASCII s = true /\ trim s = s /\ (1 <= String.length s <= 255)%nat.

(** The request succeeded, or it left the store as it was. *)
Definition okOrUnchanged {T : Type} (db : DB) (r : ApiResponse.t T * DB) : Prop :=
  ApiResponse.success (fst r) = true \/ snd r = db.

(** Bob, the owner of [bobTask]. *)
Definition bob : JWTPayload.t := JWTPayload.mk "u2" "bob@example.com".

(** [s] is empty or begins with a character that is no white space. *)
Definition startsClean (s : string) : Prop :=
  match s with
  | EmptyString => True
  | String c _ => isWhiteSpace c = false
  end.

(** Every stored title is one the validators let through. *)
Definition titlesOk (db : DB) : Prop :=
  Forall (fun t => titleOk (Task.title t)) (tasks db).

(** A request body for [POST /tasks] with a title only. *)
Definition titled (s : string) : json := JObj [("title", JStr s)].

(** The refresh-token rows of [userId], and those of everybody else. *)
Definition sessionsOf (userId : string) (db : DB) : list RefreshToken.t :=
  filter (fun r => String.eqb (RefreshToken.user_id r) userId) (refresh_tokens db).

Definition sessionsOfOthers (userId : string) (db : DB) : list RefreshToken.t :=
  filter (fun r => negb (String.eqb (RefreshToken.user_id r) userId)) (refresh_tokens db).

(** The body of a logout names the token [t], or names none. *)
Definition namesAtMost (request : LogoutRequest) (t : tokenString) : Prop :=
  match request with
  | LogoutBody (Some t') => isEmptyToken t' = true \/ t' = t
  | _ => True
  end.

(** Alice's store with a second session of hers and one of Bob's. *)
Definition aliceSecondRow : RefreshToken.t :=
  RefreshToken.mk "r2" "u1" (Jws REFRESH_TOKEN_SECRET "u1" "alice@example.com" 2 604802)
    604802500 2500.

Definition bobRow : RefreshToken.t :=
  RefreshToken.mk "r3" "u2" (Jws REFRESH_TOKEN_SECRET "u2" "bob@example.com" 2 604802)
    604802500 2500.

Definition sessionsDB : DB :=
  set_refresh_tokens aliceDB [aliceRow; aliceSecondRow; bobRow].

(** Accounts with ASCII addresses as the registration leaves them: no
    address twice, and every address in lower case. *)
Definition accountsOk (db : DB) : Prop :=
  NoDup (map User.email (users db)) /\
  Forall (fun u => isASCII (User.email u) = true
                   /\ toLowerCase (User.email u) = User.email u)
         (users db).


(** The local list [prev] of the dashboard shows rows of the store, up to
    [updated_at]. *)
Definition showsRowsOf (db : DB) (prev : list Task.t) : Prop :=
  Forall (fun x => exists y, In y (tasks db) /\ touched y (Task.updated_at x) = x) prev.

(* ===================================================================== *)
(** * The browser client ([src/lib/api-client.ts])

    The client as it runs in a browser, where [window] is defined; every
    request reaches the server, whose handlers answer it. *)
(* ===================================================================== *)

(** The decimal digit [k], for [0 <= k <= 9]. *)
Definition digitChar (k : Z) : ascii := ascii_of_nat (48 + Z.to_nat k).

(** The digits of [n >= 0] in front of [acc]. *)
Fixpoint digitsOf (fuel : nat) (n : Z) (acc : string) : string :=
  match fuel with
  | O => acc
  | S f =>
      let acc' := String (digitChar (n mod 10)) acc in
      if n <? 10 then acc' else digitsOf f (n / 10) acc'
  end.

(** [n.toString()] for an integer [n] that JavaScript prints with all its
    digits (up to 10^21 in size). *)
Definition Number_toString (n : Z) : string :=
  if n <? 0 then String "-" (digitsOf (S (Z.to_nat (Z.log2 (- n)))) (- n) EmptyString)
  else digitsOf (S (Z.to_nat (Z.log2 n))) n EmptyString.

(** [TasksQueryParams], with integers for the two numbers. *)
Module TasksQueryParams.
Record t : Type := mk {
  page : option Z;
  limit : option Z;
  status : option string;
  search : option string
}.
End TasksQueryParams.

(** The query of [tasksApi.getAll], as the [searchParams.get] of the server
    reads back what [URLSearchParams.set] has put: a parameter is set when
    its value is truthy. *)
Definition getAll_query (params : TasksQueryParams.t) : Query.t :=
  Query.mk
    (match TasksQueryParams.page params with
     | Some n => if n =? 0 then None else Some (Number_toString n)
     | None => None
     end)
    (match TasksQueryParams.limit params with
     | Some n => if n =? 0 then None else Some (Number_toString n)
     | None => None
     end)
    (if truthy (TasksQueryParams.status params) then TasksQueryParams.status params
     else None)
    (if truthy (TasksQueryParams.search params) then TasksQueryParams.search params
     else None).

(** The numbers of a listing request are integers that JavaScript holds and
    prints exactly, the page with room for its product by the greatest
    limit. *)
Definition exactNumbers (params : TasksQueryParams.t) : Prop :=
  match TasksQueryParams.page params with
  | Some p => Z.abs p * 100 <= MAX_SAFE_INTEGER
  | None => True
  end /\
  match TasksQueryParams.limit params with
  | Some l => Z.abs l <= MAX_SAFE_INTEGER
  | None => True
  end.

(** What the client keeps: the two entries of [localStorage], [null] when
    absent, and [window.location.href]. *)
Module Client.
Record t : Type := mk {
  task_app_access_token : option tokenString;
  task_app_refresh_token : option tokenString;
  location_href : string
}.
End Client.

Definition getAccessToken (c : Client.t) : option tokenString :=
  Client.task_app_access_token c.

Definition getRefreshToken (c : Client.t) : option tokenString :=
  Client.task_app_refresh_token c.

Definition setTokens (tokens : AuthTokens.t) (c : Client.t) : Client.t :=
  Client.mk (Some (AuthTokens.accessToken tokens)) (Some (AuthTokens.refreshToken tokens))
    (Client.location_href c).

Definition clearTokens (c : Client.t) : Client.t :=
  Client.mk None None (Client.location_href c).

(** Truthiness of a stored token: a string that is not empty. *)
Definition tokenTruthy (t : option tokenString) : bool :=
  match t with
  | Some t => negb (isEmptyToken t)
  | None => false
  end.

(** What the client reads of a response: [response.status] and the [error]
    member of its JSON body. *)
Class Response (R : Type) : Type := {
  Response_status : R -> Z;
  Response_error : R -> option string
}.

#[export] Instance ApiResponse_Response {T : Type} : Response (ApiResponse.t T) := {|
  Response_status := ApiResponse.http;
  Response_error := ApiResponse.error
|}.

(** [response.ok]. *)
Definition response_ok {R : Type} `{Response R} (response : R) : bool :=
  (200 <=? Response_status response) && (Response_status response <=? 299).

(** The end of [fetchWithAuth]: the body is returned, or an error thrown with
    [data.error || "Request failed"]. *)
Definition settle {R : Type} `{Response R} (response : R) : Result R :=
  if response_ok response then Ok response
  else Throw (orDefault (Response_error response) "Request failed").

(** [refreshTokens]: whether the tokens were renewed. *)
Definition refreshTokens (now : Date) (token_id : string) (c : Client.t) (db : DB)
  : bool * Client.t * DB :=
  match getRefreshToken c with
  | None => (false, c, db)
  | Some refreshToken =>
      if isEmptyToken refreshToken then (false, c, db)
      else
        let '(response, db1) :=
          POST_refresh (JsonValue (Str refreshToken)) now token_id db in
        if negb (response_ok response) then (false, c, db1)
        else
          match ApiResponse.success response, ApiResponse.data response with
          | true, Some tokens => (true, setTokens tokens c, db1)
          | _, _ => (false, c, db1)
          end
  end.

(** [fetchWithAuth(url, options)].  [endpoint] is the handler behind [url]
    applied to the rest of the request, so that only the [Authorization]
    header is left to the client; [t1] is the time at which the server
    handles the request, [t2] the refresh, if any, and [t3] the repeated
    request; [token_id] is the key of the row a refresh inserts. *)
Definition fetchWithAuth {R : Type} `{Response R}
    (endpoint : AuthorizationHeader -> Date -> DB -> R * DB)
    (t1 t2 t3 : Date) (token_id : string) (c : Client.t) (db : DB)
  : Result R * Client.t * DB :=
  let accessToken := getAccessToken c in
  let headers :=
    match accessToken with
    | Some a => if isEmptyToken a then NoHeader else Bearer a
    | None => NoHeader
    end in
  let '(response, db1) := endpoint headers t1 db in
  if (Response_status response =? 401) && tokenTruthy accessToken then
    let '(refreshed, c2, db2) := refreshTokens t2 token_id c db1 in
    if refreshed then
      let headers' :=
        Bearer (match getAccessToken c2 with
                | Some a => a
                | None => Text "null"
                end) in
      let '(response', db3) := endpoint headers' t3 db2 in
      (settle response', c2, db3)
    else
      (Throw "Session expired. Please login again.",
       Client.mk None None "/login", db2)
  else (settle response, c, db1).

(** [authApi.logout]: the body carries the refresh token stored when the
    call begins; an error of the request is ignored. *)
Definition logout (t1 t2 t3 : Date) (token_id : string) (c : Client.t) (db : DB)
  : Client.t * DB :=
  let body := LogoutBody (getRefreshToken c) in
  let '(_, c1, db1) :=
    fetchWithAuth (fun headers now => POST_logout headers body now) t1 t2 t3 token_id c db in
  (clearTokens c1, db1).


(** Alice's browser after her registration. *)
Definition aliceClient : Client.t :=
  Client.mk (Some aliceAccess) (Some aliceToken) "/dashboard".

(** The renewal of the tokens fails: no refresh token is stored, or the
    rotation is answered without success. *)
Definition renewalFails (now : Date) (token_id : string) (c : Client.t) (db : DB) : Prop :=
  match getRefreshToken c with
  | Some rt =>
      isEmptyToken rt = true \/
      ApiResponse.success (fst (POST_refresh (JsonValue (Str rt)) now token_id db)) = false
  | None => True
  end.

(** The update of the local list in [handleToggleTask] of the dashboard,
    made once the request has succeeded ([src/app/dashboard/page.tsx]). *)
Definition optimisticToggle (id : string) (prev : list Task.t) : list Task.t :=
  map (fun task =>
         if String.eqb (Task.id task) id
         then Task.mk (Task.id task) (Task.user_id task) (Task.title task)
                (Task.description task)
                (if TaskStatus_eqb (Task.status task) completed then pending
                 else completed)
                (Task.priority task) (Task.due_date task) (Task.created_at task)
                (Task.updated_at task)
         else task)
      prev.

(* ===================================================================== *)
(** * 12. Strings: lower case, trimming and the e-mail pattern *)
(* ===================================================================== *)

Lemma lowerChar_idem (c : ascii) : lowerChar (lowerChar c) = lowerChar c.
Proof. each_ascii c; reflexivity. Qed.

Lemma isWhiteSpace_lower (c : ascii) : isWhiteSpace (lowerChar c) = isWhiteSpace c.
Proof. each_ascii c; reflexivity. Qed.

Lemma eqb_at_lower (c : ascii) : Ascii.eqb (lowerChar c) "@" = Ascii.eqb c "@".
Proof. each_ascii c; reflexivity. Qed.

Lemma eqb_dot_lower (c : ascii) : Ascii.eqb (lowerChar c) "." = Ascii.eqb c ".".
Proof. each_ascii c; reflexivity. Qed.

Lemma notSpaceNorAt_lower (c : ascii) : notSpaceNorAt (lowerChar c) = notSpaceNorAt c.
Proof. unfold notSpaceNorAt. now rewrite isWhiteSpace_lower, eqb_at_lower. Qed.

Lemma toLowerCase_idem (s : string) : toLowerCase (toLowerCase s) = toLowerCase s.
Proof.
  induction s as [|c r IH]; simpl; [reflexivity|].
  now rewrite lowerChar_idem, IH.
Qed.

Lemma toLowerCase_empty (s : string) :
  toLowerCase s = EmptyString <-> s = EmptyString.
Proof. destruct s; simpl; split; intro H; try reflexivity; discriminate. Qed.

Lemma matchPlusEnd_lower (s : string) : matchPlusEnd (toLowerCase s) = matchPlusEnd s.
Proof.
  induction s as [|c r IH]; [reflexivity|].
  destruct r as [|d r']; simpl in *.
  - apply notSpaceNorAt_lower.
  - now rewrite notSpaceNorAt_lower, IH.
Qed.

Lemma matchDotTail_lower (s : string) : matchDotTail (toLowerCase s) = matchDotTail s.
Proof.
  induction s as [|c r IH]; simpl; [reflexivity|].
  now rewrite notSpaceNorAt_lower, eqb_dot_lower, matchPlusEnd_lower, IH.
Qed.

Lemma matchAtTail_lower (s : string) : matchAtTail (toLowerCase s) = matchAtTail s.
Proof.
  induction s as [|c r IH]; simpl; [reflexivity|].
  rewrite eqb_at_lower, notSpaceNorAt_lower, IH.
  destruct (Ascii.eqb c "@"); [|reflexivity].
  destruct r as [|d r']; simpl; [reflexivity|].
  now rewrite notSpaceNorAt_lower, matchDotTail_lower.
Qed.

Lemma isValidEmail_lower (s : string) : isValidEmail (toLowerCase s) = isValidEmail s.
Proof.
  destruct s as [|c r]; simpl; [reflexivity|].
  unfold isValidEmail, EMAIL_REGEX_test.
  now rewrite notSpaceNorAt_lower, matchAtTail_lower.
Qed.

(** Two spellings with one lower-case form are accepted or rejected
    together. *)
Lemma isValidEmail_case (e e' : string) :
  toLowerCase e = toLowerCase e' -> isValidEmail e = isValidEmail e'.
Proof.
  intro H. rewrite <- (isValidEmail_lower e), <- (isValidEmail_lower e'). now rewrite H.
Qed.

Lemma notSpaceNorAt_noWhite (c : ascii) : notSpaceNorAt c = true -> isWhiteSpace c = false.
Proof.
  unfold notSpaceNorAt. destruct (isWhiteSpace c); simpl; [discriminate|reflexivity].
Qed.

Lemma matchPlusEnd_noWhite (s : string) : matchPlusEnd s = true -> noWhiteSpace s = true.
Proof.
  induction s as [|c r IH]; simpl; [reflexivity|].
  destruct r as [|d r'].
  - intro H. now rewrite (notSpaceNorAt_noWhite _ H).
  - intro H. apply andb_prop in H as [H1 H2].
    rewrite (notSpaceNorAt_noWhite _ H1). simpl. now apply IH.
Qed.

Lemma matchDotTail_noWhite (s : string) : matchDotTail s = true -> noWhiteSpace s = true.
Proof.
  induction s as [|c r IH]; simpl; [reflexivity|].
  intro H. apply andb_prop in H as [H1 H2].
  rewrite (notSpaceNorAt_noWhite _ H1). simpl.
  apply orb_prop in H2 as [H2|H2].
  - apply andb_prop in H2 as [_ H2]. now apply matchPlusEnd_noWhite.
  - now apply IH.
Qed.

Lemma matchAtTail_noWhite (s : string) : matchAtTail s = true -> noWhiteSpace s = true.
Proof.
  induction s as [|c r IH]; simpl; [reflexivity|].
  destruct (Ascii.eqb c "@") eqn:E.
  - apply Ascii.eqb_eq in E. subst c.
    destruct r as [|d r']; [discriminate|].
    intro H. apply andb_prop in H as [H1 H2].
    simpl. rewrite (notSpaceNorAt_noWhite _ H1). simpl.
    now apply matchDotTail_noWhite.
  - intro H. apply andb_prop in H as [H1 H2].
    rewrite (notSpaceNorAt_noWhite _ H1). simpl. now apply IH.
Qed.

Lemma isValidEmail_noWhite (s : string) : isValidEmail s = true -> noWhiteSpace s = true.
Proof.
  destruct s as [|c r]; [discriminate|].
  unfold isValidEmail, EMAIL_REGEX_test. intro H. apply andb_prop in H as [H1 H2].
  simpl. rewrite (notSpaceNorAt_noWhite _ H1). simpl. now apply matchAtTail_noWhite.
Qed.

Lemma trimStart_noWhite (s : string) : noWhiteSpace s = true -> trimStart s = s.
Proof.
  destruct s as [|c r]; simpl; [reflexivity|].
  destruct (isWhiteSpace c); simpl; [discriminate|reflexivity].
Qed.

Lemma noWhiteSpace_reverse (s acc : string) :
  noWhiteSpace (reverse s acc) = noWhiteSpace s && noWhiteSpace acc.
Proof.
  revert acc. induction s as [|c r IH]; intro acc; simpl; [reflexivity|].
  rewrite IH. simpl.
  destruct (isWhiteSpace c), (noWhiteSpace r), (noWhiteSpace acc); reflexivity.
Qed.

Lemma reverse_reverse (s a b : string) :
  reverse (reverse s a) b = reverse a (s ++ b)%string.
Proof.
  revert a b. induction s as [|c r IH]; intros a b; simpl; [reflexivity|].
  now rewrite IH.
Qed.

Lemma append_empty_r (s : string) : (s ++ EmptyString)%string = s.
Proof. induction s as [|c r IH]; simpl; [reflexivity|now rewrite IH]. Qed.

(** [trim] leaves a string without white space as it is. *)
Lemma trim_noWhite (s : string) : noWhiteSpace s = true -> trim s = s.
Proof.
  intro H. unfold trim, trimEnd.
  rewrite (trimStart_noWhite s H).
  rewrite trimStart_noWhite.
  - rewrite reverse_reverse. simpl. apply append_empty_r.
  - rewrite noWhiteSpace_reverse, H. reflexivity.
Qed.

Lemma noWhiteSpace_lower (s : string) : noWhiteSpace (toLowerCase s) = noWhiteSpace s.
Proof.
  induction s as [|c r IH]; simpl; [reflexivity|].
  now rewrite isWhiteSpace_lower, IH.
Qed.

(** On an address that passed [isValidEmail], the [trim()] of the validators
    has nothing to strip. *)
Lemma trim_valid_email (e : string) :
  isValidEmail e = true -> trim (toLowerCase e) = toLowerCase e.
Proof.
  intro H. apply trim_noWhite. rewrite noWhiteSpace_lower. now apply isValidEmail_noWhite.
Qed.

(** ** The matcher and the pattern *)

Lemma matchPlusEnd_spec (s : string) : matchPlusEnd s = true <-> plusClass s.
Proof.
  unfold plusClass. induction s as [|c r IH]; simpl.
  - split; [discriminate|]. intros [H _]. congruence.
  - destruct r as [|d r'].
    + simpl. rewrite andb_true_r. split; [intro H; split; [discriminate|exact H]|tauto].
    + rewrite andb_true_iff, IH. split.
      * intros [H1 [_ H2]]. split; [discriminate|]. now rewrite H1.
      * intros [_ H]. apply andb_prop in H as [H1 H2].
        split; [exact H1|]. split; [discriminate|exact H2].
Qed.

Lemma matchDotTail_spec (s : string) :
  matchDotTail s = true <->
  exists b c, s = (b ++ "." ++ c)%string /\ inClass b = true /\ plusClass c.
Proof.
  induction s as [|c0 r IH]; simpl.
  - split; [discriminate|]. intros (b & c & H & _). destruct b; discriminate.
  - rewrite andb_true_iff, orb_true_iff, andb_true_iff, IH, matchPlusEnd_spec,
      Ascii.eqb_eq.
    split.
    + intros [Hc [[-> Hr]|(b & c & -> & Hb & Hc')]].
      * exists EmptyString, r. auto.
      * exists (String c0 b), c. simpl. rewrite Hc, Hb. auto.
    + intros (b & c & H & Hb & Hc). destruct b as [|b0 b']; simpl in H.
      * inversion H; subst. split; [reflexivity|]. left. auto.
      * inversion H; subst. simpl in Hb. apply andb_prop in Hb as [Hb0 Hb'].
        split; [exact Hb0|]. right. exists b', c. auto.
Qed.

Lemma matchAtTail_spec (s : string) :
  matchAtTail s = true <->
  exists a b c,
    s = (a ++ "@" ++ b ++ "." ++ c)%string
    /\ inClass a = true /\ plusClass b /\ plusClass c.
Proof.
  induction s as [|c0 r IH]; simpl.
  - split; [discriminate|]. intros (a & b & c & H & _). destruct a; discriminate.
  - destruct (Ascii.eqb c0 "@") eqn:E.
    + apply Ascii.eqb_eq in E. subst c0. split.
      * destruct r as [|d r']; [discriminate|]. intro H.
        apply andb_prop in H as [Hd Hr].
        apply matchDotTail_spec in Hr as (b & c & -> & Hb & Hc).
        exists EmptyString, (String d b), c. simpl.
        split; [reflexivity|]. split; [reflexivity|].
        split; [|exact Hc]. split; [discriminate|]. simpl. now rewrite Hd, Hb.
      * intros (a & b & c & H & Ha & [Hne Hb] & Hc).
        destruct a as [|a0 a']; simpl in H.
        -- inversion H; subst. destruct b as [|d b']; [congruence|].
           simpl in *. apply andb_prop in Hb as [Hd Hb'].
           rewrite Hd. simpl. apply matchDotTail_spec. exists b', c. auto.
        -- inversion H; subst. simpl in Ha. discriminate.
    + rewrite andb_true_iff, IH. split.
      * intros [Hc0 (a & b & c & -> & Ha & Hb & Hc)].
        exists (String c0 a), b, c. simpl. rewrite Hc0, Ha. auto.
      * intros (a & b & c & H & Ha & Hb & Hc).
        destruct a as [|a0 a']; simpl in H; inversion H; subst.
        -- simpl in E. discriminate.
        -- simpl in Ha. apply andb_prop in Ha as [Ha0 Ha'].
           split; [exact Ha0|]. exists a', b, c. auto.
Qed.

(** [EMAIL_REGEX_test] decides the language of the pattern. *)
Lemma EMAIL_REGEX_test_spec (s : string) :
  EMAIL_REGEX_test s = true <-> matchesEmailPattern s.
Proof.
  unfold matchesEmailPattern, EMAIL_REGEX_test. destruct s as [|c0 r].
  - split; [discriminate|]. intros (a & b & c & H & [Ha _] & _).
    destruct a; [congruence|discriminate].
  - rewrite andb_true_iff, matchAtTail_spec. split.
    + intros [Hc0 (a & b & c & -> & Ha & Hb & Hc)].
      exists (String c0 a), b, c. simpl.
      split; [reflexivity|]. split; [|auto]. split; [discriminate|].
      simpl. now rewrite Hc0, Ha.
    + intros (a & b & c & H & [Hne Ha] & Hb & Hc).
      destruct a as [|a0 a']; [congruence|]. simpl in H. inversion H; subst.
      simpl in Ha. apply andb_prop in Ha as [Ha0 Ha'].
      split; [exact Ha0|]. exists a', b, c. auto.
Qed.

Example parseInt_examples :
  parseInt "10" = Num 10 /\ parseInt " 42px" = Num 42 /\ parseInt "-5" = Num (-5)
  /\ parseInt "3.9" = Num 3 /\ parseInt "abc" = NaN /\ parseInt "" = NaN.
Proof. repeat split; reflexivity. Qed.

Example isValidEmail_examples :
  isValidEmail "alice@example.com" = true
  /\ isValidEmail "Alice@Example.COM" = true
  /\ isValidEmail " alice@example.com" = false
  /\ isValidEmail "alice@example.com " = false
  /\ isValidEmail "alice@example" = false
  /\ isValidEmail "alice@@example.com" = false.
Proof. repeat split; reflexivity. Qed.

(* ===================================================================== *)
(** * 13. Rows, keys and the refresh-token table *)
(* ===================================================================== *)

Lemma Secret_eqb_eq (a b : Secret) : Secret_eqb a b = true <-> a = b.
Proof. destruct a, b; simpl; split; intro H; try reflexivity; discriminate. Qed.

Lemma tokenString_eqb_eq (a b : tokenString) : tokenString_eqb a b = true <-> a = b.
Proof.
  destruct a as [k u e i x|s], b as [k' u' e' i' x'|s']; simpl; split; intro H;
    try discriminate.
  - repeat (apply andb_prop in H as [H ?]).
    apply Secret_eqb_eq in H. apply String.eqb_eq in H3, H2.
    apply Z.eqb_eq in H1, H0. now subst.
  - inversion H; subst.
    rewrite !String.eqb_refl, !Z.eqb_refl.
    now rewrite (proj2 (Secret_eqb_eq k' k') eq_refl).
  - apply String.eqb_eq in H. now subst.
  - inversion H; subst. now rewrite String.eqb_refl.
Qed.

Lemma tokenString_eqb_refl (a : tokenString) : tokenString_eqb a a = true.
Proof. now apply tokenString_eqb_eq. Qed.

Lemma tokenString_eqb_neq (a b : tokenString) : a <> b -> tokenString_eqb a b = false.
Proof.
  intro H. destruct (tokenString_eqb a b) eqn:E; [|reflexivity].
  apply tokenString_eqb_eq in E. contradiction.
Qed.

(** In a table keyed by [f], two rows with one key are one row. *)
Lemma key_unique {A K : Type} (f : A -> K) (l : list A) (a b : A) :
  NoDup (map f l) -> In a l -> In b l -> f a = f b -> a = b.
Proof.
  induction l as [|y l IH]; simpl; intros Hnd Ha Hb Heq; [contradiction|].
  inversion Hnd as [|? ? Hnotin Hnd']; subst.
  destruct Ha as [Ha|Ha], Hb as [Hb|Hb]; subst.
  - reflexivity.
  - exfalso. apply Hnotin. rewrite Heq. now apply in_map.
  - exfalso. apply Hnotin. rewrite <- Heq. now apply in_map.
  - now apply IH.
Qed.

(** In a table keyed by [f], the rows that a filter selects are the one row
    [a] when the filter admits [a] and nothing with another key. *)
Lemma filter_key {A K : Type} (f : A -> K) (p : A -> bool) (l : list A) (a : A) :
  NoDup (map f l) -> In a l -> p a = true ->
  (forall x, In x l -> p x = true -> f x = f a) ->
  filter p l = [a].
Proof.
  induction l as [|y l IH]; simpl; intros Hnd Hin Hp Hkey; [contradiction|].
  inversion Hnd as [|? ? Hnotin Hnd']; subst.
  destruct Hin as [->|Hin].
  - rewrite Hp. f_equal.
    assert (Hnone : forall x, In x l -> p x = false).
    { intros x Hx. destruct (p x) eqn:E; [|reflexivity].
      exfalso. apply Hnotin. rewrite <- (Hkey x (or_intror Hx) E).
      now apply in_map. }
    clear -Hnone. induction l as [|z l IH]; simpl; [reflexivity|].
    rewrite (Hnone z (or_introl eq_refl)). apply IH.
    intros x Hx. apply Hnone. now right.
  - destruct (p y) eqn:E.
    + exfalso. apply Hnotin. rewrite (Hkey y (or_introl eq_refl) E).
      now apply in_map.
    + apply IH; auto.
Qed.

Lemma filter_none {A : Type} (p : A -> bool) (l : list A) :
  (forall x, In x l -> p x = false) -> filter p l = [].
Proof.
  induction l as [|y l IH]; simpl; intro H; [reflexivity|].
  rewrite (H y (or_introl eq_refl)). apply IH. intros x Hx. apply H. now right.
Qed.

Lemma existsb_none {A : Type} (p : A -> bool) (l : list A) :
  (forall x, In x l -> p x = false) -> existsb p l = false.
Proof.
  induction l as [|y l IH]; simpl; intro H; [reflexivity|].
  rewrite (H y (or_introl eq_refl)). apply IH. intros x Hx. apply H. now right.
Qed.

(** A token that verifies is not the empty string. *)
Lemma verifyRefreshToken_nonempty (t : tokenString) (now : Date) (p : JWTPayload.t) :
  verifyRefreshToken t now = Some p -> isEmptyToken t = false.
Proof. destruct t as [k u e i x|s]; simpl; [reflexivity|discriminate]. Qed.

(** [POST /auth/refresh] with a token that has no row: 401, no tokens, and
    the store as it was. *)
Lemma POST_refresh_absent (t : tokenString) (now : Date) (token_id : string) (db : DB) :
  isEmptyToken t = false ->
  (forall r, In r (refresh_tokens db) -> RefreshToken.token r <> t) ->
  exists msg, POST_refresh (JsonValue (Str t)) now token_id db = (failure 401 msg, db).
Proof.
  intros He Habs. unfold POST_refresh. rewrite He.
  destruct (verifyRefreshToken t now) as [p|].
  - unfold SELECT_live_refresh_tokens. rewrite filter_none.
    + now eexists.
    + intros r Hr. rewrite tokenString_eqb_neq; [reflexivity|]. now apply Habs.
  - now eexists.
Qed.

(* ===================================================================== *)
(** * 14. Refresh-token rotation *)
(* ===================================================================== *)

(** C1 (amended).  Let [t] be a refresh token that passes [verifyRefreshToken],
    has an unexpired row in [refresh_tokens] (whose [token] column is unique)
    and is bound to an existing user, and let the token that the rotation
    issues, like the key of its row, not occur in the table yet.  Then
    [POST /auth/refresh] with [t] answers 200 with the new pair, deletes the
    row of [t] and inserts the row of the new token; after it no row carries
    [t], and every later [POST /auth/refresh] presenting [t] answers 401,
    issues nothing and leaves the store as it is. *)
Theorem refresh_rotation_single_use
    (t : tokenString) (now : Date) (token_id : string) (db : DB)
    (payload : JWTPayload.t) (stored : RefreshToken.t) (user : User.t)
    (others : list User.t) :
  verifyRefreshToken t now = Some payload ->
  tokensUnique db ->
  In stored (refresh_tokens db) ->
  RefreshToken.token stored = t ->
  now < RefreshToken.expires_at stored ->
  SELECT_users_by_id (RefreshToken.user_id stored) db = user :: others ->
  (forall r, In r (refresh_tokens db) ->
     RefreshToken.id r <> token_id /\
     RefreshToken.token r <>
       generateRefreshToken (JWTPayload.mk (User.id user) (User.email user)) now) ->
  let newTokens := generateTokens (JWTPayload.mk (User.id user) (User.email user)) now in
  let db' :=
    set_refresh_tokens db
      (filter (fun r => negb (String.eqb (RefreshToken.id r) (RefreshToken.id stored)))
              (refresh_tokens db)
       ++ [rotatedRow user now token_id]) in
  POST_refresh (JsonValue (Str t)) now token_id db
    = (reply 200 (Some newTokens) (Some "Tokens refreshed successfully"), db')
  /\ ~ In stored (refresh_tokens db')
  /\ (forall r, In r (refresh_tokens db') -> RefreshToken.token r <> t)
  /\ (forall (later : Date) (token_id' : string),
        exists msg,
          POST_refresh (JsonValue (Str t)) later token_id' db' = (failure 401 msg, db')).
Proof.
  intros Hv Hnd Hin Ht Hlive Hu Hfresh newTokens db'.
  assert (He : isEmptyToken t = false) by exact (verifyRefreshToken_nonempty _ _ _ Hv).
  assert (Hsel : SELECT_live_refresh_tokens t now db = [stored]).
  { unfold SELECT_live_refresh_tokens.
    apply (filter_key RefreshToken.token); auto.
    - rewrite Ht, tokenString_eqb_refl. simpl. now apply Z.ltb_lt.
    - intros x _ Hx. apply andb_prop in Hx as [Hx _].
      apply tokenString_eqb_eq in Hx. congruence. }
  assert (Hgone : forall r, In r (refresh_tokens db') -> RefreshToken.token r <> t).
  { intros r Hr. unfold db' in Hr. simpl in Hr. apply in_app_or in Hr as [Hr|Hr].
    - apply filter_In in Hr as [Hr Hid]. intro Heq.
      assert (r = stored)
        by (apply (key_unique RefreshToken.token (refresh_tokens db)); auto; congruence).
      subst r. now rewrite String.eqb_refl in Hid.
    - destruct Hr as [<-|[]]. simpl.
      intro Heq. apply (proj2 (Hfresh stored Hin)). now rewrite Ht. }
  repeat split.
  - unfold POST_refresh. rewrite He, Hv, Hsel, Hu.
    unfold INSERT_INTO_refresh_tokens. rewrite existsb_none.
    + reflexivity.
    + intros r Hr. simpl in Hr. apply filter_In in Hr as [Hr _].
      destruct (Hfresh r Hr) as [Hid Htok]. simpl.
      rewrite (tokenString_eqb_neq _ _ Htok).
      destruct (String.eqb_spec (RefreshToken.id r) token_id); [contradiction|reflexivity].
  - intro Hs. exact (Hgone stored Hs Ht).
  - exact Hgone.
  - intros later token_id'. now apply POST_refresh_absent.
Qed.

Lemma aliceDB_eq : aliceDB = mkDB [alice] [aliceRow] [].
Proof. reflexivity. Qed.

Lemma refresh_rotation_single_use_witness :
  POST_refresh (JsonValue (Str aliceToken)) 5000 "r2" aliceDB
    = (reply 200
         (Some (AuthTokens.mk (Jws ACCESS_TOKEN_SECRET "u1" "alice@example.com" 5 905)
                              (Jws REFRESH_TOKEN_SECRET "u1" "alice@example.com" 5 604805)))
         (Some "Tokens refreshed successfully"),
       mkDB [alice] [rotatedRow alice 5000 "r2"] [])
  /\ ApiResponse.http
       (fst (POST_refresh (JsonValue (Str aliceToken)) 6000 "r3"
               (mkDB [alice] [rotatedRow alice 5000 "r2"] [])))
     = 401
  /\ snd (POST_refresh (JsonValue (Str aliceToken)) 6000 "r3"
            (mkDB [alice] [rotatedRow alice 5000 "r2"] []))
     = mkDB [alice] [rotatedRow alice 5000 "r2"] [].
Proof.
  assert (Hfresh : forall r, In r (refresh_tokens aliceDB) ->
            RefreshToken.id r <> "r2" /\
            RefreshToken.token r <>
              generateRefreshToken (JWTPayload.mk (User.id alice) (User.email alice)) 5000).
  { intros r [<-|[]]. split; discriminate. }
  assert (Hnd : tokensUnique aliceDB).
  { repeat constructor. simpl. tauto. }
  assert (Hlive : 5000 < RefreshToken.expires_at aliceRow) by (simpl; lia).
  destruct (refresh_rotation_single_use aliceToken 5000 "r2" aliceDB
              (JWTPayload.mk "u1" "alice@example.com") aliceRow alice []
              eq_refl Hnd (or_introl eq_refl) eq_refl Hlive eq_refl Hfresh)
    as (H1 & _ & _ & H4).
  destruct (H4 6000 "r3") as [msg Hmsg].
  split; [exact H1|].
  split; [exact (f_equal (fun x => ApiResponse.http (fst x)) Hmsg)
         |exact (f_equal snd Hmsg)].
Defined.

(** C1 as stated fails on two counts.  Alice's token has a row that is still
    unexpired at 604801.000 s, yet the handler answers 401, the [exp] claim
    of the token (whole seconds) having passed.  And a rotation in the second
    in which the token was issued signs the same claims again: the row of the
    token is put back, and the replay is accepted. *)
Lemma refresh_single_use_counterexample :
  (In aliceRow (refresh_tokens aliceDB) /\
   RefreshToken.token aliceRow = aliceToken /\
   604801000 < RefreshToken.expires_at aliceRow /\
   fst (POST_refresh (JsonValue (Str aliceToken)) 604801000 "r2" aliceDB)
     = failure 401 "Invalid refresh token")
  /\
  (let first := POST_refresh (JsonValue (Str aliceToken)) 1700 "r2" aliceDB in
   let replay := POST_refresh (JsonValue (Str aliceToken)) 1800 "r3" (snd first) in
   ApiResponse.http (fst first) = 200 /\
   option_map AuthTokens.refreshToken (ApiResponse.data (fst first)) = Some aliceToken /\
   ApiResponse.http (fst replay) = 200 /\
   option_map AuthTokens.refreshToken (ApiResponse.data (fst replay)) = Some aliceToken).
Proof.
  split.
  - repeat split; try reflexivity. simpl. now left.
  - cbv zeta. repeat split; reflexivity.
Qed.

(** Why the issued token must be new: when the rotation signs the claims of
    [t] again (same user, same second), it answers 200 with [t] itself and
    the row it inserts carries [t]. *)
Lemma refresh_reissues_same_token
    (t : tokenString) (now : Date) (token_id : string) (db : DB)
    (payload : JWTPayload.t) (stored : RefreshToken.t) (user : User.t)
    (others : list User.t) :
  verifyRefreshToken t now = Some payload ->
  tokensUnique db ->
  In stored (refresh_tokens db) ->
  RefreshToken.token stored = t ->
  now < RefreshToken.expires_at stored ->
  SELECT_users_by_id (RefreshToken.user_id stored) db = user :: others ->
  (forall r, In r (refresh_tokens db) -> RefreshToken.id r <> token_id) ->
  generateRefreshToken (JWTPayload.mk (User.id user) (User.email user)) now = t ->
  exists db',
    POST_refresh (JsonValue (Str t)) now token_id db
      = (reply 200
           (Some (generateTokens (JWTPayload.mk (User.id user) (User.email user)) now))
           (Some "Tokens refreshed successfully"), db')
    /\ In (rotatedRow user now token_id) (refresh_tokens db')
    /\ RefreshToken.token (rotatedRow user now token_id) = t
    /\ now < RefreshToken.expires_at (rotatedRow user now token_id).
Proof.
  intros Hv Hnd Hin Ht Hlive Hu Hid Hsame.
  assert (He : isEmptyToken t = false) by exact (verifyRefreshToken_nonempty _ _ _ Hv).
  assert (Hsel : SELECT_live_refresh_tokens t now db = [stored]).
  { unfold SELECT_live_refresh_tokens.
    apply (filter_key RefreshToken.token); auto.
    - rewrite Ht, tokenString_eqb_refl. simpl. now apply Z.ltb_lt.
    - intros x _ Hx. apply andb_prop in Hx as [Hx _].
      apply tokenString_eqb_eq in Hx. congruence. }
  eexists. split; [|split; [|split]].
  - unfold POST_refresh. rewrite He, Hv, Hsel, Hu.
    unfold INSERT_INTO_refresh_tokens. rewrite existsb_none; [reflexivity|].
    intros r Hr. simpl in Hr. apply filter_In in Hr as [Hr Hne]. simpl.
    destruct (String.eqb_spec (RefreshToken.id r) token_id) as [E|_];
      [exfalso; exact (Hid r Hr E)|].
    simpl. apply tokenString_eqb_neq. rewrite Hsame. intro Heq.
    assert (r = stored)
      by (apply (key_unique RefreshToken.token (refresh_tokens db)); auto; congruence).
    subst r. now rewrite String.eqb_refl in Hne.
  - simpl. apply in_or_app. right. now left.
  - exact Hsame.
  - unfold rotatedRow, getRefreshTokenExpiry. simpl. lia.
Qed.

(** ** The handlers keep the [token] column unique *)

Lemma NoDup_map_filter {Row Key : Type} (key : Row -> Key) (keep : Row -> bool)
    (rows : list Row) :
  NoDup (map key rows) -> NoDup (map key (filter keep rows)).
Proof.
  induction rows as [|y rows IH]; simpl; intro H; [constructor|].
  inversion H as [|? ? Hnotin Hnd]; subst.
  destruct (keep y); simpl; [|now apply IH].
  constructor; [|now apply IH].
  intro Hin. apply Hnotin. apply in_map_iff in Hin as (x & Hx & Hin).
  apply filter_In in Hin as [Hin _]. rewrite <- Hx. now apply in_map.
Qed.

Lemma INSERT_INTO_refresh_tokens_unique (row : RefreshToken.t) (db db' : DB) :
  tokensUnique db -> INSERT_INTO_refresh_tokens row db = Ok db' -> tokensUnique db'.
Proof.
  unfold tokensUnique, INSERT_INTO_refresh_tokens. intro Hnd.
  destruct (existsb _ _) eqn:E; intro H; inversion H; subst; clear H.
  simpl. rewrite map_app. simpl.
  apply Permutation_NoDup with (l := RefreshToken.token row :: map RefreshToken.token (refresh_tokens db)).
  - apply Permutation_cons_append.
  - constructor; [|exact Hnd].
    intro Hin. apply in_map_iff in Hin as (x & Hx & Hin).
    assert (Hex : existsb (fun r => String.eqb (RefreshToken.id r) (RefreshToken.id row)
                                    || tokenString_eqb (RefreshToken.token r)
                                         (RefreshToken.token row))
                          (refresh_tokens db) = true).
    { apply existsb_exists. exists x. split; [exact Hin|].
      rewrite Hx, tokenString_eqb_refl. apply orb_true_r. }
    congruence.
Qed.

Lemma DELETE_refresh_token_by_id_unique (id : string) (db : DB) :
  tokensUnique db -> tokensUnique (DELETE_refresh_token_by_id id db).
Proof. unfold tokensUnique. simpl. apply NoDup_map_filter. Qed.

Lemma POST_refresh_unique (request : RefreshRequest) (now : Date) (token_id : string)
    (db : DB) :
  tokensUnique db -> tokensUnique (snd (POST_refresh request now token_id db)).
Proof.
  intro H. unfold POST_refresh.
  repeat match goal with
         | |- context [match ?x with _ => _ end] => destruct x eqn:?
         end; simpl; auto using DELETE_refresh_token_by_id_unique.
  eapply INSERT_INTO_refresh_tokens_unique; [|eassumption].
  now apply DELETE_refresh_token_by_id_unique.
Qed.

Lemma POST_login_unique (crypt : string -> string -> Result string) (body : option json)
    (now : Date) (token_id : string) (db : DB) :
  tokensUnique db -> tokensUnique (snd (POST_login crypt body now token_id db)).
Proof.
  intro H. unfold POST_login.
  repeat match goal with
         | |- context [match ?x with _ => _ end] => destruct x eqn:?
         end; simpl; auto.
  eapply INSERT_INTO_refresh_tokens_unique; eassumption.
Qed.

Lemma POST_register_unique (crypt : string -> string -> Result string)
    (body : option json) (now : Date) (salt user_id token_id : string) (db : DB) :
  tokensUnique db ->
  tokensUnique (snd (POST_register crypt body now salt user_id token_id db)).
Proof.
  intro H. unfold POST_register.
  assert (Hu : forall row db', INSERT_INTO_users row db = Ok db' -> tokensUnique db').
  { intros row db'. unfold INSERT_INTO_users.
    destruct (existsb _ _); intro E; inversion E. exact H. }
  repeat match goal with
         | |- context [match ?x with _ => _ end] => destruct x eqn:?
         end; simpl; eauto using INSERT_INTO_refresh_tokens_unique.
Qed.

(* ===================================================================== *)
(** * 15. Task rows under the key [id] *)
(* ===================================================================== *)

Lemma ownedBy_true (taskId userId : string) (t : Task.t) :
  ownedBy taskId userId t = true <-> Task.id t = taskId /\ Task.user_id t = userId.
Proof.
  unfold ownedBy. rewrite andb_true_iff, !String.eqb_eq. tauto.
Qed.

Lemma truthy_Some (s : string) : s <> EmptyString -> truthy (Some s) = true.
Proof. destruct s; [congruence|reflexivity]. Qed.

Lemma orDefault_Some (s d : string) : s <> EmptyString -> orDefault (Some s) d = s.
Proof. destruct s; [congruence|reflexivity]. Qed.

(** The row of another user is not selected. *)
Lemma SELECT_task_foreign (db : DB) (tb : Task.t) (userId : string) :
  taskIdsUnique db -> In tb (tasks db) ->
  userId <> Task.user_id tb ->
  SELECT_task (Task.id tb) userId db = [].
Proof.
  intros Hnd Hin Hne. unfold SELECT_task. apply filter_none.
  intros x Hx. destruct (ownedBy (Task.id tb) userId x) eqn:E; [|reflexivity].
  apply ownedBy_true in E as [Hid Hu].
  assert (x = tb) by (apply (key_unique Task.id (tasks db)); auto).
  subst x. congruence.
Qed.

(** No row has the id. *)
Lemma SELECT_task_absent (db : DB) (taskId userId : string) :
  (forall t, In t (tasks db) -> Task.id t <> taskId) ->
  SELECT_task taskId userId db = [].
Proof.
  intro Habs. unfold SELECT_task. apply filter_none.
  intros x Hx. destruct (ownedBy taskId userId x) eqn:E; [|reflexivity].
  apply ownedBy_true in E as [Hid _]. exfalso. exact (Habs x Hx Hid).
Qed.

(** The caller's own row is the one row selected. *)
Lemma SELECT_task_own (db : DB) (t : Task.t) :
  taskIdsUnique db -> In t (tasks db) ->
  SELECT_task (Task.id t) (Task.user_id t) db = [t].
Proof.
  intros Hnd Hin. unfold SELECT_task. apply (filter_key Task.id); auto.
  - now apply ownedBy_true.
  - intros x _ Hx. now apply ownedBy_true in Hx as [Hid _].
Qed.

Lemma UPDATE_task_own (set : Task.t -> Task.t) (db : DB) (t : Task.t) :
  taskIdsUnique db -> In t (tasks db) ->
  Task.id (set t) = Task.id t ->
  UPDATE_task set (Task.id t) (Task.user_id t) db
    = (set_tasks db (replaceTask (set t) (tasks db)), [set t]).
Proof.
  intros Hnd Hin Hid. unfold UPDATE_task. f_equal.
  - f_equal. unfold replaceTask. apply map_ext_in. intros x Hx. rewrite Hid.
    destruct (ownedBy (Task.id t) (Task.user_id t) x) eqn:E.
    + apply ownedBy_true in E as [E _].
      assert (x = t) by (apply (key_unique Task.id (tasks db)); auto).
      subst x. now rewrite String.eqb_refl.
    + destruct (String.eqb_spec (Task.id x) (Task.id t)) as [E'|E']; [|reflexivity].
      assert (x = t) by (apply (key_unique Task.id (tasks db)); auto).
      subst x. exfalso.
      assert (ownedBy (Task.id t) (Task.user_id t) t = true) by now apply ownedBy_true.
      congruence.
  - fold (SELECT_task (Task.id t) (Task.user_id t) db).
    now rewrite SELECT_task_own.
Qed.

Lemma replaceTask_ids (t' : Task.t) (l : list Task.t) :
  map Task.id (replaceTask t' l) = map Task.id l.
Proof.
  unfold replaceTask. rewrite map_map. apply map_ext. intro x.
  destruct (String.eqb_spec (Task.id x) (Task.id t')); congruence.
Qed.

Lemma replaceTask_In (t t' : Task.t) (l : list Task.t) :
  In t l -> Task.id t' = Task.id t -> In t' (replaceTask t' l).
Proof.
  intros Hin Hid. unfold replaceTask. apply in_map_iff. exists t.
  rewrite Hid, String.eqb_refl. auto.
Qed.

(** Rows with another key are left alone. *)
Lemma replaceTask_other (t' x : Task.t) (l : list Task.t) :
  In x l -> Task.id x <> Task.id t' -> In x (replaceTask t' l).
Proof.
  intros Hin Hne. unfold replaceTask. apply in_map_iff. exists x.
  destruct (String.eqb_spec (Task.id x) (Task.id t')); [contradiction|auto].
Qed.

Lemma withAuth_Bearer {R : Type} (un : string -> R) (h : JWTPayload.t -> R)
    (token : tokenString) (now : Date) (user : JWTPayload.t) :
  verifyAccessToken token now = Some user ->
  withAuth un h (Bearer token) now = h user.
Proof. intro H. unfold withAuth. now rewrite H. Qed.

(* ===================================================================== *)
(** * 16. User isolation *)
(* ===================================================================== *)

Lemma validateUpdateTask_data (Date_parse : string -> option Date) (body : json) :
  Validation.valid (validateUpdateTask Date_parse body) = true ->
  exists updates, Validation.data (validateUpdateTask Date_parse body) = Some updates.
Proof.
  unfold validateUpdateTask. destruct (isObject body); simpl; [|discriminate].
  match goal with
  | |- context [match ?e with [] => _ | _ :: _ => _ end] => destruct e
  end; simpl; [eauto|discriminate].
Qed.

Lemma unseen_outcomes (Date_parse : string -> option Date) (isId : string -> bool)
    (db : DB) (taskId : string) (user : JWTPayload.t) (now : Date) :
  taskId <> EmptyString ->
  isId taskId = true ->
  SELECT_task taskId (JWTPayload.userId user) db = [] ->
  getTask isId (Some taskId) user db = (failure 404 "Task not found", db)
  /\ deleteTask isId (Some taskId) user db = (failure 404 "Task not found", db)
  /\ toggleTask isId (Some taskId) user now db = (failure 404 "Task not found", db)
  /\ forall body,
       updateTask Date_parse isId (Some taskId) body user now db
         = (patchUnseen Date_parse body, db).
Proof.
  intros Hne Hid Hsel.
  unfold getTask, deleteTask, toggleTask, updateTask, DELETE_task.
  fold (SELECT_task (orDefault (Some taskId) "") (JWTPayload.userId user) db).
  rewrite (truthy_Some _ Hne), (orDefault_Some _ _ Hne), Hid, Hsel. simpl.
  repeat split.
  intros [body|]; simpl; [|reflexivity].
  destruct (Validation.valid (validateUpdateTask Date_parse body)); [|reflexivity].
  destruct (Validation.data (validateUpdateTask Date_parse body)); reflexivity.
Qed.

(** C2 (amended).  Let a task belong to user B and let A, distinct from B,
    present a valid access token.  On the id of that task, [GET /tasks/:id],
    [DELETE /tasks/:id] and [PATCH /tasks/:id/toggle] answer 404 "Task not
    found"; [PATCH /tasks/:id] answers 404 when its body passes validation,
    400 with the validation message when it does not, and 500 when it is not
    JSON (the body is read and validated before the row is looked up).  Each
    answer is the one given for an id that no task has, and the store is left
    unchanged. *)
Theorem user_isolation (Date_parse : string -> option Date) (isId : string -> bool)
    (db : DB) (tb : Task.t) (token : tokenString) (user : JWTPayload.t) (now : Date) :
  taskIdsUnique db ->
  In tb (tasks db) ->
  Task.id tb <> EmptyString ->
  isId (Task.id tb) = true ->
  verifyAccessToken token now = Some user ->
  JWTPayload.userId user <> Task.user_id tb ->
  let id := Some (Task.id tb) in
  let notFound : ApiResponse.t Task.t * DB := (failure 404 "Task not found", db) in
  GET_task isId (Bearer token) id now db = notFound
  /\ DELETE_task_route isId (Bearer token) id now db = notFound
  /\ PATCH_toggle isId (Bearer token) id now db = notFound
  /\ (forall body,
        Validation.valid (validateUpdateTask Date_parse body) = true ->
        PATCH_task Date_parse isId (Bearer token) id (Some body) now db = notFound)
  /\ (forall body,
        Validation.valid (validateUpdateTask Date_parse body) = false ->
        PATCH_task Date_parse isId (Bearer token) id (Some body) now db
          = (failure 400
               (firstMessage (Validation.errors (validateUpdateTask Date_parse body))),
             db))
  /\ PATCH_task Date_parse isId (Bearer token) id None now db
     = (failure 500 "Internal server error", db)
  /\ (forall absent,
        absent <> EmptyString ->
        isId absent = true ->
        (forall t, In t (tasks db) -> Task.id t <> absent) ->
        GET_task isId (Bearer token) (Some absent) now db = GET_task isId (Bearer token) id now db
        /\ DELETE_task_route isId (Bearer token) (Some absent) now db
           = DELETE_task_route isId (Bearer token) id now db
        /\ PATCH_toggle isId (Bearer token) (Some absent) now db
           = PATCH_toggle isId (Bearer token) id now db
        /\ forall body,
             PATCH_task Date_parse isId (Bearer token) (Some absent) body now db
             = PATCH_task Date_parse isId (Bearer token) id body now db).
Proof.
  intros Hnd Hin Hne Hid Hv Hother id notFound.
  assert (Hsel : SELECT_task (Task.id tb) (JWTPayload.userId user) db = [])
    by now apply SELECT_task_foreign.
  destruct (unseen_outcomes Date_parse isId db (Task.id tb) user now Hne Hid Hsel)
    as (Hg & Hd & Ht & Hp).
  subst id notFound.
  unfold GET_task, DELETE_task_route, PATCH_toggle, PATCH_task.
  rewrite !(withAuth_Bearer _ _ _ _ _ Hv).
  split; [exact Hg|]. split; [exact Hd|]. split; [exact Ht|].
  split.
  { intros body Hvalid. rewrite (withAuth_Bearer _ _ _ _ _ Hv), Hp. unfold patchUnseen.
    destruct (validateUpdateTask_data _ _ Hvalid) as [u Hu]. now rewrite Hvalid, Hu. }
  split.
  { intros body Hinvalid. rewrite (withAuth_Bearer _ _ _ _ _ Hv), Hp.
    unfold patchUnseen. now rewrite Hinvalid. }
  split; [now rewrite ?(withAuth_Bearer _ _ _ _ _ Hv), Hp|].
  intros absent Hne' Hid' Habs.
  rewrite !(withAuth_Bearer _ _ _ _ _ Hv).
  destruct (unseen_outcomes Date_parse isId db absent user now Hne' Hid'
              (SELECT_task_absent db absent _ Habs)) as (Hg' & Hd' & Ht' & Hp').
  split; [congruence|]. split; [congruence|]. split; [congruence|].
  intro body. now rewrite !(withAuth_Bearer _ _ _ _ _ Hv), Hp, Hp'.
Qed.

Lemma user_isolation_witness :
  GET_task isId0 (Bearer aliceAccess) (Some "t1") 5000 bobDB
    = (failure 404 "Task not found", bobDB)
  /\ DELETE_task_route isId0 (Bearer aliceAccess) (Some "t1") 5000 bobDB
    = (failure 404 "Task not found", bobDB)
  /\ PATCH_toggle isId0 (Bearer aliceAccess) (Some "t1") 5000 bobDB
    = (failure 404 "Task not found", bobDB)
  /\ PATCH_task Date_parse0 isId0 (Bearer aliceAccess) (Some "t1")
       (Some (JObj [("status", JStr "completed")])) 5000 bobDB
    = (failure 404 "Task not found", bobDB).
Proof.
  assert (Hnd : taskIdsUnique bobDB).
  { repeat constructor. simpl. tauto. }
  assert (Hne : Task.id bobTask <> EmptyString) by discriminate.
  assert (Hother : JWTPayload.userId (JWTPayload.mk "u1" "alice@example.com")
                   <> Task.user_id bobTask) by discriminate.
  destruct (user_isolation Date_parse0 isId0 bobDB bobTask aliceAccess
              (JWTPayload.mk "u1" "alice@example.com") 5000
              Hnd (or_introl eq_refl) Hne eq_refl eq_refl Hother)
    as (Hg & Hd & Ht & Hp & _).
  split; [exact Hg|]. split; [exact Hd|]. split; [exact Ht|].
  exact (Hp (JObj [("status", JStr "completed")]) eq_refl).
Defined.

(** C2 as stated fails for [PATCH /tasks/:id]: on Bob's task, Alice's request
    with a body that has no field is answered 400, not 404. *)
Lemma user_isolation_counterexample :
  In bobTask (tasks bobDB)
  /\ verifyAccessToken aliceAccess 5000 = Some (JWTPayload.mk "u1" "alice@example.com")
  /\ Task.user_id bobTask <> "u1"
  /\ PATCH_task Date_parse0 isId0 (Bearer aliceAccess) (Some (Task.id bobTask))
       (Some (JObj [])) 5000 bobDB
     = (failure 400 "At least one field must be provided", bobDB).
Proof.
  repeat split; try reflexivity; [simpl; now left|discriminate].
Qed.

(** The owner, with his own token, reads the task. *)
Example owner_reads_task :
  GET_task isId0 (Bearer bobAccess) (Some "t1") 5000 bobDB = (reply 200 (Some bobTask) None, bobDB).
Proof. reflexivity. Qed.

(* ===================================================================== *)
(** * 17. Toggle *)
(* ===================================================================== *)

Lemma toggleTask_own (isId : string -> bool) (db : DB) (t : Task.t)
    (user : JWTPayload.t) (now : Date) :
  taskIdsUnique db ->
  In t (tasks db) ->
  Task.id t <> EmptyString ->
  isId (Task.id t) = true ->
  Task.user_id t = JWTPayload.userId user ->
  toggleTask isId (Some (Task.id t)) user now db
    = (reply 200 (Some (toggled t now))
         (Some ("Task marked as " ++ TaskStatus_to_string (flip (Task.status t)))%string),
       set_tasks db (replaceTask (toggled t now) (tasks db))).
Proof.
  intros Hnd Hin Hne Hid Hu. unfold toggleTask.
  rewrite (truthy_Some _ Hne), (orDefault_Some _ _ Hne), Hid, <- Hu. simpl negb. cbv iota.
  rewrite (SELECT_task_own db t Hnd Hin).
  assert (Hflip : (if TaskStatus_eqb (Task.status t) completed then pending else completed)
                  = flip (Task.status t)) by (destruct (Task.status t); reflexivity).
  rewrite Hflip.
  rewrite (UPDATE_task_own
             (fun x => Task.mk (Task.id x) (Task.user_id x) (Task.title x)
                         (Task.description x) (flip (Task.status t)) (Task.priority x)
                         (Task.due_date x) (Task.created_at x) now)
             db t Hnd Hin eq_refl).
  reflexivity.
Qed.

(** C3.  For every task of the caller, the toggle answers 200 with the task
    whose status is [pending] if it was [completed] and [completed] if it was
    [pending] or [in_progress], all other columns but [updated_at] being
    kept, and stores that row.  Hence an [in_progress] task is [completed]
    after one toggle, and a [pending] task is [pending] again after two. *)
Theorem toggle_semantics (isId : string -> bool) (db : DB) (t : Task.t)
    (user : JWTPayload.t) (now later : Date) :
  taskIdsUnique db ->
  In t (tasks db) ->
  Task.id t <> EmptyString ->
  isId (Task.id t) = true ->
  Task.user_id t = JWTPayload.userId user ->
  let once := toggleTask isId (Some (Task.id t)) user now db in
  let twice := toggleTask isId (Some (Task.id t)) user later (snd once) in
  fst once
    = reply 200 (Some (toggled t now))
        (Some ("Task marked as " ++ TaskStatus_to_string (flip (Task.status t)))%string)
  /\ tasks (snd once) = replaceTask (toggled t now) (tasks db)
  /\ (Task.status t = completed -> Task.status (toggled t now) = pending)
  /\ (Task.status t = pending -> Task.status (toggled t now) = completed)
  /\ (Task.status t = in_progress -> Task.status (toggled t now) = completed)
  /\ ApiResponse.data (fst twice) = Some (toggled (toggled t now) later)
  /\ (Task.status t = pending -> Task.status (toggled (toggled t now) later) = pending)
  /\ (Task.status t = in_progress ->
      Task.status (toggled (toggled t now) later) = pending).
Proof.
  intros Hnd Hin Hne Hid Hu once twice.
  pose proof (toggleTask_own isId db t user now Hnd Hin Hne Hid Hu) as H1.
  set (db1 := set_tasks db (replaceTask (toggled t now) (tasks db))) in *.
  assert (H2 : ApiResponse.data (fst (toggleTask isId (Some (Task.id t)) user later db1))
               = Some (toggled (toggled t now) later)).
  { pose proof (toggleTask_own isId db1 (toggled t now) user later) as H.
    simpl Task.id in H. simpl Task.user_id in H. rewrite H; auto.
    - unfold taskIdsUnique, db1. simpl. rewrite replaceTask_ids. exact Hnd.
    - simpl. now apply (replaceTask_In t). }
  subst once twice. rewrite H1. simpl fst. simpl snd. rewrite H2.
  split; [reflexivity|]. split; [reflexivity|].
  repeat split; intro Hs; simpl; rewrite Hs; reflexivity.
Qed.

Lemma toggle_semantics_witness :
  fst (toggleTask isId0 (Some "t1") (JWTPayload.mk "u2" "bob@example.com") 7000 bobDB)
    = reply 200
        (Some (Task.mk "t1" "u2" "Buy milk" (Some "2 litres") completed medium
                 (Some 1000) 2000 7000))
        (Some "Task marked as completed")
  /\ ApiResponse.data
       (fst (toggleTask isId0 (Some "t1") (JWTPayload.mk "u2" "bob@example.com") 8000
               (snd (toggleTask isId0 (Some "t1") (JWTPayload.mk "u2" "bob@example.com")
                       7000 bobDB))))
     = Some (Task.mk "t1" "u2" "Buy milk" (Some "2 litres") pending medium
               (Some 1000) 2000 8000).
Proof.
  assert (Hnd : taskIdsUnique bobDB).
  { repeat constructor. simpl. tauto. }
  assert (Hne : Task.id bobTask <> EmptyString) by discriminate.
  destruct (toggle_semantics isId0 bobDB bobTask (JWTPayload.mk "u2" "bob@example.com")
              7000 8000 Hnd (or_introl eq_refl) Hne eq_refl eq_refl)
    as (H1 & _ & _ & _ & _ & H2 & _).
  split; [exact H1|exact H2].
Defined.

(* ===================================================================== *)
(** * 18. Partial update *)
(* ===================================================================== *)

Lemma mergeUpdate_id (Date_parse : string -> option Date) (updates : UpdateTaskDTO.t)
    (t : Task.t) (now : Date) (set : Task.t -> Task.t) :
  mergeUpdate Date_parse updates t now = Ok set ->
  forall x, Task.id (set x) = Task.id x.
Proof.
  unfold mergeUpdate.
  destruct (UpdateTaskDTO.due_date updates) as [[[|c r]|]|];
    try destruct (Date_parse (String c r));
    intro H; inversion H; reflexivity.
Qed.

(** [PATCH /tasks/:id] on a task of the caller, with a body that passes
    validation: the merged row is stored and returned. *)
Lemma updateTask_own (Date_parse : string -> option Date) (isId : string -> bool)
    (db : DB) (t : Task.t) (user : JWTPayload.t) (now : Date) (body : json)
    (updates : UpdateTaskDTO.t) (set : Task.t -> Task.t) :
  taskIdsUnique db ->
  In t (tasks db) ->
  Task.id t <> EmptyString ->
  isId (Task.id t) = true ->
  Task.user_id t = JWTPayload.userId user ->
  Validation.valid (validateUpdateTask Date_parse body) = true ->
  Validation.data (validateUpdateTask Date_parse body) = Some updates ->
  mergeUpdate Date_parse updates t now = Ok set ->
  updateTask Date_parse isId (Some (Task.id t)) (Some body) user now db
    = (reply 200 (Some (set t)) (Some "Task updated successfully"),
       set_tasks db (replaceTask (set t) (tasks db))).
Proof.
  intros Hnd Hin Hne Hid Hu Hvalid Hdata Hmerge. unfold updateTask.
  rewrite (truthy_Some _ Hne), (orDefault_Some _ _ Hne), <- Hu, Hvalid, Hdata, Hid.
  simpl negb. cbv iota.
  rewrite (SELECT_task_own db t Hnd Hin), Hmerge.
  rewrite (UPDATE_task_own set db t Hnd Hin (mergeUpdate_id _ _ _ _ _ Hmerge t)).
  reflexivity.
Qed.

(** Updating only the status keeps title, description, priority and due
    date. *)
Lemma update_status_only (Date_parse : string -> option Date) (isId : string -> bool)
    (db : DB) (t : Task.t) (user : JWTPayload.t) (now : Date) :
  taskIdsUnique db ->
  In t (tasks db) ->
  Task.id t <> EmptyString ->
  isId (Task.id t) = true ->
  Task.user_id t = JWTPayload.userId user ->
  let t' := Task.mk (Task.id t) (Task.user_id t) (Task.title t) (Task.description t)
              completed (Task.priority t) (Task.due_date t) (Task.created_at t) now in
  updateTask Date_parse isId (Some (Task.id t)) (Some (JObj [("status", JStr "completed")]))
             user now db
    = (reply 200 (Some t') (Some "Task updated successfully"),
       set_tasks db (replaceTask t' (tasks db))).
Proof.
  intros Hnd Hin Hne Hid Hu t'.
  exact (updateTask_own Date_parse isId db t user now (JObj [("status", JStr "completed")])
           (UpdateTaskDTO.mk None None (Some completed) None None)
           (fun x => Task.mk (Task.id x) (Task.user_id x) (Task.title t)
                       (Task.description t) completed (Task.priority t)
                       (Task.due_date t) (Task.created_at x) now)
           Hnd Hin Hne Hid Hu eq_refl eq_refl eq_refl).
Qed.

(** A body without any of the five fields is turned down with 400, and
    nothing is changed. *)
Lemma update_without_fields (Date_parse : string -> option Date)
    (isId : string -> bool) (db : DB)
    (taskId : string) (user : JWTPayload.t) (now : Date) (body : json) :
  taskId <> EmptyString ->
  isObject body = true ->
  field body "title" = None -> field body "description" = None ->
  field body "status" = None -> field body "priority" = None ->
  field body "due_date" = None ->
  updateTask Date_parse isId (Some taskId) (Some body) user now db
    = (failure 400 "At least one field must be provided", db).
Proof.
  intros Hne Hobj H1 H2 H3 H4 H5. unfold updateTask, validateUpdateTask.
  rewrite (truthy_Some _ Hne), Hobj, H1, H2, H3, H4, H5. reflexivity.
Qed.

(** C10.  On a task of the caller, the body [{description: null}] passes
    validation, which hands on a request whose description is undefined; the
    answer is 200 and the stored description, like every other column but
    [updated_at], is what it was. *)
Theorem update_null_description (Date_parse : string -> option Date)
    (isId : string -> bool) (db : DB) (t : Task.t) (user : JWTPayload.t) (now : Date) :
  taskIdsUnique db ->
  In t (tasks db) ->
  Task.id t <> EmptyString ->
  isId (Task.id t) = true ->
  Task.user_id t = JWTPayload.userId user ->
  let body := JObj [("description", JNull)] in
  Validation.valid (validateUpdateTask Date_parse body) = true
  /\ option_map UpdateTaskDTO.description (Validation.data (validateUpdateTask Date_parse body))
     = Some None
  /\ updateTask Date_parse isId (Some (Task.id t)) (Some body) user now db
     = (reply 200 (Some (touched t now)) (Some "Task updated successfully"),
        set_tasks db (replaceTask (touched t now) (tasks db)))
  /\ Task.description (touched t now) = Task.description t.
Proof.
  intros Hnd Hin Hne Hid Hu body.
  split; [reflexivity|]. split; [reflexivity|]. split; [|reflexivity].
  exact (updateTask_own Date_parse isId db t user now body
           (UpdateTaskDTO.mk None None None None None)
           (fun x => Task.mk (Task.id x) (Task.user_id x) (Task.title t)
                       (Task.description t) (Task.status t) (Task.priority t)
                       (Task.due_date t) (Task.created_at x) now)
           Hnd Hin Hne Hid Hu eq_refl eq_refl eq_refl).
Qed.

Lemma update_null_description_witness :
  updateTask Date_parse0 isId0 (Some "t1") (Some (JObj [("description", JNull)]))
             (JWTPayload.mk "u2" "bob@example.com") 9000 bobDB
  = (reply 200
       (Some (Task.mk "t1" "u2" "Buy milk" (Some "2 litres") pending medium
                (Some 1000) 2000 9000))
       (Some "Task updated successfully"),
     mkDB [] [] [Task.mk "t1" "u2" "Buy milk" (Some "2 litres") pending medium
                   (Some 1000) 2000 9000]).
Proof.
  assert (Hnd : taskIdsUnique bobDB).
  { repeat constructor. simpl. tauto. }
  assert (Hne : Task.id bobTask <> EmptyString) by discriminate.
  destruct (update_null_description Date_parse0 isId0 bobDB bobTask
              (JWTPayload.mk "u2" "bob@example.com") 9000
              Hnd (or_introl eq_refl) Hne eq_refl eq_refl) as (_ & _ & H & _).
  exact H.
Defined.

(** C4 at the request [{title: " Buy bread ", description: null}] on Bob's
    task: the title is replaced, but the description, though present in the
    request, keeps its stored value; a [due_date] of [null] does clear the
    stored due date. *)
Theorem null_description_keeps_stored_value (Date_parse : string -> option Date) :
  fst (updateTask Date_parse isId0 (Some "t1")
         (Some (JObj [("title", JStr " Buy bread "); ("description", JNull)]))
         (JWTPayload.mk "u2" "bob@example.com") 9000 bobDB)
  = reply 200
      (Some (Task.mk "t1" "u2" "Buy bread" (Some "2 litres") pending medium
               (Some 1000) 2000 9000))
      (Some "Task updated successfully")
  /\
  fst (updateTask Date_parse isId0 (Some "t1") (Some (JObj [("due_date", JNull)]))
         (JWTPayload.mk "u2" "bob@example.com") 9000 bobDB)
  = reply 200
      (Some (Task.mk "t1" "u2" "Buy milk" (Some "2 litres") pending medium
               None 2000 9000))
      (Some "Task updated successfully").
Proof. split; reflexivity. Qed.

(** ** The handlers keep the [id] column of [tasks] unique *)

Lemma UPDATE_task_ids (set : Task.t -> Task.t) (taskId userId : string) (db : DB) :
  (forall x, Task.id (set x) = Task.id x) ->
  map Task.id (tasks (fst (UPDATE_task set taskId userId db))) = map Task.id (tasks db).
Proof.
  intro Hid. simpl. rewrite map_map. apply map_ext. intro x.
  destruct (ownedBy taskId userId x); [apply Hid|reflexivity].
Qed.

Lemma toggleTask_unique (isId : string -> bool) (taskId : option string)
    (user : JWTPayload.t) (now : Date) (db : DB) :
  taskIdsUnique db -> taskIdsUnique (snd (toggleTask isId taskId user now db)).
Proof.
  intro H. unfold toggleTask.
  destruct (negb (truthy taskId)); [exact H|].
  destruct (negb (isId _)); [exact H|].
  destruct (SELECT_task _ _ db) as [|existingTask rest]; [exact H|].
  unfold taskIdsUnique. simpl. rewrite map_map.
  erewrite map_ext; [exact H|].
  intro x. now destruct (ownedBy _ _ x).
Qed.

Lemma updateTask_unique (Date_parse : string -> option Date) (isId : string -> bool)
    (taskId : option string) (body : option json) (user : JWTPayload.t) (now : Date)
    (db : DB) :
  taskIdsUnique db ->
  taskIdsUnique (snd (updateTask Date_parse isId taskId body user now db)).
Proof.
  intro H. unfold updateTask.
  destruct (negb (truthy taskId)); [exact H|].
  destruct body as [body|]; [|exact H].
  destruct (Validation.valid _); [|exact H].
  destruct (Validation.data _) as [updates|]; [|exact H].
  destruct (negb (isId _)); [exact H|].
  destruct (SELECT_task _ _ db) as [|existingTask rest]; [exact H|].
  destruct (mergeUpdate Date_parse updates existingTask now) as [set|] eqn:Hm; [|exact H].
  unfold taskIdsUnique.
  pose proof (UPDATE_task_ids set (orDefault taskId "") (JWTPayload.userId user) db
                (mergeUpdate_id _ _ _ _ _ Hm)) as Hids.
  destruct (UPDATE_task set (orDefault taskId "") (JWTPayload.userId user) db)
    as [db1 updated]. simpl in *. now rewrite Hids.
Qed.

Lemma deleteTask_unique (isId : string -> bool) (taskId : option string)
    (user : JWTPayload.t) (db : DB) :
  taskIdsUnique db -> taskIdsUnique (snd (deleteTask isId taskId user db)).
Proof.
  intro H. unfold deleteTask, DELETE_task.
  destruct (negb (truthy taskId)); [exact H|].
  destruct (negb (isId _)); [exact H|].
  destruct (map Task.id _); [exact H|].
  unfold taskIdsUnique. simpl. now apply NoDup_map_filter.
Qed.

(** Without a token that verifies, [withAuth] answers 401 and the handler is
    not run. *)
Lemma withAuth_unauthorized {T : Type} (handler : JWTPayload.t -> DB -> ApiResponse.t T * DB)
    (authHeader : AuthorizationHeader) (now : Date) (db : DB) :
  (forall token, authHeader = Bearer token -> verifyAccessToken token now = None) ->
  exists msg, withAuth unauthorized handler authHeader now db = (failure 401 msg, db).
Proof.
  intro H. destruct authHeader as [|value|token]; simpl; try (now eexists).
  rewrite (H token eq_refl). now eexists.
Qed.

(* ===================================================================== *)
(** * 19. Listing: page, limit and totals *)
(* ===================================================================== *)

Lemma insertByCreatedDesc_perm (x : Task.t) (l : list Task.t) :
  Permutation (insertByCreatedDesc x l) (x :: l).
Proof.
  induction l as [|y r IH]; simpl; [reflexivity|].
  destruct (Task.created_at y <=? Task.created_at x); [reflexivity|].
  rewrite IH. apply perm_swap.
Qed.

Lemma ORDER_BY_perm (l : list Task.t) : Permutation (ORDER_BY_created_at_DESC l) l.
Proof.
  induction l as [|x r IH]; simpl; [reflexivity|].
  rewrite insertByCreatedDesc_perm. now constructor.
Qed.



Lemma effectivePage_absent (q : Query.t) :
  Query.page q = None -> effectivePage q = Num 1.
Proof. unfold effectivePage. now intros ->. Qed.

Lemma effectiveLimit_absent (q : Query.t) :
  Query.limit q = None -> effectiveLimit q = Num 10.
Proof. unfold effectiveLimit. now intros ->. Qed.

(** When the parameters read as numbers, the page is at least 1 and the
    limit lies in [1, 100]. *)
Lemma effectivePage_numeric (q : Query.t) (p : Z) :
  parseInt (orDefault (Query.page q) "1") = Num p ->
  effectivePage q = Num (Z.max 1 p) /\ 1 <= Z.max 1 p.
Proof. unfold effectivePage. intros ->. simpl. split; [reflexivity|lia]. Qed.

Lemma effectiveLimit_numeric (q : Query.t) (l : Z) :
  parseInt (orDefault (Query.limit q) "10") = Num l ->
  effectiveLimit q = Num (Z.min 100 (Z.max 1 l)) /\ 1 <= Z.min 100 (Z.max 1 l) <= 100.
Proof. unfold effectiveLimit. intros ->. simpl. split; [reflexivity|lia]. Qed.

(** When they do not, [NaN] passes through [Math.max] and [Math.min]. *)
Lemma effectiveLimit_NaN (q : Query.t) :
  parseInt (orDefault (Query.limit q) "10") = NaN -> effectiveLimit q = NaN.
Proof. unfold effectiveLimit. now intros ->. Qed.

Lemma effectivePage_NaN (q : Query.t) :
  parseInt (orDefault (Query.page q) "1") = NaN -> effectivePage q = NaN.
Proof. unfold effectivePage. now intros ->. Qed.

Lemma getTasks_NaN (ILIKE : string -> string -> bool) (q : Query.t)
    (user : JWTPayload.t) (db : DB) :
  effectiveLimit q = NaN \/ effectivePage q = NaN ->
  getTasks ILIKE q user db
    = PaginatedResponse.mk 500 false [] (Pagination.mk (Num 1) (Num 10) 0 (Num 0)).
Proof.
  intro H. unfold getTasks.
  assert (Hthrow : forall rows,
            LIMIT_OFFSET (effectiveLimit q)
              (jsnum_mul (jsnum_sub (effectivePage q) (Num 1)) (effectiveLimit q)) rows
            = Throw "invalid input syntax for type bigint").
  { intro rows. destruct H as [-> | ->]; simpl.
    - reflexivity.
    - now destruct (effectiveLimit q). }
  cbv zeta. rewrite !Hthrow.
  now destruct (truthy (Query.status q) && truthy (Query.search q)),
               (truthy (Query.status q)), (truthy (Query.search q)).
Qed.

(** The answer of [GET /tasks] when both parameters read as numbers. *)
Lemma getTasks_numeric (ILIKE : string -> string -> bool) (q : Query.t)
    (user : JWTPayload.t) (db : DB) (p l : Z) :
  parseInt (orDefault (Query.page q) "1") = Num p ->
  parseInt (orDefault (Query.limit q) "10") = Num l ->
  let page := Z.max 1 p in
  let limit := Z.min 100 (Z.max 1 l) in
  let matching :=
    filter (matchesFilter ILIKE (JWTPayload.userId user) (Query.status q) (Query.search q))
           (tasks db) in
  getTasks ILIKE q user db
    = PaginatedResponse.mk 200 true
        (firstn (Z.to_nat limit)
           (skipn (Z.to_nat ((page - 1) * limit)) (ORDER_BY_created_at_DESC matching)))
        (Pagination.mk (Num page) (Num limit) (Z.of_nat (length matching))
           (Num (Math_ceil_div (Z.of_nat (length matching)) limit))).
Proof.
  intros Hp Hl page limit matching.
  unfold getTasks.
  rewrite (proj1 (effectivePage_numeric q p Hp)), (proj1 (effectiveLimit_numeric q l Hl)).
  fold page limit. cbv zeta. unfold matching.
  destruct (truthy (Query.status q)) eqn:Es, (truthy (Query.search q)) eqn:Eq; simpl;
    (erewrite (filter_ext (matchesFilter ILIKE _ _ _));
     [reflexivity
     |intro t; unfold matchesFilter; rewrite Es, Eq, ?andb_true_r; reflexivity]).
Qed.

Lemma In_firstn_skipn {A : Type} (n m : nat) (l : list A) (x : A) :
  In x (firstn n (skipn m l)) -> In x l.
Proof.
  intro H.
  assert (H1 : In x (skipn m l)).
  { rewrite <- (firstn_skipn n (skipn m l)). apply in_or_app. now left. }
  rewrite <- (firstn_skipn m l). apply in_or_app. now right.
Qed.



Example pagination_parameters_examples :
  effectivePage (Query.mk None None None None) = Num 1
  /\ effectiveLimit (Query.mk None None None None) = Num 10
  /\ effectivePage (Query.mk (Some "0") None None None) = Num 1
  /\ effectivePage (Query.mk (Some "-3") None None None) = Num 1
  /\ effectivePage (Query.mk (Some "") None None None) = Num 1
  /\ effectiveLimit (Query.mk None (Some "1000") None None) = Num 100
  /\ effectiveLimit (Query.mk None (Some "0") None None) = Num 1
  /\ effectiveLimit (Query.mk None (Some "25") None None) = Num 25.
Proof. repeat split; reflexivity. Qed.

(** C6 at [limit=abc] and at [page=abc]: [parseInt] gives [NaN], which
    [Math.max] and [Math.min] hand on, so the limit is neither 10 nor within
    [1, 100] and the page is not a number at least 1; the query fails and
    the answer is 500 with an empty list (its [pagination] member holds the
    constants of the [catch] block). *)
Theorem pagination_parameters_not_normalized (ILIKE : string -> string -> bool)
    (user : JWTPayload.t) (db : DB) :
  effectiveLimit (Query.mk None (Some "abc") None None) = NaN
  /\ effectivePage (Query.mk (Some "abc") None None None) = NaN
  /\ getTasks ILIKE (Query.mk None (Some "abc") None None) user db
     = PaginatedResponse.mk 500 false [] (Pagination.mk (Num 1) (Num 10) 0 (Num 0))
  /\ getTasks ILIKE (Query.mk (Some "abc") None None None) user db
     = PaginatedResponse.mk 500 false [] (Pagination.mk (Num 1) (Num 10) 0 (Num 0)).
Proof.
  split; [reflexivity|]. split; [reflexivity|].
  split; apply getTasks_NaN.
  - now left.
  - now right.
Qed.

(* ===================================================================== *)
(** * 20. Login failures and password verification *)
(* ===================================================================== *)

(** C7.  A login whose address belongs to no user and a login whose address
    belongs to a user but whose password [verifyPassword] finds wrong get the
    same answer, 401 "Invalid email or password", and change nothing. *)
Theorem login_failures_indistinguishable
    (crypt : string -> string -> Result string)
    (unknown wrong : json) (dto1 dto2 : LoginDTO.t)
    (user : User.t) (others : list User.t)
    (now1 now2 : Date) (id1 id2 : string) (db : DB) :
  Validation.valid (validateLogin unknown) = true ->
  Validation.data (validateLogin unknown) = Some dto1 ->
  SELECT_users_by_email (LoginDTO.email dto1) db = [] ->
  Validation.valid (validateLogin wrong) = true ->
  Validation.data (validateLogin wrong) = Some dto2 ->
  SELECT_users_by_email (LoginDTO.email dto2) db = user :: others ->
  verifyPassword crypt (LoginDTO.password dto2) (User.password_hash user) = Ok false ->
  POST_login crypt (Some unknown) now1 id1 db
    = (failure 401 "Invalid email or password", db)
  /\ POST_login crypt (Some wrong) now2 id2 db
    = (failure 401 "Invalid email or password", db)
  /\ fst (POST_login crypt (Some unknown) now1 id1 db)
     = fst (POST_login crypt (Some wrong) now2 id2 db).
Proof.
  intros Hv1 Hd1 Hs1 Hv2 Hd2 Hs2 Hpw.
  assert (H1 : POST_login crypt (Some unknown) now1 id1 db
               = (failure 401 "Invalid email or password", db)).
  { unfold POST_login. now rewrite Hv1, Hd1, Hs1. }
  assert (H2 : POST_login crypt (Some wrong) now2 id2 db
               = (failure 401 "Invalid email or password", db)).
  { unfold POST_login. now rewrite Hv2, Hd2, Hs2, Hpw. }
  split; [exact H1|]. split; [exact H2|]. now rewrite H1, H2.
Qed.

Lemma login_failures_indistinguishable_witness :
  POST_login crypt0 (Some (credentials "nobody@example.com" "password123" "")) 5000 "r2"
             aliceDB
    = (failure 401 "Invalid email or password", aliceDB)
  /\ POST_login crypt0 (Some (credentials "alice@example.com" "password124" "")) 6000 "r3"
                aliceDB
    = (failure 401 "Invalid email or password", aliceDB).
Proof.
  destruct (login_failures_indistinguishable crypt0
              (credentials "nobody@example.com" "password123" "")
              (credentials "alice@example.com" "password124" "")
              (LoginDTO.mk "nobody@example.com" "password123")
              (LoginDTO.mk "alice@example.com" "password124")
              alice [] 5000 6000 "r2" "r3" aliceDB
              eq_refl eq_refl eq_refl eq_refl eq_refl eq_refl eq_refl)
    as (H1 & H2 & _).
  split; [exact H1|exact H2].
Defined.

(** A hash that is not 60 characters long matches no password. *)
Lemma verifyPassword_wrong_length (crypt : string -> string -> Result string)
    (password hash : string) :
  String.length hash <> 60%nat -> verifyPassword crypt password hash = Ok false.
Proof.
  intro H. unfold verifyPassword, bcrypt_compare.
  destruct (Nat.eqb_spec (String.length hash) 60); [contradiction|reflexivity].
Qed.

(** [verifyPassword] has no handler of its own: it rejects when, and as,
    [bcrypt.compare] does. *)
Lemma verifyPassword_is_compare (crypt : string -> string -> Result string)
    (password hash : string) :
  verifyPassword crypt password hash = bcrypt_compare crypt password hash.
Proof. reflexivity. Qed.

(** C8 at a hash of 60 characters that does not start with ["$2"]: the
    promise of [verifyPassword] rejects, whatever the key derivation, and a
    login against such a stored hash is answered 500. *)
Theorem verifyPassword_rejects_malformed_hash (crypt : string -> string -> Result string) :
  String.length malformedHash = 60%nat
  /\ verifyPassword crypt "password123" malformedHash = Throw "Invalid salt version"
  /\ fst (POST_login crypt (Some (credentials "mallory@example.com" "password123" ""))
            5000 "r1" malloryDB)
     = failure 500 "Internal server error".
Proof. repeat split; reflexivity. Qed.

(* ===================================================================== *)
(** * 21. E-mail normalization *)
(* ===================================================================== *)

Lemma nonEmptyString_case (e e' : string) :
  toLowerCase e = toLowerCase e' ->
  (nonEmptyString (Some (JStr e)) = None /\ nonEmptyString (Some (JStr e')) = None)
  \/ (nonEmptyString (Some (JStr e)) = Some e /\ nonEmptyString (Some (JStr e')) = Some e').
Proof.
  intro H. destruct e as [|c r], e' as [|c' r']; simpl in *; try discriminate; auto.
Qed.

Lemma validateLogin_case (e e' : string) (rest : list (string * json)) :
  toLowerCase e = toLowerCase e' ->
  validateLogin (withEmail e rest) = validateLogin (withEmail e' rest).
Proof.
  intro H. unfold validateLogin, withEmail.
  change (field (JObj (("email", JStr e) :: rest)) "email") with (Some (JStr e)).
  change (field (JObj (("email", JStr e') :: rest)) "email") with (Some (JStr e')).
  change (field (JObj (("email", JStr e) :: rest)) "password")
    with (field (JObj rest) "password").
  change (field (JObj (("email", JStr e') :: rest)) "password")
    with (field (JObj rest) "password").
  change (asString (Some (JStr e))) with e.
  change (asString (Some (JStr e'))) with e'.
  rewrite H.
  destruct (nonEmptyString_case e e' H) as [[-> ->]|[-> ->]]; cbv beta iota zeta;
    [reflexivity|].
  now rewrite (isValidEmail_case e e' H).
Qed.

Lemma validateRegister_case (e e' : string) (rest : list (string * json)) :
  toLowerCase e = toLowerCase e' ->
  validateRegister (withEmail e rest) = validateRegister (withEmail e' rest).
Proof.
  intro H. unfold validateRegister, withEmail.
  change (field (JObj (("email", JStr e) :: rest)) "email") with (Some (JStr e)).
  change (field (JObj (("email", JStr e') :: rest)) "email") with (Some (JStr e')).
  change (field (JObj (("email", JStr e) :: rest)) "password")
    with (field (JObj rest) "password").
  change (field (JObj (("email", JStr e') :: rest)) "password")
    with (field (JObj rest) "password").
  change (field (JObj (("email", JStr e) :: rest)) "name") with (field (JObj rest) "name").
  change (field (JObj (("email", JStr e') :: rest)) "name") with (field (JObj rest) "name").
  change (asString (Some (JStr e))) with e.
  change (asString (Some (JStr e'))) with e'.
  rewrite H.
  destruct (nonEmptyString_case e e' H) as [[-> ->]|[-> ->]]; cbv beta iota zeta;
    [reflexivity|].
  now rewrite (isValidEmail_case e e' H).
Qed.

Lemma INSERT_INTO_users_Ok (row : User.t) (db db' : DB) :
  INSERT_INTO_users row db = Ok db' -> users db' = users db ++ [row].
Proof.
  unfold INSERT_INTO_users. destruct (existsb _ _); intro H; inversion H. reflexivity.
Qed.

Lemma INSERT_INTO_refresh_tokens_users (row : RefreshToken.t) (db db' : DB) :
  INSERT_INTO_refresh_tokens row db = Ok db' -> users db' = users db.
Proof.
  unfold INSERT_INTO_refresh_tokens. destruct (existsb _ _); intro H; inversion H.
  reflexivity.
Qed.

(** A registration answered 201 passed validation and left a user row with
    the normalized address. *)
Lemma POST_register_created (crypt : string -> string -> Result string) (body : json)
    (now : Date) (salt user_id token_id : string) (db db1 : DB)
    (r : ApiResponse.t (UserPublic.t * AuthTokens.t)) :
  POST_register crypt (Some body) now salt user_id token_id db = (r, db1) ->
  ApiResponse.http r = 201 ->
  exists dto row,
    Validation.valid (validateRegister body) = true
    /\ Validation.data (validateRegister body) = Some dto
    /\ In row (users db1)
    /\ User.email row = RegisterDTO.email dto.
Proof.
  unfold POST_register.
  destruct (Validation.valid (validateRegister body)) eqn:Hvalid;
    [|intro H; inversion H; subst; discriminate].
  destruct (Validation.data (validateRegister body)) as [dto|] eqn:Hdata;
    [|intro H; inversion H; subst; discriminate].
  destruct (SELECT_users_by_email (RegisterDTO.email dto) db);
    [|intro H; inversion H; subst; discriminate].
  destruct (hashPassword crypt (RegisterDTO.password dto) salt) as [hash|];
    [|intro H; inversion H; subst; discriminate].
  destruct (INSERT_INTO_users _ db) as [db2|] eqn:Hu;
    [|intro H; inversion H; subst; discriminate].
  destruct (INSERT_INTO_refresh_tokens _ db2) as [db3|] eqn:Ht;
    [|intro H; inversion H; subst; discriminate].
  intros H _. inversion H; subst.
  exists dto, (User.mk user_id (RegisterDTO.email dto) hash (RegisterDTO.name dto) now).
  split; [reflexivity|]. split; [reflexivity|]. split; [|reflexivity].
  rewrite (INSERT_INTO_refresh_tokens_users _ _ _ Ht), (INSERT_INTO_users_Ok _ _ _ Hu).
  apply in_or_app. right. now left.
Qed.

Lemma isValidEmail_whitespace (e : string) :
  noWhiteSpace e = false -> isValidEmail e = false.
Proof.
  intro H. destruct (isValidEmail e) eqn:E; [|reflexivity].
  apply isValidEmail_noWhite in E. congruence.
Qed.

(** C9 (amended), for requests in ASCII.  Registration and login depend on
    an ASCII address only through its lower-case form: two requests that
    differ in the case of the letters [A] to [Z] of the address get the same
    answer and leave the same store, so a login under another capitalization
    succeeds whenever the login under the registered spelling does, and after
    a registration answered 201 a registration under another capitalization
    is answered 409.  White space is not stripped: the [trim()] has nothing to
    strip on an address that passed validation, and an address with an ASCII
    white-space character in it is answered 400 "Invalid email format" by both
    handlers. *)
Theorem email_normalization_is_case_only
    (crypt : string -> string -> Result string)
    (e e' : string) (rest : list (string * json)) :
  isASCII e = true ->
  isASCII e' = true ->
  asciiMembers (JObj rest) ["password"; "name"] = true ->
  toLowerCase e = toLowerCase e' ->
  (forall now salt user_id token_id db,
     POST_register crypt (Some (withEmail e rest)) now salt user_id token_id db
     = POST_register crypt (Some (withEmail e' rest)) now salt user_id token_id db)
  /\ (forall now token_id db,
        POST_login crypt (Some (withEmail e rest)) now token_id db
        = POST_login crypt (Some (withEmail e' rest)) now token_id db)
  /\ (forall now salt user_id token_id db r db1 now' salt' user_id' token_id',
        POST_register crypt (Some (withEmail e rest)) now salt user_id token_id db
          = (r, db1) ->
        ApiResponse.http r = 201 ->
        POST_register crypt (Some (withEmail e' rest)) now' salt' user_id' token_id' db1
          = (failure 409 "Email already registered", db1))
  /\ (isValidEmail e = true -> trim (toLowerCase e) = toLowerCase e)
  /\ (noWhiteSpace e = false -> e <> EmptyString ->
      forall now salt user_id token_id db,
        POST_register crypt (Some (withEmail e rest)) now salt user_id token_id db
          = (failure 400 "Invalid email format", db)
        /\ POST_login crypt (Some (withEmail e rest)) now token_id db
          = (failure 400 "Invalid email format", db)).
Proof.
  intros _ _ _ H.
  split; [|split; [|split; [|split]]].
  - intros. unfold POST_register. now rewrite (validateRegister_case e e' rest H).
  - intros. unfold POST_login. now rewrite (validateLogin_case e e' rest H).
  - intros now salt user_id token_id db r db1 now' salt' user_id' token_id' Hreg H201.
    destruct (POST_register_created _ _ _ _ _ _ _ _ _ Hreg H201)
      as (dto & row & Hvalid & Hdata & Hin & Hemail).
    unfold POST_register.
    rewrite <- (validateRegister_case e e' rest H), Hvalid, Hdata.
    destruct (SELECT_users_by_email (RegisterDTO.email dto) db1) eqn:Hsel; [|reflexivity].
    exfalso.
    assert (Hrow : In row (SELECT_users_by_email (RegisterDTO.email dto) db1)).
    { unfold SELECT_users_by_email. apply filter_In. split; [exact Hin|].
      rewrite Hemail. apply String.eqb_refl. }
    rewrite Hsel in Hrow. exact Hrow.
  - apply trim_valid_email.
  - intros Hws Hne now salt user_id token_id db.
    assert (Hinvalid : isValidEmail e = false) by now apply isValidEmail_whitespace.
    assert (Hstr : nonEmptyString (Some (JStr e)) = Some e)
      by (destruct e; [congruence|reflexivity]).
    split.
    + unfold POST_register, validateRegister, withEmail.
      change (field (JObj (("email", JStr e) :: rest)) "email") with (Some (JStr e)).
      cbv zeta. rewrite Hstr. cbv beta iota. rewrite Hinvalid. reflexivity.
    + unfold POST_login, validateLogin, withEmail.
      change (field (JObj (("email", JStr e) :: rest)) "email") with (Some (JStr e)).
      cbv zeta. rewrite Hstr. cbv beta iota. rewrite Hinvalid. reflexivity.
Qed.

Lemma email_normalization_is_case_only_witness :
  POST_login crypt0 (Some (credentials "ALICE@Example.com" "password123" "")) 5000 "r2"
             aliceDB
  = POST_login crypt0 (Some (credentials "alice@example.com" "password123" "")) 5000 "r2"
               aliceDB
  /\ POST_register crypt0 (Some (credentials "ALICE@EXAMPLE.COM" "password123" "Alice"))
       9000 salt0 "u2" "r2" aliceDB
     = (failure 409 "Email already registered", aliceDB).
Proof.
  destruct (email_normalization_is_case_only crypt0 "ALICE@Example.com" "alice@example.com"
              [("password", JStr "password123"); ("name", JStr "")]
              eq_refl eq_refl eq_refl eq_refl)
    as (_ & Hlogin & _).
  destruct (email_normalization_is_case_only crypt0 "Alice@Example.com" "ALICE@EXAMPLE.COM"
              [("password", JStr "password123"); ("name", JStr "Alice")]
              eq_refl eq_refl eq_refl eq_refl)
    as (_ & _ & Hdup & _).
  split.
  - exact (Hlogin 5000 "r2" aliceDB).
  - exact (Hdup 1500 salt0 "u1" "r1" emptyDB _ aliceDB 9000 salt0 "u2" "r2"
             eq_refl eq_refl).
Defined.

(** C9 as stated fails on white space.  With Alice registered, the login
    under [" alice@example.com"] is answered 400, while the login under that
    address lower-cased and trimmed is answered 200; likewise a registration
    under [" bob@example.com"] is answered 400 and under the trimmed address
    201. *)
Lemma email_trim_counterexample :
  trim (toLowerCase " alice@example.com") = "alice@example.com"
  /\ fst (POST_login crypt0 (Some (credentials " alice@example.com" "password123" ""))
            5000 "r2" aliceDB)
     = failure 400 "Invalid email format"
  /\ ApiResponse.http
       (fst (POST_login crypt0
               (Some (credentials (trim (toLowerCase " alice@example.com"))
                        "password123" ""))
               5000 "r2" aliceDB))
     = 200
  /\ fst (POST_register crypt0 (Some (credentials " bob@example.com" "password123" "Bob"))
            5000 salt0 "u2" "r2" aliceDB)
     = failure 400 "Invalid email format"
  /\ ApiResponse.http
       (fst (POST_register crypt0
               (Some (credentials (trim (toLowerCase " bob@example.com"))
                        "password123" "Bob"))
               5000 salt0 "u2" "r2" aliceDB))
     = 201.
Proof. repeat split; reflexivity. Qed.

(* ===================================================================== *)
(** * 22. Task writes: what they leave alone *)
(* ===================================================================== *)

Lemma mergeUpdate_fixed (Date_parse : string -> option Date) (updates : UpdateTaskDTO.t)
    (t : Task.t) (now : Date) (set : Task.t -> Task.t) :
  mergeUpdate Date_parse updates t now = Ok set ->
  forall x, fixedColumns (set x) = fixedColumns x.
Proof.
  unfold mergeUpdate.
  destruct (UpdateTaskDTO.due_date updates) as [[[|c r]|]|];
    try destruct (Date_parse (String c r));
    intro H; inversion H; reflexivity.
Qed.

(** An [UPDATE] that keeps the owner column changes no row of another
    user. *)
Lemma UPDATE_task_others (set : Task.t -> Task.t) (taskId userId : string) (db : DB) :
  (forall x, Task.user_id (set x) = Task.user_id x) ->
  rowsOfOthers userId (fst (UPDATE_task set taskId userId db)) = rowsOfOthers userId db.
Proof.
  intro Hu. unfold rowsOfOthers. simpl.
  induction (tasks db) as [|x l IH]; simpl; [reflexivity|].
  destruct (ownedBy taskId userId x) eqn:E.
  - apply ownedBy_true in E as [_ E]. unfold ownerIs in *.
    rewrite Hu, E, String.eqb_refl. simpl. exact IH.
  - rewrite IH. reflexivity.
Qed.

Lemma DELETE_task_others (taskId userId : string) (db : DB) :
  rowsOfOthers userId (fst (DELETE_task taskId userId db)) = rowsOfOthers userId db.
Proof.
  unfold rowsOfOthers. simpl.
  induction (tasks db) as [|x l IH]; simpl; [reflexivity|].
  destruct (ownedBy taskId userId x) eqn:E; simpl.
  - apply ownedBy_true in E as [_ E]. unfold ownerIs in *.
    rewrite E, String.eqb_refl. simpl. exact IH.
  - rewrite IH. reflexivity.
Qed.

Lemma UPDATE_task_fixed (set : Task.t -> Task.t) (taskId userId : string) (db : DB) :
  (forall x, fixedColumns (set x) = fixedColumns x) ->
  map fixedColumns (tasks (fst (UPDATE_task set taskId userId db)))
    = map fixedColumns (tasks db).
Proof.
  intro Hf. simpl. rewrite map_map. apply map_ext. intro x.
  destruct (ownedBy taskId userId x); [apply Hf|reflexivity].
Qed.

(** The store after [createTask] is the store before, or the store before
    with one row of the caller appended. *)
Lemma createTask_store (Date_parse : string -> option Date) (body : option json)
    (user : JWTPayload.t) (now : Date) (new_id : string) (db : DB) :
  snd (createTask Date_parse body user now new_id db) = db \/
  exists row,
    Task.id row = new_id /\ Task.user_id row = JWTPayload.userId user /\
    fst (createTask Date_parse body user now new_id db)
      = reply 201 (Some row) (Some "Task created successfully") /\
    snd (createTask Date_parse body user now new_id db)
      = set_tasks db (tasks db ++ [row]) /\
    (forall t, In t (tasks db) -> Task.id t <> new_id).
Proof.
  unfold createTask. destruct body as [body|]; [|now left].
  destruct (Validation.valid _); [|now left].
  destruct (Validation.data _) as [dto|]; [|now left].
  match goal with
  | |- context [match ?d with Ok _ => _ | Throw _ => _ end] => destruct d as [due|]
  end; [|now left].
  unfold INSERT_INTO_tasks.
  destruct (existsb _ (tasks db)) eqn:E; [now left|].
  right. eexists. repeat split; try reflexivity.
  intros t Hin Heq.
  assert (H : existsb (fun t0 => String.eqb (Task.id t0) new_id) (tasks db) = true).
  { apply existsb_exists. exists t. split; [exact Hin|]. now apply String.eqb_eq. }
  simpl in E. congruence.
Qed.

(** X1.  Whatever a caller sends to the four writing task routes, the task
    rows of every other user, the users and the refresh tokens are after the
    request what they were before. *)
Theorem task_writes_spare_other_users (Date_parse : string -> option Date)
    (isId : string -> bool) (taskId : option string) (body : option json)
    (user : JWTPayload.t) (now : Date) (new_id : string) (db : DB) :
  let spared := sparesOthers (JWTPayload.userId user) db in
  spared (snd (createTask Date_parse body user now new_id db)) /\
  spared (snd (updateTask Date_parse isId taskId body user now db)) /\
  spared (snd (toggleTask isId taskId user now db)) /\
  spared (snd (deleteTask isId taskId user db)).
Proof.
  unfold sparesOthers. split; [|split; [|split]].
  - destruct (createTask_store Date_parse body user now new_id db)
      as [->|(row & _ & Hu & _ & -> & _)]; [now repeat split|].
    repeat split. unfold rowsOfOthers. simpl. rewrite filter_app. simpl.
    unfold ownerIs at 2. rewrite Hu, String.eqb_refl. simpl. apply app_nil_r.
  - unfold updateTask. destruct (truthy taskId); simpl; [|now repeat split].
    destruct body as [b|]; [|now repeat split].
    destruct (Validation.valid _); [|now repeat split].
    destruct (Validation.data _) as [updates|]; [|now repeat split].
    destruct (isId _); simpl; [|now repeat split].
    destruct (SELECT_task _ _ db) as [|existing rest]; [now repeat split|].
    destruct (mergeUpdate _ _ _ _) as [set|] eqn:Em; [|now repeat split].
    pose proof (mergeUpdate_fixed _ _ _ _ _ Em) as Hf.
    split; [|now split].
    apply (UPDATE_task_others set). intro x. specialize (Hf x).
    unfold fixedColumns in Hf. congruence.
  - unfold toggleTask. destruct (truthy taskId); simpl; [|now repeat split].
    destruct (isId _); simpl; [|now repeat split].
    destruct (SELECT_task _ _ db) as [|existing rest]; [now repeat split|].
    split; [|now split].
    unfold UPDATE_task.
    match goal with
    | |- context [map (fun t => if ownedBy _ _ t then @?f t else t) _] =>
        apply (UPDATE_task_others f)
    end. reflexivity.
  - unfold deleteTask. destruct (truthy taskId); simpl; [|now repeat split].
    destruct (isId _); simpl; [|now repeat split].
    destruct (filter (ownedBy _ _) (tasks db)) as [|x l] eqn:E; simpl;
      [now repeat split|].
    split; [|now split]. apply DELETE_task_others.
Qed.

(** X2.  [PATCH /tasks/:id] and [PATCH /tasks/:id/toggle] never change the
    key, the owner or the creation time of any row, nor the number of rows:
    a task cannot be handed to another user or re-dated. *)
Theorem update_and_toggle_keep_fixed_columns (Date_parse : string -> option Date)
    (isId : string -> bool) (taskId : option string) (body : option json)
    (user : JWTPayload.t) (now : Date) (db : DB) :
  map fixedColumns (tasks (snd (updateTask Date_parse isId taskId body user now db)))
    = map fixedColumns (tasks db) /\
  map fixedColumns (tasks (snd (toggleTask isId taskId user now db)))
    = map fixedColumns (tasks db).
Proof.
  split.
  - unfold updateTask. destruct (truthy taskId); simpl; [|reflexivity].
    destruct body as [b|]; [|reflexivity].
    destruct (Validation.valid _); [|reflexivity].
    destruct (Validation.data _) as [updates|]; [|reflexivity].
    destruct (isId _); simpl; [|reflexivity].
    destruct (SELECT_task _ _ db) as [|existing rest]; [reflexivity|].
    destruct (mergeUpdate _ _ _ _) as [set|] eqn:Em; [|reflexivity].
    apply (UPDATE_task_fixed set), (mergeUpdate_fixed _ _ _ _ _ Em).
  - unfold toggleTask. destruct (truthy taskId); simpl; [|reflexivity].
    destruct (isId _); simpl; [|reflexivity].
    destruct (SELECT_task _ _ db) as [|existing rest]; [reflexivity|].
    unfold UPDATE_task.
    match goal with
    | |- context [map (fun t => if ownedBy _ _ t then @?f t else t) _] =>
        apply (UPDATE_task_fixed f)
    end. reflexivity.
Qed.

(** X3.  A task route, the login and the logout change the store only when
    they answer with success: after a 400, 401, 404 or 500 of these routes
    the store is what it was. *)
Theorem failed_requests_leave_the_store (Date_parse : string -> option Date)
    (isId : string -> bool) (crypt : string -> string -> Result string)
    (authHeader : AuthorizationHeader) (taskId : option string) (body : option json)
    (request : LogoutRequest) (now : Date) (new_id : string) (db : DB) :
  okOrUnchanged db (POST_task Date_parse authHeader body now new_id db) /\
  okOrUnchanged db (PATCH_task Date_parse isId authHeader taskId body now db) /\
  okOrUnchanged db (PATCH_toggle isId authHeader taskId now db) /\
  okOrUnchanged db (DELETE_task_route isId authHeader taskId now db) /\
  okOrUnchanged db (POST_login crypt body now new_id db) /\
  okOrUnchanged db (POST_logout authHeader request now db) /\
  snd (GET_task isId authHeader taskId now db) = db /\
  snd (GET_me authHeader now db) = db.
Proof.
  unfold okOrUnchanged, POST_task, PATCH_task, PATCH_toggle, DELETE_task_route,
    GET_task, withAuth, unauthorized.
  repeat split.
  - destruct authHeader as [|v|tok]; try (now right).
    destruct (verifyAccessToken tok now) as [user|]; [|now right].
    destruct (createTask_store Date_parse body user now new_id db)
      as [->|(row & _ & _ & -> & _)]; [now right|now left].
  - destruct authHeader as [|v|tok]; try (now right).
    destruct (verifyAccessToken tok now) as [user|]; [|now right].
    unfold updateTask. destruct (truthy taskId); simpl; [|now right].
    destruct body as [b|]; [|now right].
    destruct (Validation.valid _); [|now right].
    destruct (Validation.data _) as [updates|]; [|now right].
    destruct (isId _); simpl; [|now right].
    destruct (SELECT_task _ _ db) as [|existing rest]; [now right|].
    destruct (mergeUpdate _ _ _ _) as [set|]; [now left|now right].
  - destruct authHeader as [|v|tok]; try (now right).
    destruct (verifyAccessToken tok now) as [user|]; [|now right].
    unfold toggleTask. destruct (truthy taskId); simpl; [|now right].
    destruct (isId _); simpl; [|now right].
    destruct (SELECT_task _ _ db) as [|existing rest]; [now right|now left].
  - destruct authHeader as [|v|tok]; try (now right).
    destruct (verifyAccessToken tok now) as [user|]; [|now right].
    unfold deleteTask. destruct (truthy taskId); simpl; [|now right].
    destruct (isId _); simpl; [|now right].
    destruct (filter (ownedBy _ _) (tasks db)); [now right|now left].
  - unfold POST_login. destruct body as [b|]; [|now right].
    destruct (Validation.valid _); [|now right].
    destruct (Validation.data _) as [dto|]; [|now right].
    destruct (SELECT_users_by_email _ db) as [|u us]; [now right|].
    destruct (verifyPassword _ _ _) as [[|]|]; try (now right).
    destruct (INSERT_INTO_refresh_tokens _ _); [now left|now right].
  - unfold POST_logout. destruct authHeader as [|v|tok]; try (now right).
    destruct (verifyAccessToken tok now); [now left|now right].
  - destruct authHeader as [|v|tok]; try reflexivity.
    destruct (verifyAccessToken tok now) as [user|]; [|reflexivity].
    unfold getTask. destruct (truthy taskId); simpl; [|reflexivity].
    destruct (isId _); simpl; [|reflexivity].
    destruct (SELECT_task _ _ db); reflexivity.
  - unfold GET_me. destruct authHeader as [|v|tok]; try reflexivity.
    destruct (verifyAccessToken tok now) as [user|]; [|reflexivity].
    destruct (SELECT_users_by_id _ db); reflexivity.
Qed.

(* ===================================================================== *)
(** * 23. Delete, repeated update, create *)
(* ===================================================================== *)

Lemma ownedBy_key (db : DB) (t x : Task.t) :
  taskIdsUnique db -> In t (tasks db) -> In x (tasks db) ->
  ownedBy (Task.id t) (Task.user_id t) x = String.eqb (Task.id x) (Task.id t).
Proof.
  intros Hnd Ht Hx. unfold ownedBy.
  destruct (String.eqb_spec (Task.id x) (Task.id t)) as [E|E]; [|reflexivity].
  assert (x = t) by (apply (key_unique Task.id (tasks db)); auto).
  subst x. simpl. apply String.eqb_refl.
Qed.

Lemma length_without_key {A : Type} (f : A -> string) (l : list A) (a : A) :
  NoDup (map f l) -> In a l ->
  (length (filter (fun x => negb (String.eqb (f x) (f a))) l) + 1 = length l)%nat.
Proof.
  induction l as [|y l IH]; simpl; intros Hnd Hin; [contradiction|].
  inversion Hnd as [|? ? Hnotin Hnd']; subst.
  destruct Hin as [->|Hin].
  - rewrite String.eqb_refl. simpl.
    rewrite (proj2 (filter_ext_in_iff _ (fun _ => true) l)).
    + rewrite filter_true. lia.
    + intros x Hx. destruct (String.eqb_spec (f x) (f a)) as [E|E]; [|reflexivity].
      exfalso. apply Hnotin. rewrite <- E. now apply in_map.
  - destruct (String.eqb_spec (f y) (f a)) as [E|E]; simpl.
    + exfalso. apply Hnotin. rewrite E. now apply in_map.
    + rewrite <- (IH Hnd' Hin). lia.
Qed.

(** X4.  [DELETE /tasks/:id] by the owner removes that row and no other; from
    then on the id is unknown to every caller: reading it, and deleting it a
    second time, answer 404. *)
Theorem delete_then_not_found (isId : string -> bool) (db : DB) (t : Task.t)
    (user : JWTPayload.t) :
  taskIdsUnique db ->
  In t (tasks db) ->
  Task.id t <> EmptyString ->
  isId (Task.id t) = true ->
  Task.user_id t = JWTPayload.userId user ->
  let r := deleteTask isId (Some (Task.id t)) user db in
  fst r = reply 200 None (Some "Task deleted successfully") /\
  (forall x, In x (tasks (snd r)) <-> In x (tasks db) /\ x <> t) /\
  (length (tasks (snd r)) + 1 = length (tasks db))%nat /\
  forall anyone,
    fst (getTask isId (Some (Task.id t)) anyone (snd r)) = failure 404 "Task not found" /\
    deleteTask isId (Some (Task.id t)) anyone (snd r)
      = (failure 404 "Task not found", snd r).
Proof.
  intros Hnd Hin Hne Hid Hu r.
  assert (Hdel : tasks (fst (DELETE_task (Task.id t) (Task.user_id t) db))
                 = filter (fun x => negb (String.eqb (Task.id x) (Task.id t))) (tasks db)).
  { simpl. apply filter_ext_in. intros x Hx. now rewrite (ownedBy_key db t x). }
  assert (Hr : r = (reply 200 None (Some "Task deleted successfully"),
                    fst (DELETE_task (Task.id t) (Task.user_id t) db))).
  { unfold r, deleteTask.
    rewrite (truthy_Some _ Hne), (orDefault_Some _ _ Hne), Hid, <- Hu. simpl.
    fold (SELECT_task (Task.id t) (Task.user_id t) db).
    now rewrite (SELECT_task_own db t Hnd Hin). }
  rewrite Hr. cbn [fst snd]. rewrite Hdel.
  assert (Hgone : forall x,
             In x (filter (fun x => negb (String.eqb (Task.id x) (Task.id t))) (tasks db)) ->
             Task.id x <> Task.id t).
  { intros x Hx. apply filter_In in Hx as [_ Hx].
    destruct (String.eqb_spec (Task.id x) (Task.id t)); [discriminate|assumption]. }
  split; [reflexivity|]. split; [|split].
  - intro x. rewrite filter_In. split.
    + intros [Hx E]. split; [exact Hx|]. intros ->. rewrite String.eqb_refl in E.
      discriminate.
    + intros [Hx Hneq]. split; [exact Hx|].
      destruct (String.eqb_spec (Task.id x) (Task.id t)) as [E|E]; [|reflexivity].
      exfalso. apply Hneq. apply (key_unique Task.id (tasks db)); auto.
  - now apply (length_without_key Task.id).
  - intro anyone.
    set (db1 := fst (DELETE_task (Task.id t) (Task.user_id t) db)) in *.
    assert (Habs : SELECT_task (Task.id t) (JWTPayload.userId anyone) db1 = []).
    { apply SELECT_task_absent. rewrite Hdel. exact Hgone. }
    unfold getTask, deleteTask, DELETE_task.
    rewrite (truthy_Some _ Hne), (orDefault_Some _ _ Hne), Hid.
    cbn [negb]. cbv iota.
    fold (SELECT_task (Task.id t) (JWTPayload.userId anyone) db1).
    rewrite Habs. split; reflexivity.
Qed.

Lemma delete_then_not_found_witness :
  fst (deleteTask isId0 (Some "t1") bob bobDB)
    = reply 200 None (Some "Task deleted successfully") /\
  fst (getTask isId0 (Some "t1") bob (snd (deleteTask isId0 (Some "t1") bob bobDB)))
    = failure 404 "Task not found".
Proof.
  assert (Hnd : taskIdsUnique bobDB).
  { unfold taskIdsUnique. simpl. constructor; [simpl; tauto|constructor]. }
  assert (Hin : In bobTask (tasks bobDB)) by (simpl; auto).
  assert (Hne : Task.id bobTask <> EmptyString) by (simpl; discriminate).
  destruct (delete_then_not_found isId0 bobDB bobTask bob Hnd Hin Hne eq_refl eq_refl)
    as (H1 & _ & _ & H4).
  split; [exact H1|]. exact (proj1 (H4 bob)).
Defined.

(** Merging the same request into the row it has produced changes nothing
    but [updated_at]. *)
Lemma mergeUpdate_again (Date_parse : string -> option Date) (updates : UpdateTaskDTO.t)
    (t : Task.t) (now later : Date) (set : Task.t -> Task.t) :
  mergeUpdate Date_parse updates t now = Ok set ->
  exists set',
    mergeUpdate Date_parse updates (set t) later = Ok set' /\
    set' (set t) = touched (set t) later.
Proof.
  unfold mergeUpdate, touched. intro H.
  destruct updates as [ti de st pr du]; simpl in *.
  destruct du as [[[|c r]|]|]; try destruct (Date_parse (String c r));
    try discriminate; inversion H; subst set; clear H;
    (eexists; split; [reflexivity|]); simpl;
    destruct ti, de as [[|? ?]|], st, pr; reflexivity.
Qed.

(** X5.  [PATCH /tasks/:id] is idempotent up to the time stamp: sending the
    same body a second time succeeds again and changes nothing of the row
    but [updated_at]. *)
Theorem update_twice_is_update_once (Date_parse : string -> option Date)
    (isId : string -> bool) (db : DB) (t : Task.t) (user : JWTPayload.t)
    (now later : Date) (body : json) :
  taskIdsUnique db ->
  In t (tasks db) ->
  Task.id t <> EmptyString ->
  isId (Task.id t) = true ->
  Task.user_id t = JWTPayload.userId user ->
  let first := updateTask Date_parse isId (Some (Task.id t)) (Some body) user now db in
  ApiResponse.http (fst first) = 200 ->
  exists t1,
    ApiResponse.data (fst first) = Some t1 /\
    updateTask Date_parse isId (Some (Task.id t)) (Some body) user later (snd first)
      = (reply 200 (Some (touched t1 later)) (Some "Task updated successfully"),
         set_tasks (snd first) (replaceTask (touched t1 later) (tasks (snd first)))).
Proof.
  intros Hnd Hin Hne Hid Hu first H200.
  destruct (Validation.valid (validateUpdateTask Date_parse body)) eqn:Hvalid.
  2:{ exfalso. unfold first, updateTask in H200.
      rewrite (truthy_Some _ Hne), Hvalid in H200. simpl in H200. discriminate. }
  destruct (validateUpdateTask_data _ _ Hvalid) as [updates Hdata].
  destruct (mergeUpdate Date_parse updates t now) as [set|e] eqn:Em.
  2:{ exfalso. unfold first, updateTask in H200.
      rewrite (truthy_Some _ Hne), (orDefault_Some _ _ Hne), Hvalid, Hdata, Hid, <- Hu
        in H200.
      simpl negb in H200. cbv iota in H200.
      rewrite (SELECT_task_own db t Hnd Hin), Em in H200. simpl in H200. discriminate. }
  pose proof (updateTask_own Date_parse isId db t user now body updates set
                Hnd Hin Hne Hid Hu Hvalid Hdata Em) as H1.
  fold first in H1. rewrite H1. cbn [fst snd ApiResponse.data reply].
  exists (set t). split; [reflexivity|].
  pose proof (mergeUpdate_id _ _ _ _ _ Em t) as Hidt.
  pose proof (mergeUpdate_fixed _ _ _ _ _ Em t) as Hfix.
  destruct (mergeUpdate_again _ _ _ _ later _ Em) as (set' & Em' & Hset').
  set (db1 := set_tasks db (replaceTask (set t) (tasks db))).
  assert (Hnd1 : taskIdsUnique db1).
  { unfold taskIdsUnique, db1. simpl. rewrite replaceTask_ids. exact Hnd. }
  assert (Hin1 : In (set t) (tasks db1)).
  { unfold db1. simpl. now apply (replaceTask_In t). }
  assert (Hu1 : Task.user_id (set t) = JWTPayload.userId user).
  { unfold fixedColumns in Hfix. congruence. }
  pose proof (updateTask_own Date_parse isId db1 (set t) user later body updates set'
                Hnd1 Hin1) as H2.
  rewrite Hidt, Hset' in H2. now apply H2.
Qed.

Lemma update_twice_is_update_once_witness :
  exists t1,
    ApiResponse.data
      (fst (updateTask Date_parse0 isId0 (Some "t1")
              (Some (JObj [("status", JStr "completed")])) bob 3000 bobDB)) = Some t1 /\
    updateTask Date_parse0 isId0 (Some "t1") (Some (JObj [("status", JStr "completed")]))
      bob 4000
      (snd (updateTask Date_parse0 isId0 (Some "t1")
              (Some (JObj [("status", JStr "completed")])) bob 3000 bobDB))
    = (reply 200 (Some (touched t1 4000)) (Some "Task updated successfully"),
       set_tasks
         (snd (updateTask Date_parse0 isId0 (Some "t1")
                 (Some (JObj [("status", JStr "completed")])) bob 3000 bobDB))
         (replaceTask (touched t1 4000)
            (tasks (snd (updateTask Date_parse0 isId0 (Some "t1")
                           (Some (JObj [("status", JStr "completed")])) bob 3000 bobDB))))).
Proof.
  assert (Hnd : taskIdsUnique bobDB).
  { unfold taskIdsUnique. simpl. constructor; [simpl; tauto|constructor]. }
  assert (Hin : In bobTask (tasks bobDB)) by (simpl; auto).
  assert (Hne : Task.id bobTask <> EmptyString) by (simpl; discriminate).
  exact (update_twice_is_update_once Date_parse0 isId0 bobDB bobTask bob 3000 4000
           (JObj [("status", JStr "completed")]) Hnd Hin Hne eq_refl eq_refl eq_refl).
Defined.

(* ===================================================================== *)
(** * 24. Trimming twice *)
(* ===================================================================== *)

Lemma trimStart_clean (s : string) : startsClean (trimStart s).
Proof.
  induction s as [|c r IH]; simpl; [exact I|].
  destruct (isWhiteSpace c) eqn:E; [exact IH|exact E].
Qed.

Lemma clean_trimStart (s : string) : startsClean s -> trimStart s = s.
Proof. destruct s as [|c r]; simpl; [reflexivity|]. now intros ->. Qed.

Lemma append_assoc (a b c : string) : ((a ++ b) ++ c = a ++ (b ++ c))%string.
Proof. induction a as [|x a IH]; simpl; [reflexivity|now rewrite IH]. Qed.

Lemma reverse_acc (s acc : string) : reverse s acc = (reverse s EmptyString ++ acc)%string.
Proof.
  revert acc. induction s as [|c r IH]; intro acc; simpl; [reflexivity|].
  rewrite (IH (String c acc)), (IH (String c EmptyString)), append_assoc. reflexivity.
Qed.

Lemma reverse_app (y z acc : string) :
  reverse (y ++ z) acc = reverse z (reverse y acc).
Proof.
  revert acc. induction y as [|c r IH]; intro acc; simpl; [reflexivity|apply IH].
Qed.

Lemma trimStart_snoc (x : string) (c : ascii) :
  isWhiteSpace c = false ->
  trimStart (x ++ String c EmptyString) = (trimStart x ++ String c EmptyString)%string.
Proof.
  intro Hc. induction x as [|d r IH]; simpl; [now rewrite Hc|].
  destruct (isWhiteSpace d); [exact IH|reflexivity].
Qed.

Lemma trimEnd_clean (s : string) : startsClean s -> startsClean (trimEnd s).
Proof.
  destruct s as [|c r]; [intros _; exact I|]. simpl. intro Hc. unfold trimEnd. simpl.
  rewrite (reverse_acc r (String c EmptyString)), (trimStart_snoc _ _ Hc), reverse_app.
  simpl. exact Hc.
Qed.

Lemma trimEnd_idem (s : string) : trimEnd (trimEnd s) = trimEnd s.
Proof.
  unfold trimEnd. rewrite reverse_reverse. simpl. rewrite append_empty_r.
  now rewrite (clean_trimStart _ (trimStart_clean _)).
Qed.

(** [trim] returns a string on which [trim] does nothing. *)
Lemma trim_idem (s : string) : trim (trim s) = trim s.
Proof.
  unfold trim.
  rewrite (clean_trimStart (trimEnd (trimStart s))).
  - apply trimEnd_idem.
  - apply trimEnd_clean, trimStart_clean.
Qed.

Lemma isASCII_trimStart (s : string) : isASCII s = true -> isASCII (trimStart s) = true.
Proof.
  induction s as [|c r IH]; simpl; [trivial|]. intro H.
  destruct (isWhiteSpace c); [|exact H].
  apply IH. now apply andb_prop in H as [_ H].
Qed.

Lemma isASCII_reverse (s acc : string) :
  isASCII (reverse s acc) = isASCII s && isASCII acc.
Proof.
  revert acc. induction s as [|c r IH]; intro acc; simpl; [reflexivity|].
  rewrite IH. simpl.
  destruct (nat_of_ascii c <? 128)%nat, (isASCII r), (isASCII acc); reflexivity.
Qed.

(** [trim] of an ASCII string is an ASCII string. *)
Lemma isASCII_trim (s : string) : isASCII s = true -> isASCII (trim s) = true.
Proof.
  intro H. unfold trim, trimEnd. rewrite isASCII_reverse, andb_true_r.
  apply isASCII_trimStart. rewrite isASCII_reverse, andb_true_r.
  now apply isASCII_trimStart.
Qed.

Lemma asciiMembers_In (b : json) (keys : list string) (k s : string) :
  asciiMembers b keys = true -> In k keys -> field b k = Some (JStr s) ->
  isASCII s = true.
Proof.
  intros H Hin Hf. unfold asciiMembers in H.
  rewrite forallb_forall in H. specialize (H k Hin). now rewrite Hf in H.
Qed.

Lemma titleOk_trim (s : string) :
  isASCII s = true ->
  (String.length (trim s) <? 1)%nat = false ->
  (255 <? String.length (trim s))%nat = false ->
  titleOk (trim s).
Proof.
  intros Ha H1 H2. apply Nat.ltb_ge in H1, H2.
  split; [now apply isASCII_trim|]. split; [apply trim_idem|lia].
Qed.

(* ===================================================================== *)
(** * 25. Creating a task *)
(* ===================================================================== *)

(** What [validateCreateTask] hands on when it accepts a body. *)
Lemma validateCreateTask_valid (Date_parse : string -> option Date) (b : json) :
  asciiMembers b ["title"] = true ->
  Validation.valid (validateCreateTask Date_parse b) = true ->
  exists dto,
    Validation.data (validateCreateTask Date_parse b) = Some dto /\
    titleOk (CreateTaskDTO.title dto) /\
    CreateTaskDTO.description dto
      = match field b "description" with
        | Some (JStr (String c r)) => Some (trim (String c r))
        | _ => None
        end /\
    CreateTaskDTO.status dto
      = match field b "status" with None => None | Some v => statusOf v end /\
    CreateTaskDTO.priority dto
      = match field b "priority" with None => None | Some v => priorityOf v end /\
    (field b "due_date" = None -> CreateTaskDTO.due_date dto = None).
Proof.
  intro Ha. unfold validateCreateTask. destruct (isObject b); simpl; [|discriminate].
  destruct (field b "title") as [[| | |s| |]|] eqn:Ef; simpl; try discriminate.
  pose proof (asciiMembers_In b _ "title" s Ha (or_introl eq_refl) Ef) as Hs.
  destruct s as [|c0 r0]; simpl; [discriminate|].
  destruct (String.length (trim (String c0 r0)) <? 1)%nat eqn:E1; simpl; [discriminate|].
  destruct (255 <? String.length (trim (String c0 r0)))%nat eqn:E2; simpl; [discriminate|].
  match goal with
  | |- context [match ?e with [] => _ | _ :: _ => _ end] => destruct e
  end; simpl; [|discriminate].
  intros _. eexists. split; [reflexivity|]. simpl.
  split; [now apply titleOk_trim|]. repeat split. now intros ->.
Qed.

(** A request that [createTask] answers with 201. *)
Lemma createTask_201 (Date_parse : string -> option Date) (body : option json)
    (user : JWTPayload.t) (now : Date) (new_id : string) (db : DB) :
  ApiResponse.http (fst (createTask Date_parse body user now new_id db)) = 201 ->
  exists b dto due,
    body = Some b /\
    Validation.valid (validateCreateTask Date_parse b) = true /\
    Validation.data (validateCreateTask Date_parse b) = Some dto /\
    (CreateTaskDTO.due_date dto = None -> due = None) /\
    (forall t, In t (tasks db) -> Task.id t <> new_id) /\
    createTask Date_parse body user now new_id db
      = (reply 201 (Some (createdRow dto (JWTPayload.userId user) new_id due now))
           (Some "Task created successfully"),
         set_tasks db
           (tasks db ++ [createdRow dto (JWTPayload.userId user) new_id due now])).
Proof.
  unfold createTask. destruct body as [b|]; [|discriminate].
  destruct (Validation.valid _) eqn:Ev; [|discriminate].
  destruct (Validation.data _) as [dto|] eqn:Ed; [|discriminate].
  match goal with
  | |- context [match ?d with Ok _ => _ | Throw _ => _ end] =>
      destruct d as [due|] eqn:Edue
  end; [|discriminate].
  unfold INSERT_INTO_tasks.
  destruct (existsb _ (tasks db)) eqn:E; [discriminate|]. intros _.
  exists b, dto, due.
  split; [reflexivity|]. split; [exact Ev|]. split; [exact Ed|].
  split; [|split; [|reflexivity]].
  - intro Hd. rewrite Hd in Edue. congruence.
  - intros t Hin Heq.
    assert (H : existsb (fun t0 => String.eqb (Task.id t0) new_id) (tasks db) = true).
    { apply existsb_exists. exists t. split; [exact Hin|]. now apply String.eqb_eq. }
    simpl in E. congruence.
Qed.

(** X6.  A task that [POST /tasks] has created (201) is stored once, under
    the new key and the caller's id; [GET /tasks/:id] then returns to the
    caller the very row of the 201 answer, and answers 404 to anybody else. *)
Theorem create_then_read (Date_parse : string -> option Date) (isId : string -> bool)
    (body : option json) (user : JWTPayload.t) (now : Date) (new_id : string) (db : DB) :
  taskIdsUnique db ->
  new_id <> EmptyString ->
  isId new_id = true ->
  let r := createTask Date_parse body user now new_id db in
  ApiResponse.http (fst r) = 201 ->
  exists row,
    fst r = reply 201 (Some row) (Some "Task created successfully") /\
    fixedColumns row = (new_id, JWTPayload.userId user, now) /\
    Task.updated_at row = now /\
    tasks (snd r) = tasks db ++ [row] /\
    taskIdsUnique (snd r) /\
    getTask isId (Some new_id) user (snd r) = (reply 200 (Some row) None, snd r) /\
    forall other,
      JWTPayload.userId other <> JWTPayload.userId user ->
      getTask isId (Some new_id) other (snd r) = (failure 404 "Task not found", snd r).
Proof.
  intros Hnd Hne Hid r H201.
  destruct (createTask_201 _ _ _ _ _ _ H201)
    as (b & dto & due & _ & _ & _ & _ & Hfresh & Hr).
  fold r in Hr. rewrite Hr. cbn [fst snd].
  set (row := createdRow dto (JWTPayload.userId user) new_id due now) in *.
  set (db1 := set_tasks db (tasks db ++ [row])).
  assert (Hnd1 : taskIdsUnique db1).
  { unfold taskIdsUnique, db1. simpl. rewrite map_app. simpl.
    apply NoDup_app; [exact Hnd|repeat constructor; simpl; tauto|].
    intros k Hk [<-|[]]. apply in_map_iff in Hk as (t & Ht & Hin).
    exact (Hfresh t Hin Ht). }
  assert (Hin1 : In row (tasks db1)).
  { unfold db1. simpl. apply in_or_app. right. now left. }
  exists row. repeat split; try reflexivity; try exact Hnd1.
  - unfold getTask. rewrite (truthy_Some _ Hne), (orDefault_Some _ _ Hne), Hid. simpl.
    pose proof (SELECT_task_own db1 row Hnd1 Hin1) as Hs. simpl in Hs.
    now rewrite Hs.
  - intros other Hother. unfold getTask.
    rewrite (truthy_Some _ Hne), (orDefault_Some _ _ Hne), Hid. simpl.
    pose proof (SELECT_task_foreign db1 row (JWTPayload.userId other) Hnd1 Hin1 Hother)
      as Hs. simpl in Hs. now rewrite Hs.
Qed.

Lemma create_then_read_witness :
  exists row,
    fst (createTask Date_parse0 (Some (titled " Water the plants ")) bob 5000 "t2" bobDB)
      = reply 201 (Some row) (Some "Task created successfully") /\
    Task.title row = "Water the plants".
Proof.
  assert (Hnd : taskIdsUnique bobDB).
  { unfold taskIdsUnique. simpl. constructor; [simpl; tauto|constructor]. }
  assert (Hne : "t2" <> EmptyString) by discriminate.
  destruct (create_then_read Date_parse0 isId0 (Some (titled " Water the plants ")) bob
              5000 "t2" bobDB Hnd Hne eq_refl eq_refl) as (row & H1 & _).
  exists row. split; [exact H1|]. vm_compute in H1. now inversion H1.
Defined.

Lemma createTask_data (Date_parse : string -> option Date) (body : option json)
    (user : JWTPayload.t) (now : Date) (new_id : string) (db : DB) (row : Task.t) :
  ApiResponse.data (fst (createTask Date_parse body user now new_id db)) = Some row ->
  ApiResponse.http (fst (createTask Date_parse body user now new_id db)) = 201.
Proof.
  unfold createTask. destruct body as [b|]; [|discriminate].
  destruct (Validation.valid _); [|discriminate].
  destruct (Validation.data _) as [dto|]; [|discriminate].
  match goal with
  | |- context [match ?d with Ok _ => _ | Throw _ => _ end] => destruct d as [due|]
  end; [|discriminate].
  destruct (INSERT_INTO_tasks _ db); [reflexivity|discriminate].
Qed.



(** What [validateUpdateTask] lets through as a title. *)
Lemma validateUpdateTask_title (Date_parse : string -> option Date) (b : json)
    (updates : UpdateTaskDTO.t) (s : string) :
  asciiMembers b ["title"] = true ->
  Validation.data (validateUpdateTask Date_parse b) = Some updates ->
  UpdateTaskDTO.title updates = Some s ->
  titleOk s.
Proof.
  intro Ha. unfold validateUpdateTask. destruct (isObject b); simpl; [|discriminate].
  match goal with
  | |- context [if negb ?h then _ else _] => destruct h
  end; simpl; [|discriminate].
  destruct (field b "title") as [[| | |t| |]|] eqn:Ef; simpl; try discriminate.
  - pose proof (asciiMembers_In b _ "title" t Ha (or_introl eq_refl) Ef) as Ht.
    destruct (String.length (trim t) <? 1)%nat eqn:E1; simpl; [discriminate|].
    destruct (255 <? String.length (trim t))%nat eqn:E2; simpl; [discriminate|].
    match goal with
    | |- context [match ?e with [] => _ | _ :: _ => _ end] => destruct e
    end; simpl; [|discriminate].
    intros H Hs. inversion H; subst updates; clear H. simpl in Hs.
    inversion Hs; subst s. now apply titleOk_trim.
  - match goal with
    | |- context [match ?e with [] => _ | _ :: _ => _ end] => destruct e
    end; simpl; [|discriminate].
    intros H Hs. inversion H; subst updates. discriminate.
Qed.

Lemma mergeUpdate_title (Date_parse : string -> option Date) (updates : UpdateTaskDTO.t)
    (t : Task.t) (now : Date) (set : Task.t -> Task.t) :
  mergeUpdate Date_parse updates t now = Ok set ->
  forall x,
    Task.title (set x)
    = match UpdateTaskDTO.title updates with Some s => s | None => Task.title t end.
Proof.
  unfold mergeUpdate.
  destruct (UpdateTaskDTO.due_date updates) as [[[|c r]|]|];
    try destruct (Date_parse (String c r));
    intro H; inversion H; reflexivity.
Qed.

(** X8.  Titles in ASCII: if every stored title is an ASCII string, trimmed
    and of 1 to 255 characters, then so it is after any create, update, toggle
    or delete request whose title, if it has one, is an ASCII string. *)
Theorem titles_stay_well_formed (Date_parse : string -> option Date)
    (isId : string -> bool) (taskId : option string) (body : option json)
    (user : JWTPayload.t) (now : Date) (new_id : string) (db : DB) :
  titlesOk db ->
  asciiRequest body ["title"] = true ->
  titlesOk (snd (createTask Date_parse body user now new_id db)) /\
  titlesOk (snd (updateTask Date_parse isId taskId body user now db)) /\
  titlesOk (snd (toggleTask isId taskId user now db)) /\
  titlesOk (snd (deleteTask isId taskId user db)).
Proof.
  intros Hok Hascii. unfold titlesOk in *. split; [|split; [|split]].
  - destruct (ApiResponse.data (fst (createTask Date_parse body user now new_id db)))
      as [row|] eqn:Hrow.
    + pose proof (createTask_data _ _ _ _ _ _ _ Hrow) as H201.
      destruct (createTask_201 _ _ _ _ _ _ H201)
        as (b & dto & due & -> & Hvalid & Hdata & _ & _ & Hr).
      destruct (validateCreateTask_valid _ _ Hascii Hvalid) as (dto' & Hdata' & Ht & _).
      rewrite Hdata in Hdata'. inversion Hdata'; subst dto'.
      rewrite Hr. simpl.
      apply Forall_app. split; [exact Hok|]. constructor; [exact Ht|constructor].
    + destruct (createTask_store Date_parse body user now new_id db)
        as [->|(row & _ & _ & Hf & _)]; [exact Hok|].
      rewrite Hf in Hrow. discriminate.
  - unfold updateTask. destruct (truthy taskId); simpl; [|exact Hok].
    destruct body as [b|]; [|exact Hok].
    destruct (Validation.valid _); [|exact Hok].
    destruct (Validation.data _) as [updates|] eqn:Hdata; [|exact Hok].
    destruct (isId _); simpl; [|exact Hok].
    destruct (SELECT_task _ _ db) as [|existing rest] eqn:Hsel; [exact Hok|].
    destruct (mergeUpdate _ _ _ _) as [set|] eqn:Em; [|exact Hok].
    simpl. apply Forall_map. rewrite Forall_forall in Hok |- *. intros x Hx.
    destruct (ownedBy _ _ x); [|now apply Hok].
    rewrite (mergeUpdate_title _ _ _ _ _ Em).
    destruct (UpdateTaskDTO.title updates) as [s|] eqn:Et.
    + exact (validateUpdateTask_title _ _ _ _ Hascii Hdata Et).
    + apply Hok.
      assert (Hin : In existing (SELECT_task (orDefault taskId "")
                                   (JWTPayload.userId user) db))
        by (rewrite Hsel; now left).
      unfold SELECT_task in Hin. now apply filter_In in Hin as [Hin _].
  - unfold toggleTask. destruct (truthy taskId); simpl; [|exact Hok].
    destruct (isId _); simpl; [|exact Hok].
    destruct (SELECT_task _ _ db) as [|existing rest]; [exact Hok|].
    simpl. apply Forall_map. rewrite Forall_forall in Hok |- *. intros x Hx.
    destruct (ownedBy _ _ x); simpl; now apply Hok.
  - unfold deleteTask. destruct (truthy taskId); simpl; [|exact Hok].
    destruct (isId _); simpl; [|exact Hok].
    destruct (filter (ownedBy _ _) (tasks db)); simpl; [exact Hok|].
    rewrite Forall_forall in Hok |- *. intros x Hx.
    apply filter_In in Hx as [Hx _]. now apply Hok.
Qed.

Lemma titles_stay_well_formed_witness :
  titlesOk (snd (createTask Date_parse0 (Some (titled " Water the plants ")) bob 5000 "t2"
                   bobDB)) /\
  titlesOk (snd (updateTask Date_parse0 isId0 (Some "t1") (Some (titled "Buy bread")) bob
                   5000 bobDB)).
Proof.
  assert (Hok : titlesOk bobDB).
  { unfold titlesOk. simpl. constructor; [|constructor].
    split; [reflexivity|]. split; [reflexivity|simpl; lia]. }
  destruct (titles_stay_well_formed Date_parse0 isId0 (Some "t1")
              (Some (titled " Water the plants ")) bob 5000 "t2" bobDB Hok eq_refl)
    as (H1 & _).
  destruct (titles_stay_well_formed Date_parse0 isId0 (Some "t1")
              (Some (titled "Buy bread")) bob 5000 "t2" bobDB Hok eq_refl)
    as (_ & H2 & _).
  split; [exact H1|exact H2].
Defined.

(* ===================================================================== *)
(** * 26. Tokens, logout and the current user *)
(* ===================================================================== *)

(** The access token issued at [now] verifies until 900 seconds after the
    second of issue. *)
Lemma access_token_lifetime (payload : JWTPayload.t) (now later : Date) :
  verifyAccessToken (AuthTokens.accessToken (generateTokens payload now)) later
    = (if epoch later <? epoch now + 900 then Some payload else None) /\
  verifyAccessToken (generateAccessToken payload now) later
    = (if epoch later <? epoch now + 900 then Some payload else None).
Proof.
  destruct payload as [u e].
  unfold generateTokens, generateAccessToken, verifyAccessToken, jwtVerify,
    ACCESS_TOKEN_EXPIRY.
  cbn [AuthTokens.accessToken JWTPayload.userId JWTPayload.email Secret_eqb negb].
  change (15 * 60) with 900.
  destruct (Z.leb_spec (epoch now + 900) (epoch later)),
           (Z.ltb_spec (epoch later) (epoch now + 900)); try (now split); lia.
Qed.

(** X9.  A token pair issued at [now] for a payload: the access token
    verifies, to that payload, exactly until 900 seconds after the second of
    issue, the refresh token until 604800 seconds after it; and neither
    passes for the other kind. *)
Theorem issued_tokens_lifetime (payload : JWTPayload.t) (now later : Date) :
  let tokens := generateTokens payload now in
  verifyAccessToken (AuthTokens.accessToken tokens) later
    = (if epoch later <? epoch now + 900 then Some payload else None) /\
  verifyRefreshToken (AuthTokens.refreshToken tokens) later
    = (if epoch later <? epoch now + 604800 then Some payload else None) /\
  verifyRefreshToken (AuthTokens.accessToken tokens) later = None /\
  verifyAccessToken (AuthTokens.refreshToken tokens) later = None.
Proof.
  destruct payload as [u e]. cbv zeta.
  unfold generateTokens, generateAccessToken, generateRefreshToken, verifyAccessToken,
    verifyRefreshToken, jwtVerify, ACCESS_TOKEN_EXPIRY, REFRESH_TOKEN_EXPIRY, epoch.
  cbn [AuthTokens.accessToken AuthTokens.refreshToken JWTPayload.userId JWTPayload.email
       Secret_eqb negb].
  change (15 * 60) with 900. change (7 * 24 * 60 * 60) with 604800.
  repeat split.
  - destruct (Z.leb_spec (now / 1000 + 900) (later / 1000)),
             (Z.ltb_spec (later / 1000) (now / 1000 + 900)); try reflexivity; lia.
  - destruct (Z.leb_spec (now / 1000 + 604800) (later / 1000)),
             (Z.ltb_spec (later / 1000) (now / 1000 + 604800)); try reflexivity; lia.
Qed.

Lemma POST_logout_Bearer (a : tokenString) (request : LogoutRequest) (now : Date)
    (db : DB) (user : JWTPayload.t) :
  verifyAccessToken a now = Some user ->
  POST_logout (Bearer a) request now db
  = (reply 200 None (Some "Logout successful"),
     match request with
     | LogoutBody (Some t) =>
         if isEmptyToken t
         then DELETE_refresh_tokens_of_user (JWTPayload.userId user) db
         else DELETE_refresh_token_of (JWTPayload.userId user) t db
     | _ => DELETE_refresh_tokens_of_user (JWTPayload.userId user) db
     end).
Proof. intro H. unfold POST_logout. rewrite H. now destruct request as [|[t|]]. Qed.

(** X10.  A logout with a valid access token answers 200 whatever the body.
    It touches no session of another user, no user and no task.  Of the
    caller's own sessions it removes all when the body names no token (no
    body, [null], an absent or empty member), and otherwise exactly those that
    carry the named token: none, when the token is not the caller's. *)
Theorem logout_revokes_own_sessions_only (a : tokenString) (request : LogoutRequest)
    (now : Date) (db : DB) (user : JWTPayload.t) :
  verifyAccessToken a now = Some user ->
  let r := POST_logout (Bearer a) request now db in
  let u := JWTPayload.userId user in
  fst r = reply 200 None (Some "Logout successful") /\
  sessionsOfOthers u (snd r) = sessionsOfOthers u db /\
  sessionsOf u (snd r)
    = match request with
      | LogoutBody (Some t) =>
          if isEmptyToken t then []
          else filter (fun x => negb (tokenString_eqb (RefreshToken.token x) t))
                      (sessionsOf u db)
      | _ => []
      end /\
  users (snd r) = users db /\ tasks (snd r) = tasks db.
Proof.
  intros Hv r u. unfold r. rewrite (POST_logout_Bearer _ _ _ _ _ Hv). fold u.
  cbn [fst snd]. split; [reflexivity|].
  assert (Hall : sessionsOfOthers u (DELETE_refresh_tokens_of_user u db)
                   = sessionsOfOthers u db /\
                 sessionsOf u (DELETE_refresh_tokens_of_user u db) = []).
  { unfold sessionsOfOthers, sessionsOf. simpl. split.
    - induction (refresh_tokens db) as [|x l IH]; simpl; [reflexivity|].
      destruct (String.eqb (RefreshToken.user_id x) u) eqn:E; simpl; rewrite ?E; simpl;
        now rewrite IH.
    - apply filter_none. intros x Hx. apply filter_In in Hx as [_ Hx].
      now destruct (String.eqb (RefreshToken.user_id x) u). }
  assert (Hone : forall t,
             sessionsOfOthers u (DELETE_refresh_token_of u t db) = sessionsOfOthers u db /\
             sessionsOf u (DELETE_refresh_token_of u t db)
               = filter (fun x => negb (tokenString_eqb (RefreshToken.token x) t))
                        (sessionsOf u db)).
  { intro t. unfold sessionsOfOthers, sessionsOf. simpl. split.
    - induction (refresh_tokens db) as [|x l IH]; simpl; [reflexivity|].
      destruct (String.eqb (RefreshToken.user_id x) u) eqn:E; simpl.
      + destruct (tokenString_eqb (RefreshToken.token x) t); simpl; rewrite ?E; simpl;
          exact IH.
      + rewrite E. simpl. now rewrite IH.
    - induction (refresh_tokens db) as [|x l IH]; simpl; [reflexivity|].
      destruct (String.eqb (RefreshToken.user_id x) u) eqn:E; simpl.
      + destruct (tokenString_eqb (RefreshToken.token x) t); simpl; rewrite ?E; simpl;
          now rewrite IH.
      + rewrite E. exact IH. }
  destruct request as [|[t|]]; try (destruct Hall as [H1 H2]; now repeat split).
  destruct (isEmptyToken t).
  - destruct Hall as [H1 H2]. now repeat split.
  - destruct (Hone t) as [H1 H2]. now repeat split.
Qed.

Lemma logout_revokes_own_sessions_only_witness :
  sessionsOfOthers "u1"
    (snd (POST_logout (Bearer aliceAccess) (LogoutBody (Some aliceToken)) 2000 sessionsDB))
    = [bobRow] /\
  sessionsOf "u1"
    (snd (POST_logout (Bearer aliceAccess) (LogoutBody (Some aliceToken)) 2000 sessionsDB))
    = [aliceSecondRow].
Proof.
  destruct (logout_revokes_own_sessions_only aliceAccess (LogoutBody (Some aliceToken))
              2000 sessionsDB (JWTPayload.mk "u1" "alice@example.com") eq_refl)
    as (_ & H2 & H3 & _).
  split; [exact H2|exact H3].
Defined.

(** After a logout that names the token [t] of the caller, or no token, no
    row carries [t]. *)
Lemma POST_logout_clears (a t : tokenString) (request : LogoutRequest) (now : Date)
    (db : DB) (user : JWTPayload.t) :
  verifyAccessToken a now = Some user ->
  (forall r, In r (refresh_tokens db) -> RefreshToken.token r = t ->
             RefreshToken.user_id r = JWTPayload.userId user) ->
  namesAtMost request t ->
  forall r, In r (refresh_tokens (snd (POST_logout (Bearer a) request now db))) ->
            RefreshToken.token r <> t.
Proof.
  intros Hv Hown Hnames. rewrite (POST_logout_Bearer _ _ _ _ _ Hv). cbn [snd].
  intros r Hr Ht.
  assert (Hall : ~ In r (refresh_tokens
                           (DELETE_refresh_tokens_of_user (JWTPayload.userId user) db))).
  { simpl. intro H. apply filter_In in H as [Hin H].
    rewrite (Hown r Hin Ht), String.eqb_refl in H. discriminate. }
  destruct request as [|[t'|]]; try (exact (Hall Hr)).
  destruct (isEmptyToken t') eqn:E; [exact (Hall Hr)|].
  destruct Hnames as [Hn|Hn]; [congruence|subst t'].
  simpl in Hr. apply filter_In in Hr as [Hin H].
  rewrite (Hown r Hin Ht), String.eqb_refl, Ht, tokenString_eqb_refl in H. discriminate.
Qed.

(** X11.  After a logout that names the refresh token [t] of the caller, or
    names no token, [t] is dead: [POST /auth/refresh] with it answers 401 at
    any later time and changes nothing. *)
Theorem logout_then_refresh_fails (a t : tokenString) (request : LogoutRequest)
    (now later : Date) (token_id : string) (db : DB) (user : JWTPayload.t) :
  verifyAccessToken a now = Some user ->
  isEmptyToken t = false ->
  (forall r, In r (refresh_tokens db) -> RefreshToken.token r = t ->
             RefreshToken.user_id r = JWTPayload.userId user) ->
  namesAtMost request t ->
  let db' := snd (POST_logout (Bearer a) request now db) in
  exists msg,
    POST_refresh (JsonValue (Str t)) later token_id db' = (failure 401 msg, db').
Proof.
  intros Hv Hne Hown Hnames db'. apply POST_refresh_absent; [exact Hne|].
  now apply (POST_logout_clears a t request now db user).
Qed.

Lemma logout_then_refresh_fails_witness :
  exists msg,
    POST_refresh (JsonValue (Str aliceToken)) 3000 "r9"
      (snd (POST_logout (Bearer aliceAccess) (LogoutBody (Some aliceToken)) 2000 sessionsDB))
    = (failure 401 msg,
       snd (POST_logout (Bearer aliceAccess) (LogoutBody (Some aliceToken)) 2000
              sessionsDB)).
Proof.
  apply (logout_then_refresh_fails aliceAccess aliceToken (LogoutBody (Some aliceToken))
           2000 3000 "r9" sessionsDB (JWTPayload.mk "u1" "alice@example.com")).
  - reflexivity.
  - reflexivity.
  - intros r [<-|[<-|[<-|[]]]]; simpl; intro H; try reflexivity; discriminate.
  - simpl. now right.
Defined.

(** A registration that is answered 201. *)
Lemma POST_register_201 (crypt : string -> string -> Result string) (body : option json)
    (now : Date) (salt user_id token_id : string) (db : DB) :
  ApiResponse.http (fst (POST_register crypt body now salt user_id token_id db)) = 201 ->
  exists b dto hash,
    body = Some b /\
    Validation.valid (validateRegister b) = true /\
    Validation.data (validateRegister b) = Some dto /\
    SELECT_users_by_email (RegisterDTO.email dto) db = [] /\
    hashPassword crypt (RegisterDTO.password dto) salt = Ok hash /\
    (forall u, In u (users db) -> User.id u <> user_id) /\
    let row := User.mk user_id (RegisterDTO.email dto) hash (RegisterDTO.name dto) now in
    let tokens := generateTokens (JWTPayload.mk user_id (RegisterDTO.email dto)) now in
    fst (POST_register crypt body now salt user_id token_id db)
      = reply 201 (Some (toPublic row, tokens)) (Some "Registration successful") /\
    users (snd (POST_register crypt body now salt user_id token_id db))
      = users db ++ [row] /\
    refresh_tokens (snd (POST_register crypt body now salt user_id token_id db))
      = refresh_tokens db
        ++ [RefreshToken.mk token_id user_id (AuthTokens.refreshToken tokens)
              (getRefreshTokenExpiry now) now] /\
    tasks (snd (POST_register crypt body now salt user_id token_id db)) = tasks db.
Proof.
  unfold POST_register. destruct body as [b|]; [|discriminate].
  destruct (Validation.valid _) eqn:Ev; [|discriminate].
  destruct (Validation.data _) as [dto|] eqn:Ed; [|discriminate].
  destruct (SELECT_users_by_email _ db) eqn:Es; [|discriminate].
  destruct (hashPassword _ _ _) as [hash|] eqn:Eh; [|discriminate].
  unfold INSERT_INTO_users. cbn [User.id User.email].
  destruct (existsb _ (users db)) eqn:Eu; [discriminate|].
  unfold INSERT_INTO_refresh_tokens.
  destruct (existsb _ (refresh_tokens _)) eqn:Et; [discriminate|]. intros _.
  exists b, dto, hash.
  split; [reflexivity|]. split; [exact Ev|]. split; [exact Ed|].
  split; [exact Es|]. split; [exact Eh|]. split; [|now repeat split].
  intros u Hin Heq.
  assert (H : existsb (fun u0 => String.eqb (User.id u0) user_id
                                 || String.eqb (User.email u0) (RegisterDTO.email dto))
                      (users db) = true).
  { apply existsb_exists. exists u. split; [exact Hin|].
    apply orb_true_iff. left. now apply String.eqb_eq. }
  congruence.
Qed.

(** X12.  The access token of a registration opens [GET /auth/me] on the
    account just created, with the user of the 201 answer, for 900 seconds
    from the second of registration; from then on the answer is 401. *)
Theorem register_then_me (crypt : string -> string -> Result string) (body : option json)
    (now later : Date) (salt user_id token_id : string) (db : DB) :
  let r := POST_register crypt body now salt user_id token_id db in
  ApiResponse.http (fst r) = 201 ->
  exists user tokens,
    ApiResponse.data (fst r) = Some (user, tokens) /\
    GET_me (Bearer (AuthTokens.accessToken tokens)) later (snd r)
    = (if epoch later <? epoch now + 900
       then reply 200 (Some user) None
       else failure 401 "Invalid or expired access token",
       snd r).
Proof.
  intros r H201.
  destruct (POST_register_201 _ _ _ _ _ _ _ H201)
    as (b & dto & hash & _ & _ & _ & _ & _ & Hfresh & Hfst & Husers & _).
  fold r in Hfst, Husers. rewrite Hfst. cbn [ApiResponse.data reply].
  eexists. eexists. split; [reflexivity|].
  unfold GET_me.
  rewrite (proj1 (access_token_lifetime _ now later)).
  destruct (epoch later <? epoch now + 900); [|reflexivity].
  unfold SELECT_users_by_id. rewrite Husers, filter_app. cbn [JWTPayload.userId].
  rewrite filter_none.
  - simpl. rewrite String.eqb_refl. reflexivity.
  - intros u Hu. apply String.eqb_neq. now apply Hfresh.
Qed.

Lemma register_then_me_witness :
  exists user tokens,
    ApiResponse.data
      (fst (POST_register crypt0
              (Some (credentials "Alice@Example.com" "password123" "Alice"))
              1500 salt0 "u1" "r1" emptyDB)) = Some (user, tokens) /\
    fst (GET_me (Bearer (AuthTokens.accessToken tokens)) 60000 aliceDB)
      = reply 200 (Some user) None.
Proof.
  destruct (register_then_me crypt0
              (Some (credentials "Alice@Example.com" "password123" "Alice"))
              1500 60000 salt0 "u1" "r1" emptyDB eq_refl) as (user & tokens & H1 & H2).
  exists user, tokens. split; [exact H1|].
  change aliceDB with
    (snd (POST_register crypt0
            (Some (credentials "Alice@Example.com" "password123" "Alice"))
            1500 salt0 "u1" "r1" emptyDB)).
  now rewrite H2.
Defined.

Lemma length_append (a b : string) :
  String.length (a ++ b) = (String.length a + String.length b)%nat.
Proof. induction a as [|c a IH]; simpl; [reflexivity|now rewrite IH]. Qed.

Lemma length_substring_0 (n : nat) (s : string) :
  (n <= String.length s)%nat -> String.length (substring 0 n s) = n.
Proof.
  revert s. induction n as [|n IH]; intros s H; [now destruct s|].
  destruct s as [|c s]; simpl in *; [lia|]. rewrite IH; [reflexivity|lia].
Qed.

(** A body that [validateRegister] accepts is one that [validateLogin]
    accepts, with the same address and password. *)
Lemma validateLogin_of_register (b : json) (dto : RegisterDTO.t) :
  Validation.valid (validateRegister b) = true ->
  Validation.data (validateRegister b) = Some dto ->
  Validation.valid (validateLogin b) = true /\
  Validation.data (validateLogin b)
    = Some (LoginDTO.mk (RegisterDTO.email dto) (RegisterDTO.password dto)).
Proof.
  unfold validateRegister, validateLogin. destruct (isObject b); simpl; [|discriminate].
  destruct (nonEmptyString (field b "email")) as [e|]; simpl; [|discriminate].
  destruct (isValidEmail e); simpl; [|discriminate].
  destruct (nonEmptyString (field b "password")) as [p|]; simpl; [|discriminate].
  destruct (isValidPassword p); simpl; [|discriminate].
  destruct (nonEmptyString (field b "name")) as [n|]; simpl; [|discriminate].
  destruct (String.length (trim n) <? 2)%nat; simpl; [discriminate|].
  intros _ H. inversion H. split; reflexivity.
Qed.

(** bcrypt verifies what it has hashed, a hash being 60 characters that
    begin with the 29 of the salt. *)
Lemma verifyPassword_after_hash (crypt : string -> string -> Result string)
    (password salt hash : string) :
  hashPassword crypt password salt = Ok hash ->
  String.length hash = 60%nat ->
  substring 0 29 hash = salt ->
  verifyPassword crypt password hash = Ok true.
Proof.
  unfold hashPassword, verifyPassword, bcrypt_compare. intros Hh Hl Hs.
  rewrite Hl, Hs, Hh. simpl. now rewrite String.eqb_refl.
Qed.

Lemma hashPassword_crypt (crypt : string -> string -> Result string)
    (password salt hash : string) :
  hashPassword crypt password salt = Ok hash -> crypt password salt = Ok hash.
Proof.
  unfold hashPassword, bcrypt_hash.
  destruct (negb _); [discriminate|].
  match goal with
  | |- context [match ?o with Some _ => _ | None => _ end] => destruct o as [off|]
  end; [|discriminate].
  destruct (String.get (off + 2) salt) as [c|]; [|trivial].
  destruct (_ <? _)%nat; [discriminate|trivial].
Qed.

(** X13.  Who has registered can log in: a login with the body of a
    registration answered 201, in a later second, answers 200 with the same
    user and a fresh token pair, given that bcrypt puts the salt in front of
    the 60 characters of a hash and that the new token row is new. *)
Theorem register_then_login (crypt : string -> string -> Result string)
    (body : option json) (now later : Date) (salt user_id token_id token_id' : string)
    (db : DB) :
  let r := POST_register crypt body now salt user_id token_id db in
  ApiResponse.http (fst r) = 201 ->
  (forall p h, crypt p salt = Ok h ->
               String.length h = 60%nat /\ substring 0 29 h = salt) ->
  (forall x, In x (refresh_tokens (snd r)) ->
             RefreshToken.id x <> token_id' /\
             forall p, RefreshToken.token x <> generateRefreshToken p later) ->
  exists user tokens,
    ApiResponse.data (fst r) = Some (user, tokens) /\
    fst (POST_login crypt body later token_id' (snd r))
    = reply 200
        (Some (user,
               generateTokens (JWTPayload.mk (UserPublic.id user) (UserPublic.email user))
                 later))
        (Some "Login successful").
Proof.
  intros r H201 Hcrypt Hfresh.
  destruct (POST_register_201 _ _ _ _ _ _ _ H201)
    as (b & dto & hash & -> & Hvalid & Hdata & Hsel & Hhash & _ & Hfst & Husers & _).
  fold r in Hfst, Husers. rewrite Hfst. cbn [ApiResponse.data reply].
  eexists. eexists. split; [reflexivity|].
  destruct (validateLogin_of_register b dto Hvalid Hdata) as [Hv Hd].
  destruct (Hcrypt _ _ (hashPassword_crypt _ _ _ _ Hhash)) as [Hlen Hsalt].
  unfold POST_login. rewrite Hv, Hd. cbn [LoginDTO.email LoginDTO.password].
  unfold SELECT_users_by_email in *. rewrite Husers, filter_app, Hsel.
  cbn [filter app User.email]. rewrite String.eqb_refl.
  cbn [User.password_hash].
  rewrite (verifyPassword_after_hash crypt _ salt hash Hhash Hlen Hsalt).
  unfold INSERT_INTO_refresh_tokens. rewrite existsb_none; [reflexivity|].
  intros x Hx. destruct (Hfresh x Hx) as [Hid Htok].
  cbn [RefreshToken.id RefreshToken.token AuthTokens.refreshToken generateTokens].
  apply orb_false_iff. split.
  - now apply String.eqb_neq.
  - apply tokenString_eqb_neq, Htok.
Qed.

Lemma register_then_login_witness :
  exists user tokens,
    ApiResponse.data
      (fst (POST_register crypt0
              (Some (credentials "Alice@Example.com" "password123" "Alice"))
              1500 salt0 "u1" "r1" emptyDB)) = Some (user, tokens) /\
    ApiResponse.http
      (fst (POST_login crypt0
              (Some (credentials "Alice@Example.com" "password123" "Alice"))
              5000 "r2" aliceDB)) = 200.
Proof.
  destruct (register_then_login crypt0
              (Some (credentials "Alice@Example.com" "password123" "Alice"))
              1500 5000 salt0 "u1" "r1" "r2" emptyDB eq_refl) as (user & tokens & H1 & H2).
  - intros p h H. unfold crypt0 in H. inversion H; subst h; clear H.
    split; [|now destruct (substring 0 31 (p ++ "..............................."))].
    change (String.length (salt0 ++ substring 0 31 (p ++ "..............................."))
            = 60%nat).
    rewrite length_append, length_substring_0; [reflexivity|].
    rewrite length_append. simpl. lia.
  - intros x [<-|[]]. split; [discriminate|]. intros p H. inversion H.
  - exists user, tokens. split; [exact H1|].
    change aliceDB with
      (snd (POST_register crypt0
              (Some (credentials "Alice@Example.com" "password123" "Alice"))
              1500 salt0 "u1" "r1" emptyDB)).
    now rewrite H2.
Defined.

(* ===================================================================== *)
(** * 27. Invariants of the store *)
(* ===================================================================== *)

Lemma isASCII_lowerChar (c : ascii) :
  (nat_of_ascii (lowerChar c) <? 128)%nat = (nat_of_ascii c <? 128)%nat.
Proof. each_ascii c; reflexivity. Qed.

Lemma isASCII_lower (s : string) : isASCII (toLowerCase s) = isASCII s.
Proof.
  induction s as [|c r IH]; simpl; [reflexivity|].
  now rewrite isASCII_lowerChar, IH.
Qed.

Lemma validateRegister_email (b : json) (dto : RegisterDTO.t) :
  asciiMembers b ["email"] = true ->
  Validation.data (validateRegister b) = Some dto ->
  isASCII (RegisterDTO.email dto) = true /\
  toLowerCase (RegisterDTO.email dto) = RegisterDTO.email dto.
Proof.
  intro Ha.
  unfold validateRegister. destruct (isObject b); simpl; [|discriminate].
  destruct (field b "email") as [[| | |e| |]|] eqn:Ef; simpl; try discriminate.
  pose proof (asciiMembers_In b _ "email" e Ha (or_introl eq_refl) Ef) as He.
  destruct e as [|c e]; simpl nonEmptyString; cbv iota; [discriminate|].
  destruct (isValidEmail (String c e)) eqn:Ev; simpl negb; cbv iota; [|discriminate].
  match goal with
  | |- context [match ?e with [] => _ | _ :: _ => _ end] => destruct e
  end; simpl; [|discriminate].
  intro H. inversion H. simpl.
  change (trim (String (lowerChar c) (toLowerCase e)))
    with (trim (toLowerCase (String c e))).
  rewrite (trim_valid_email _ Ev).
  split; [now rewrite isASCII_lower|apply toLowerCase_idem].
Qed.

(** The users after a registration: those before, and at most one more,
    whose address no stored account had. *)
Lemma POST_register_users (crypt : string -> string -> Result string)
    (body : option json) (now : Date) (salt user_id token_id : string) (db : DB) :
  users (snd (POST_register crypt body now salt user_id token_id db)) = users db \/
  exists b dto hash,
    body = Some b /\
    Validation.data (validateRegister b) = Some dto /\
    SELECT_users_by_email (RegisterDTO.email dto) db = [] /\
    users (snd (POST_register crypt body now salt user_id token_id db))
      = users db ++ [User.mk user_id (RegisterDTO.email dto) hash (RegisterDTO.name dto) now].
Proof.
  unfold POST_register. destruct body as [b|]; [|now left].
  destruct (Validation.valid _); [|now left].
  destruct (Validation.data _) as [dto|] eqn:Ed; [|now left].
  destruct (SELECT_users_by_email _ db) eqn:Es; [|now left].
  destruct (hashPassword _ _ _) as [hash|]; [|now left].
  unfold INSERT_INTO_users. destruct (existsb _ (users db)); [now left|].
  right. exists b, dto, hash. split; [reflexivity|]. split; [exact Ed|]. split; [exact Es|].
  unfold INSERT_INTO_refresh_tokens. destruct (existsb _ (refresh_tokens _)); reflexivity.
Qed.

(** X14.  Registration keeps accounts with ASCII addresses apart: if no
    address is stored twice and all are ASCII strings in lower case, then so
    it is after a registration whose address, password and name are ASCII
    strings, and hence no two accounts have addresses that differ only in the
    case of letters. *)
Theorem registration_keeps_accounts_apart (crypt : string -> string -> Result string)
    (body : option json) (now : Date) (salt user_id token_id : string) (db : DB) :
  accountsOk db ->
  asciiRequest body ["email"; "password"; "name"] = true ->
  let db' := snd (POST_register crypt body now salt user_id token_id db) in
  accountsOk db' /\
  forall u v, In u (users db') -> In v (users db') ->
              toLowerCase (User.email u) = toLowerCase (User.email v) -> u = v.
Proof.
  intros Hok Hascii db'.
  assert (Hok' : accountsOk db').
  { unfold db'.
    destruct (POST_register_users crypt body now salt user_id token_id db)
      as [Hs|(b & dto & hash & Hb & Hdata & Hsel & Husers)].
    - unfold accountsOk. rewrite Hs. exact Hok.
    - destruct Hok as [Hnd Hlow]. unfold accountsOk. rewrite Husers. split.
      + rewrite map_app. simpl.
        apply NoDup_app; [exact Hnd|repeat constructor; simpl; tauto|].
        intros e He [<-|[]]. apply in_map_iff in He as (u & Hu & Hin).
        assert (Hin' : In u (SELECT_users_by_email (RegisterDTO.email dto) db)).
        { unfold SELECT_users_by_email. apply filter_In. split; [exact Hin|].
          now apply String.eqb_eq. }
        rewrite Hsel in Hin'. contradiction.
      + apply Forall_app. split; [exact Hlow|]. constructor; [|constructor].
        simpl. apply (validateRegister_email b dto); [|exact Hdata].
        rewrite Hb in Hascii. unfold asciiRequest, asciiMembers in *.
        cbn [forallb] in *. apply andb_prop in Hascii as [He _]. now rewrite He. }
  split; [exact Hok'|].
  destruct Hok' as [Hnd Hlow]. intros u v Hu Hv Heq.
  rewrite Forall_forall in Hlow.
  rewrite (proj2 (Hlow u Hu)), (proj2 (Hlow v Hv)) in Heq.
  now apply (key_unique User.email (users db')).
Qed.

Lemma registration_keeps_accounts_apart_witness : accountsOk aliceDB.
Proof.
  assert (H0 : accountsOk emptyDB) by (split; constructor).
  exact (proj1 (registration_keeps_accounts_apart crypt0
                  (Some (credentials "Alice@Example.com" "password123" "Alice"))
                  1500 salt0 "u1" "r1" emptyDB H0 eq_refl)).
Defined.

(* ===================================================================== *)
(** * 28. Listing through the client *)
(* ===================================================================== *)

Lemma digit_cases (k : Z) :
  0 <= k < 10 ->
  k = 0 \/ k = 1 \/ k = 2 \/ k = 3 \/ k = 4 \/ k = 5 \/ k = 6 \/ k = 7 \/ k = 8 \/ k = 9.
Proof. lia. Qed.

Lemma digitValue_digitChar (k : Z) : 0 <= k < 10 -> digitValue (digitChar k) = Some k.
Proof.
  intro H. destruct (digit_cases k H) as [->|[->|[->|[->|[->|[->|[->|[->|[->| ->]]]]]]]]];
    reflexivity.
Qed.

(** [parseInt] on a string that begins with a digit reads its digits. *)
Lemma parseInt_digit_head (k : Z) (rest : string) :
  0 <= k < 10 ->
  parseInt (String (digitChar k) rest)
  = match parseDigits (String (digitChar k) rest) None with
    | None => NaN
    | Some n => Num (1 * n)
    end.
Proof.
  intro H. destruct (digit_cases k H) as [->|[->|[->|[->|[->|[->|[->|[->|[->| ->]]]]]]]]];
    reflexivity.
Qed.

Lemma digitsOf_head (f : nat) (n : Z) (acc : string) :
  0 <= n ->
  exists k rest, 0 <= k < 10 /\ digitsOf (S f) n acc = String (digitChar k) rest.
Proof.
  revert n acc. induction f as [|f IH]; intros n acc Hn.
  - simpl. pose proof (Z.mod_pos_bound n 10 ltac:(lia)).
    destruct (n <? 10); eauto.
  - cbn [digitsOf]. pose proof (Z.mod_pos_bound n 10 ltac:(lia)).
    destruct (n <? 10); [eauto|].
    apply IH. now apply Z.div_pos.
Qed.

Lemma digitsOf_S (f : nat) (n : Z) (acc : string) :
  digitsOf (S f) n acc
  = if n <? 10 then String (digitChar (n mod 10)) acc
    else digitsOf f (n / 10) (String (digitChar (n mod 10)) acc).
Proof. reflexivity. Qed.

Lemma parseDigits_digitsOf (f : nat) (n : Z) (rest : string) :
  0 <= n < 10 ^ Z.of_nat (S f) ->
  parseDigits (digitsOf (S f) n rest) None = parseDigits rest (Some n).
Proof.
  revert n rest. induction f as [|f IH]; intros n rest Hn.
  - change (10 ^ Z.of_nat 1) with 10 in Hn. rewrite digitsOf_S.
    destruct (Z.ltb_spec n 10); [|lia].
    rewrite Z.mod_small by lia. cbn [parseDigits].
    rewrite (digitValue_digitChar n) by lia. reflexivity.
  - rewrite digitsOf_S. destruct (Z.ltb_spec n 10).
    + rewrite Z.mod_small by lia. cbn [parseDigits].
      rewrite (digitValue_digitChar n) by lia. reflexivity.
    + rewrite IH.
      * cbn [parseDigits].
        rewrite (digitValue_digitChar (n mod 10)) by (apply Z.mod_pos_bound; lia).
        rewrite <- (Z.div_mod n 10) by lia. reflexivity.
      * split; [apply Z.div_pos; lia|].
        apply Z.div_lt_upper_bound; [lia|].
        rewrite Nat2Z.inj_succ, Z.pow_succ_r in Hn by lia. lia.
Qed.

Lemma fuel_suffices (n : Z) : 0 <= n -> n < 10 ^ Z.of_nat (S (Z.to_nat (Z.log2 n))).
Proof.
  intro Hn. rewrite Nat2Z.inj_succ, Z2Nat.id by apply Z.log2_nonneg.
  destruct (Z.eq_dec n 0) as [->|Hne]; [reflexivity|].
  pose proof (Z.log2_spec n ltac:(lia)) as [_ Hlt].
  pose proof (Z.log2_nonneg n).
  apply Z.lt_le_trans with (2 ^ Z.succ (Z.log2 n)); [exact Hlt|].
  apply Z.pow_le_mono_l. lia.
Qed.

Lemma parseInt_minus (r : string) :
  parseInt (String "-" r)
  = match parseDigits r None with None => NaN | Some n => Num (-1 * n) end.
Proof. reflexivity. Qed.

(** What [toString] prints, [parseInt] reads. *)
Lemma parseInt_toString (n : Z) : parseInt (Number_toString n) = Num n.
Proof.
  unfold Number_toString. destruct (Z.ltb_spec n 0).
  - rewrite parseInt_minus.
    rewrite parseDigits_digitsOf by (split; [lia|apply fuel_suffices; lia]).
    change (Num (-1 * - n) = Num n). f_equal. lia.
  - destruct (digitsOf_head (Z.to_nat (Z.log2 n)) n EmptyString H) as (k & rest & Hk & E).
    rewrite E, (parseInt_digit_head k rest Hk), <- E.
    rewrite parseDigits_digitsOf by (split; [lia|apply fuel_suffices; lia]).
    change (Num (1 * n) = Num n). f_equal. lia.
Qed.

Lemma orDefault_toString (n : Z) (d : string) :
  orDefault (Some (Number_toString n)) d = Number_toString n.
Proof.
  unfold Number_toString. destruct (Z.ltb_spec n 0); [reflexivity|].
  destruct (digitsOf_head (Z.to_nat (Z.log2 n)) n EmptyString H) as (k & rest & _ & ->).
  reflexivity.
Qed.

(** The page and the limit that the server reads from a query of the
    client. *)
Lemma getAll_query_numbers (params : TasksQueryParams.t) :
  parseInt (orDefault (Query.page (getAll_query params)) "1")
    = Num (match TasksQueryParams.page params with Some p => if p =? 0 then 1 else p
           | None => 1 end) /\
  parseInt (orDefault (Query.limit (getAll_query params)) "10")
    = Num (match TasksQueryParams.limit params with Some l => if l =? 0 then 10 else l
           | None => 10 end).
Proof.
  unfold getAll_query. cbn [Query.page Query.limit].
  split.
  - destruct (TasksQueryParams.page params) as [p|]; [|reflexivity].
    destruct (p =? 0); [reflexivity|].
    now rewrite orDefault_toString, parseInt_toString.
  - destruct (TasksQueryParams.limit params) as [l|]; [|reflexivity].
    destruct (l =? 0); [reflexivity|].
    now rewrite orDefault_toString, parseInt_toString.
Qed.

(** X15.  A listing asked for through [tasksApi.getAll] does not fail on its
    numbers: for integers that JavaScript holds and prints exactly (a page up
    to [MAX_SAFE_INTEGER / 100] in size, a limit up to [MAX_SAFE_INTEGER]),
    the server reads them back, serves page [max 1 page] (1 when none or 0 is
    given) with a limit between 1 and 100 (10 when none or 0 is given), and
    answers 200. *)
Theorem client_listing_is_well_formed (ILIKE : string -> string -> bool)
    (params : TasksQueryParams.t) (user : JWTPayload.t) (db : DB) :
  exactNumbers params ->
  let r := getTasks ILIKE (getAll_query params) user db in
  PaginatedResponse.http r = 200 /\
  Pagination.page (PaginatedResponse.pagination r)
    = Num (match TasksQueryParams.page params with Some p => Z.max 1 p | None => 1 end) /\
  Pagination.limit (PaginatedResponse.pagination r)
    = Num (match TasksQueryParams.limit params with
           | Some l => if l =? 0 then 10 else Z.min 100 (Z.max 1 l)
           | None => 10
           end).
Proof.
  intros _.
  destruct (getAll_query_numbers params) as [Hp Hl]. cbv zeta.
  rewrite (getTasks_numeric ILIKE _ user db _ _ Hp Hl).
  cbn [PaginatedResponse.http PaginatedResponse.pagination Pagination.page Pagination.limit].
  split; [reflexivity|]. split; f_equal.
  - destruct (TasksQueryParams.page params) as [p|]; [|reflexivity].
    destruct (Z.eqb_spec p 0); lia.
  - destruct (TasksQueryParams.limit params) as [l|]; [|reflexivity].
    destruct (Z.eqb_spec l 0); lia.
Qed.

Lemma client_listing_is_well_formed_witness :
  Pagination.page
    (PaginatedResponse.pagination
       (getTasks ILIKE0
          (getAll_query (TasksQueryParams.mk (Some 3) (Some 250) None (Some "milk")))
          bob bobDB)) = Num 3 /\
  Pagination.limit
    (PaginatedResponse.pagination
       (getTasks ILIKE0
          (getAll_query (TasksQueryParams.mk (Some 3) (Some 250) None (Some "milk")))
          bob bobDB)) = Num 100.
Proof.
  destruct (client_listing_is_well_formed ILIKE0
              (TasksQueryParams.mk (Some 3) (Some 250) None (Some "milk")) bob bobDB)
    as (_ & H2 & H3).
  - unfold exactNumbers, MAX_SAFE_INTEGER. simpl. lia.
  - split; [exact H2|exact H3].
Defined.








(** X17.  Whatever the query, [GET /tasks] returns rows of the store that
    belong to the caller, and at most 100 of them. *)
Theorem listing_shows_own_tasks_only (ILIKE : string -> string -> bool) (q : Query.t)
    (user : JWTPayload.t) (db : DB) :
  Forall (fun t => In t (tasks db) /\ Task.user_id t = JWTPayload.userId user)
         (PaginatedResponse.data (getTasks ILIKE q user db)) /\
  (length (PaginatedResponse.data (getTasks ILIKE q user db)) <= 100)%nat.
Proof.
  destruct (parseInt (orDefault (Query.page q) "1")) as [|p] eqn:Hp.
  { rewrite getTasks_NaN by (right; now apply effectivePage_NaN).
    split; [constructor|simpl; lia]. }
  destruct (parseInt (orDefault (Query.limit q) "10")) as [|l] eqn:Hl.
  { rewrite getTasks_NaN by (left; now apply effectiveLimit_NaN).
    split; [constructor|simpl; lia]. }
  rewrite (getTasks_numeric ILIKE q user db p l Hp Hl). cbn [PaginatedResponse.data].
  split.
  - apply Forall_forall. intros t Ht. apply In_firstn_skipn in Ht.
    apply (Permutation_in _ (ORDER_BY_perm _)) in Ht.
    apply filter_In in Ht as [Hin Hm]. split; [exact Hin|].
    unfold matchesFilter in Hm. apply andb_prop in Hm as [Hm _].
    apply andb_prop in Hm as [Hm _]. now apply String.eqb_eq in Hm.
  - etransitivity; [apply firstn_le_length|]. lia.
Qed.

(* ===================================================================== *)
(** * 29. The client: renewal of the access token, logout *)
(* ===================================================================== *)

(** A rotation that is answered 200. *)
Lemma POST_refresh_200 (request : RefreshRequest) (now : Date) (token_id : string)
    (db : DB) :
  ApiResponse.http (fst (POST_refresh request now token_id db)) = 200 ->
  exists t stored user,
    request = JsonValue (Str t) /\
    In stored (refresh_tokens db) /\
    In user (users db) /\
    User.id user = RefreshToken.user_id stored /\
    let tokens := generateTokens (JWTPayload.mk (User.id user) (User.email user)) now in
    let row := RefreshToken.mk token_id (User.id user) (AuthTokens.refreshToken tokens)
                 (getRefreshTokenExpiry now) now in
    fst (POST_refresh request now token_id db)
      = reply 200 (Some tokens) (Some "Tokens refreshed successfully") /\
    refresh_tokens (snd (POST_refresh request now token_id db))
      = refresh_tokens (DELETE_refresh_token_by_id (RefreshToken.id stored) db) ++ [row] /\
    users (snd (POST_refresh request now token_id db)) = users db /\
    tasks (snd (POST_refresh request now token_id db)) = tasks db.
Proof.
  unfold POST_refresh. destruct request as [| |[|t]]; try discriminate.
  destruct (isEmptyToken t); [discriminate|].
  destruct (verifyRefreshToken t now); [|discriminate].
  destruct (SELECT_live_refresh_tokens t now db) as [|stored rest] eqn:Es; [discriminate|].
  destruct (SELECT_users_by_id _ db) as [|user others] eqn:Eu; [discriminate|].
  unfold INSERT_INTO_refresh_tokens.
  destruct (existsb _ _); [discriminate|]. intros _.
  assert (Hs : In stored (SELECT_live_refresh_tokens t now db)) by (rewrite Es; now left).
  assert (Hu : In user (SELECT_users_by_id (RefreshToken.user_id stored) db))
    by (rewrite Eu; now left).
  apply filter_In in Hs as [Hs _]. apply filter_In in Hu as [Hu Hid].
  exists t, stored, user. split; [reflexivity|]. split; [exact Hs|]. split; [exact Hu|].
  split; [now apply String.eqb_eq|]. now repeat split.
Qed.

(** A request of the client with a stored access token that the server no
    longer accepts, to a route behind [withAuth]. *)
Lemma fetchWithAuth_stale {T : Type}
    (handler : Date -> JWTPayload.t -> DB -> ApiResponse.t T * DB)
    (t1 t2 t3 : Date) (token_id : string) (c : Client.t) (db : DB) (a : tokenString) :
  getAccessToken c = Some a ->
  isEmptyToken a = false ->
  verifyAccessToken a t1 = None ->
  fetchWithAuth (fun headers now => withAuth unauthorized (handler now) headers now)
    t1 t2 t3 token_id c db
  = let '(refreshed, c2, db2) := refreshTokens t2 token_id c db in
    if refreshed then
      let '(response', db3) :=
        withAuth unauthorized (handler t3)
          (Bearer (match getAccessToken c2 with Some a' => a' | None => Text "null" end))
          t3 db2 in
      (settle response', c2, db3)
    else (Throw "Session expired. Please login again.", Client.mk None None "/login", db2).
Proof.
  intros Ha Hne Hv. unfold fetchWithAuth. rewrite Ha, Hne.
  unfold withAuth at 1. rewrite Hv. unfold unauthorized at 1.
  cbn [tokenTruthy]. rewrite Hne. reflexivity.
Qed.

(** X18.  A request of the client whose access token has expired, while its
    refresh token is still good for a rotation: the client rotates, stores
    the new pair, and repeats the request once under the new access token;
    the handler runs exactly once, for the user of the new token, on the store
    the rotation has left, and its answer is what the caller gets. *)
Theorem expired_access_token_is_renewed {T : Type}
    (handler : Date -> JWTPayload.t -> DB -> ApiResponse.t T * DB)
    (t1 t2 t3 : Date) (token_id : string) (c : Client.t) (db : DB) (a rt : tokenString) :
  getAccessToken c = Some a ->
  isEmptyToken a = false ->
  verifyAccessToken a t1 = None ->
  getRefreshToken c = Some rt ->
  let rotated := POST_refresh (JsonValue (Str rt)) t2 token_id db in
  ApiResponse.http (fst rotated) = 200 ->
  epoch t3 < epoch t2 + 900 ->
  exists tokens user,
    ApiResponse.data (fst rotated) = Some tokens /\
    verifyAccessToken (AuthTokens.accessToken tokens) t3 = Some user /\
    fetchWithAuth (fun headers now => withAuth unauthorized (handler now) headers now)
      t1 t2 t3 token_id c db
    = (settle (fst (handler t3 user (snd rotated))),
       setTokens tokens c,
       snd (handler t3 user (snd rotated))).
Proof.
  intros Ha Hne Hv Hrt rotated H200 Ht3.
  destruct (POST_refresh_200 _ _ _ _ H200)
    as (t & stored & user & Ht & _ & _ & _ & Hfst & _).
  fold rotated in Hfst.
  set (payload := JWTPayload.mk (User.id user) (User.email user)) in *.
  exists (generateTokens payload t2), payload.
  assert (Hver : verifyAccessToken (AuthTokens.accessToken (generateTokens payload t2)) t3
                 = Some payload).
  { rewrite (proj1 (access_token_lifetime payload t2 t3)).
    destruct (Z.ltb_spec (epoch t3) (epoch t2 + 900)); [reflexivity|lia]. }
  split; [now rewrite Hfst|]. split; [exact Hver|].
  rewrite (fetchWithAuth_stale handler t1 t2 t3 token_id c db a Ha Hne Hv).
  unfold refreshTokens. rewrite Hrt.
  assert (Hrne : isEmptyToken rt = false).
  { destruct (isEmptyToken rt) eqn:E; [|reflexivity].
    unfold rotated, POST_refresh in H200. rewrite E in H200. discriminate. }
  rewrite Hrne. fold rotated.
  destruct rotated as [response db2] eqn:Er. cbn [fst snd] in *. subst response.
  cbn [response_ok Response_status ApiResponse_Response reply ApiResponse.http
       ApiResponse.success ApiResponse.data negb andb Z.leb Z.compare Pos.compare
       Pos.compare_cont].
  cbn [getAccessToken setTokens Client.task_app_access_token].
  unfold withAuth. rewrite Hver.
  destruct (handler t3 payload db2) as [response' db3]. reflexivity.
Qed.

Lemma expired_access_token_is_renewed_witness :
  exists tokens user,
    ApiResponse.data (fst (POST_refresh (JsonValue (Str aliceToken)) 2000000 "r9" aliceDB))
      = Some tokens /\
    verifyAccessToken (AuthTokens.accessToken tokens) 2000001 = Some user /\
    snd (fst (fetchWithAuth
                (fun headers now =>
                   withAuth unauthorized (fun user => getTask isId0 (Some "t1") user)
                     headers now)
                2000000 2000000 2000001 "r9" aliceClient aliceDB))
    = setTokens tokens aliceClient.
Proof.
  destruct (expired_access_token_is_renewed
              (fun (_ : Date) user => getTask isId0 (Some "t1") user)
              2000000 2000000 2000001 "r9" aliceClient aliceDB aliceAccess aliceToken
              eq_refl eq_refl eq_refl eq_refl eq_refl eq_refl)
    as (tokens & user & H1 & H2 & H3).
  exists tokens, user. split; [exact H1|]. split; [exact H2|]. now rewrite H3.
Defined.

Lemma POST_refresh_frame (request : RefreshRequest) (now : Date) (token_id : string)
    (db : DB) :
  users (snd (POST_refresh request now token_id db)) = users db /\
  tasks (snd (POST_refresh request now token_id db)) = tasks db.
Proof.
  unfold POST_refresh. destruct request as [| |[|t]]; try (now split).
  destruct (isEmptyToken t); [now split|].
  destruct (verifyRefreshToken t now); [|now split].
  destruct (SELECT_live_refresh_tokens t now db) as [|stored rest]; [now split|].
  destruct (SELECT_users_by_id _ db) as [|user others]; [now split|].
  unfold INSERT_INTO_refresh_tokens. destruct (existsb _ _); now split.
Qed.

(** X19.  A request of the client whose access token the server no longer
    accepts, when the tokens cannot be renewed: the client forgets both
    tokens, sends the browser to [/login] and throws "Session expired. Please
    login again."; the handler of the route has not run, and users and tasks
    are as before. *)
Theorem failed_renewal_ends_the_session {T : Type}
    (handler : Date -> JWTPayload.t -> DB -> ApiResponse.t T * DB)
    (t1 t2 t3 : Date) (token_id : string) (c : Client.t) (db : DB) (a : tokenString) :
  getAccessToken c = Some a ->
  isEmptyToken a = false ->
  verifyAccessToken a t1 = None ->
  renewalFails t2 token_id c db ->
  exists db',
    fetchWithAuth (fun headers now => withAuth unauthorized (handler now) headers now)
      t1 t2 t3 token_id c db
    = (Throw "Session expired. Please login again.", Client.mk None None "/login", db') /\
    users db' = users db /\ tasks db' = tasks db.
Proof.
  intros Ha Hne Hv Hfail.
  rewrite (fetchWithAuth_stale handler t1 t2 t3 token_id c db a Ha Hne Hv).
  unfold renewalFails in Hfail. unfold refreshTokens.
  destruct (getRefreshToken c) as [rt|]; [|now exists db].
  destruct (isEmptyToken rt) eqn:E; [now exists db|].
  destruct Hfail as [Hfail|Hfail]; [discriminate|].
  pose proof (POST_refresh_frame (JsonValue (Str rt)) t2 token_id db) as [Hu Ht].
  destruct (POST_refresh (JsonValue (Str rt)) t2 token_id db) as [response db1].
  cbn [fst snd] in *. exists db1.
  destruct (negb (response_ok response)); [now repeat split|].
  rewrite Hfail. now repeat split.
Qed.

Lemma failed_renewal_ends_the_session_witness :
  exists db',
    fetchWithAuth
      (fun headers now =>
         withAuth unauthorized (fun user => getTask isId0 (Some "t1") user) headers now)
      2000000 2000000 2000001 "r9" (Client.mk (Some aliceAccess) None "/dashboard") aliceDB
    = (Throw "Session expired. Please login again.", Client.mk None None "/login", db') /\
    users db' = users aliceDB /\ tasks db' = tasks aliceDB.
Proof.
  exact (failed_renewal_ends_the_session
           (fun (_ : Date) user => getTask isId0 (Some "t1") user)
           2000000 2000000 2000001 "r9" (Client.mk (Some aliceAccess) None "/dashboard")
           aliceDB aliceAccess eq_refl eq_refl eq_refl I).
Defined.

Lemma verifyAccessToken_nonempty (a : tokenString) (now : Date) (p : JWTPayload.t) :
  verifyAccessToken a now = Some p -> isEmptyToken a = false.
Proof. destruct a as [k u e i x|s]; simpl; [reflexivity|discriminate]. Qed.

(** X20.  [authApi.logout] with an access token that the server accepts: one
    request is sent, no renewal is tried; the server drops the session of the
    stored refresh token (every session of the user when none is stored), the
    client forgets both tokens, and a token so dropped is refused by
    [POST /auth/refresh] from then on. *)
Theorem client_logout_revokes (t1 t2 t3 : Date) (token_id : string) (c : Client.t)
    (db : DB) (a : tokenString) (user : JWTPayload.t) :
  getAccessToken c = Some a ->
  verifyAccessToken a t1 = Some user ->
  let r := logout t1 t2 t3 token_id c db in
  fst r = clearTokens c /\
  snd r = snd (POST_logout (Bearer a) (LogoutBody (getRefreshToken c)) t1 db) /\
  forall t,
    isEmptyToken t = false ->
    namesAtMost (LogoutBody (getRefreshToken c)) t ->
    (forall x, In x (refresh_tokens db) -> RefreshToken.token x = t ->
               RefreshToken.user_id x = JWTPayload.userId user) ->
    forall later id,
      exists msg, POST_refresh (JsonValue (Str t)) later id (snd r) = (failure 401 msg, snd r).
Proof.
  intros Ha Hv r.
  assert (Hr : r = (clearTokens c,
                    snd (POST_logout (Bearer a) (LogoutBody (getRefreshToken c)) t1 db))).
  { unfold r, logout, fetchWithAuth.
    rewrite Ha, (verifyAccessToken_nonempty _ _ _ Hv).
    rewrite (POST_logout_Bearer _ _ _ _ _ Hv). reflexivity. }
  rewrite Hr. cbn [fst snd]. split; [reflexivity|]. split; [reflexivity|].
  intros t Hne Hnames Hown later id.
  apply POST_refresh_absent; [exact Hne|].
  now apply (POST_logout_clears a t _ t1 db user).
Qed.

Lemma client_logout_revokes_witness :
  fst (logout 2000 2000 2001 "r9" aliceClient sessionsDB) = clearTokens aliceClient /\
  exists msg,
    fst (POST_refresh (JsonValue (Str aliceToken)) 3000 "r9"
           (snd (logout 2000 2000 2001 "r9" aliceClient sessionsDB)))
    = failure 401 msg.
Proof.
  destruct (client_logout_revokes 2000 2000 2001 "r9" aliceClient sessionsDB aliceAccess
              (JWTPayload.mk "u1" "alice@example.com") eq_refl eq_refl) as (H1 & _ & H3).
  split; [exact H1|].
  destruct (H3 aliceToken eq_refl (or_intror eq_refl)) with (later := 3000) (id := "r9")
    as [msg Hmsg].
  - intros x [<-|[<-|[<-|[]]]]; simpl; intro H; try reflexivity; discriminate.
  - exists msg. now rewrite Hmsg.
Defined.

(** X21.  [authApi.logout] with an access token that has expired, while the
    refresh token is still good: the request is answered 401, the client
    rotates and repeats it, but the body still names the old refresh token,
    which the rotation has just replaced.  The server answers 200 and drops
    nothing: the row of the new refresh token stays in the table, unexpired,
    while the client has forgotten both tokens. *)
Theorem logout_after_expiry_leaves_a_session (t1 t2 t3 : Date) (token_id : string)
    (c : Client.t) (db : DB) (a rt : tokenString) :
  getAccessToken c = Some a ->
  isEmptyToken a = false ->
  verifyAccessToken a t1 = None ->
  getRefreshToken c = Some rt ->
  let rotated := POST_refresh (JsonValue (Str rt)) t2 token_id db in
  ApiResponse.http (fst rotated) = 200 ->
  epoch t3 < epoch t2 + 900 ->
  exists tokens,
    ApiResponse.data (fst rotated) = Some tokens /\
    fst (logout t1 t2 t3 token_id c db) = clearTokens c /\
    (AuthTokens.refreshToken tokens <> rt ->
     exists row,
       In row (refresh_tokens (snd (logout t1 t2 t3 token_id c db))) /\
       RefreshToken.token row = AuthTokens.refreshToken tokens /\
       RefreshToken.expires_at row = getRefreshTokenExpiry t2).
Proof.
  intros Ha Hne Hv Hrt rotated H200 Ht3.
  destruct (POST_refresh_200 _ _ _ _ H200)
    as (t & stored & user & Ht & _ & _ & _ & Hfst & Hrows & _).
  fold rotated in Hfst, Hrows.
  set (payload := JWTPayload.mk (User.id user) (User.email user)) in *.
  set (tokens := generateTokens payload t2) in *.
  assert (Hver : verifyAccessToken (AuthTokens.accessToken tokens) t3 = Some payload).
  { unfold tokens. rewrite (proj1 (access_token_lifetime payload t2 t3)).
    destruct (Z.ltb_spec (epoch t3) (epoch t2 + 900)); [reflexivity|lia]. }
  assert (Hrne : isEmptyToken rt = false).
  { destruct (isEmptyToken rt) eqn:E; [|reflexivity].
    unfold rotated, POST_refresh in H200. rewrite E in H200. discriminate. }
  assert (Hlogout : logout t1 t2 t3 token_id c db
                    = (clearTokens c,
                       DELETE_refresh_token_of (JWTPayload.userId payload) rt
                         (snd rotated))).
  { unfold logout, fetchWithAuth. rewrite Ha, Hne.
    unfold POST_logout at 1. rewrite Hv.
    cbn [Response_status ApiResponse_Response failure ApiResponse.http Z.eqb andb
         tokenTruthy Pos.eqb].
    rewrite Hne. cbn [negb].
    unfold refreshTokens. rewrite Hrt, Hrne. fold rotated.
    destruct rotated as [response db2] eqn:Er. cbn [fst snd] in *. subst response.
    cbn [response_ok Response_status ApiResponse_Response reply ApiResponse.http
         ApiResponse.success ApiResponse.data negb andb Z.leb Z.compare Pos.compare
         Pos.compare_cont].
    cbn [getAccessToken setTokens Client.task_app_access_token].
    rewrite (POST_logout_Bearer _ _ _ _ _ Hver), Hrne. reflexivity. }
  exists tokens. split; [now rewrite Hfst|]. rewrite Hlogout. cbn [fst snd].
  split; [reflexivity|]. intro Hnew.
  exists (RefreshToken.mk token_id (User.id user) (AuthTokens.refreshToken tokens)
            (getRefreshTokenExpiry t2) t2).
  split; [|split; reflexivity].
  simpl. apply filter_In. split.
  - rewrite Hrows. apply in_or_app. right. now left.
  - change (negb (String.eqb (User.id user) (JWTPayload.userId payload)
                  && tokenString_eqb (AuthTokens.refreshToken tokens) rt) = true).
    rewrite (tokenString_eqb_neq _ _ Hnew). now rewrite andb_false_r.
Qed.

Lemma logout_after_expiry_leaves_a_session_witness :
  fst (logout 2000000 2000000 2000001 "r9" aliceClient aliceDB) = clearTokens aliceClient /\
  exists row,
    In row (refresh_tokens (snd (logout 2000000 2000000 2000001 "r9" aliceClient aliceDB))) /\
    RefreshToken.user_id row = "u1" /\
    RefreshToken.expires_at row = getRefreshTokenExpiry 2000000.
Proof.
  destruct (logout_after_expiry_leaves_a_session 2000000 2000000 2000001 "r9" aliceClient
              aliceDB aliceAccess aliceToken eq_refl eq_refl eq_refl eq_refl eq_refl
              eq_refl) as (tokens & H1 & H2 & H3).
  split; [exact H2|].
  vm_compute in H1. inversion H1; subst tokens; clear H1.
  destruct H3 as (row & Hin & Htok & Hexp); [discriminate|].
  exists row. split; [exact Hin|]. split; [|exact Hexp].
  vm_compute in Hin. destruct Hin as [<-|[]]. reflexivity.
Defined.

(* ===================================================================== *)
(** * 30. The dashboard after a delete *)
(* ===================================================================== *)



(* ===================================================================== *)
(** * 31. Further edges: two logins in one second, the local list *)
(* ===================================================================== *)

(** X23.  Two logins of one account within one second: the token pair of the
    second is that of the first, the insertion of its refresh token breaks the
    uniqueness of the [token] column, and the second login is answered 500
    without a new session. *)
Theorem login_twice_within_a_second (crypt : string -> string -> Result string)
    (body : option json) (now later : Date) (id1 id2 : string) (db : DB) :
  let first := POST_login crypt body now id1 db in
  ApiResponse.http (fst first) = 200 ->
  epoch later = epoch now ->
  POST_login crypt body later id2 (snd first) = (internalError, snd first).
Proof.
  intros first H200 Hsec. subst first. unfold POST_login in *.
  destruct body as [b|]; [|discriminate].
  destruct (Validation.valid (validateLogin b)); [|discriminate].
  destruct (Validation.data (validateLogin b)) as [dto|]; [|discriminate].
  destruct (SELECT_users_by_email (LoginDTO.email dto) db) as [|user others] eqn:Es;
    [discriminate|].
  destruct (verifyPassword crypt _ _) as [[|]|] eqn:Ev; try discriminate.
  unfold INSERT_INTO_refresh_tokens in H200 |- *.
  destruct (existsb _ (refresh_tokens db)) eqn:Ee; [discriminate|].
  cbn [snd]. unfold SELECT_users_by_email in *. cbn [users set_refresh_tokens].
  rewrite Es, Ev.
  cbn [refresh_tokens set_refresh_tokens]. rewrite existsb_app.
  cbn [existsb RefreshToken.token RefreshToken.id generateTokens AuthTokens.refreshToken
       generateRefreshToken JWTPayload.userId JWTPayload.email].
  unfold generateRefreshToken. rewrite Hsec, tokenString_eqb_refl, !orb_true_r.
  reflexivity.
Qed.

Lemma login_twice_within_a_second_witness :
  POST_login crypt0 (Some (credentials "Alice@Example.com" "password123" "Alice")) 5999 "r3"
    (snd (POST_login crypt0
            (Some (credentials "Alice@Example.com" "password123" "Alice")) 5000 "r2"
            aliceDB))
  = (internalError,
     snd (POST_login crypt0
            (Some (credentials "Alice@Example.com" "password123" "Alice")) 5000 "r2"
            aliceDB)).
Proof.
  exact (login_twice_within_a_second crypt0
           (Some (credentials "Alice@Example.com" "password123" "Alice"))
           5000 5999 "r2" "r3" aliceDB eq_refl eq_refl).
Defined.

(** X24.  The list that the dashboard updates by itself after a toggle that
    succeeded stays in agreement with the server: if every row of the local
    list was, up to [updated_at], a row of the store before the toggle, then
    every row of the updated local list is, up to [updated_at], a row of the
    store after it.  So it is after any number of toggles since the last
    fetch. *)
Theorem local_list_agrees_after_toggle (isId : string -> bool) (db : DB) (t : Task.t)
    (user : JWTPayload.t) (now : Date) (prev : list Task.t) :
  taskIdsUnique db ->
  In t (tasks db) ->
  Task.id t <> EmptyString ->
  isId (Task.id t) = true ->
  Task.user_id t = JWTPayload.userId user ->
  showsRowsOf db prev ->
  showsRowsOf (snd (toggleTask isId (Some (Task.id t)) user now db))
    (optimisticToggle (Task.id t) prev).
Proof.
  intros Hnd Hin Hne Hid Hu Hshows.
  rewrite (toggleTask_own isId db t user now Hnd Hin Hne Hid Hu).
  unfold showsRowsOf in *. cbn [snd tasks set_tasks].
  rewrite Forall_forall in Hshows. apply Forall_forall. intros x Hx.
  unfold optimisticToggle in Hx.
  apply in_map_iff in Hx as (x0 & Hx & Hx0).
  destruct (Hshows x0 Hx0) as (y0 & Hy0 & Hxy).
  assert (Hidy : Task.id y0 = Task.id x0) by (rewrite <- Hxy; reflexivity).
  destruct (String.eqb_spec (Task.id x0) (Task.id t)) as [E|E].
  - assert (y0 = t) by (apply (key_unique Task.id (tasks db)); auto; congruence).
    subst y0. exists (toggled t now). split.
    + now apply (replaceTask_In t).
    + subst x. rewrite <- Hxy. unfold touched, toggled. simpl. f_equal.
      now destruct (Task.status t).
  - subst x. exists y0. split.
    + apply replaceTask_other; [exact Hy0|]. simpl. congruence.
    + exact Hxy.
Qed.

Lemma local_list_agrees_after_toggle_witness :
  showsRowsOf
    (snd (toggleTask isId0 (Some "t1") bob 4000
            (snd (toggleTask isId0 (Some "t1") bob 3000 bobDB))))
    (optimisticToggle "t1" (optimisticToggle "t1" [bobTask])).
Proof.
  assert (Hnd : taskIdsUnique bobDB).
  { unfold taskIdsUnique. simpl. constructor; [simpl; tauto|constructor]. }
  assert (Hin : In bobTask (tasks bobDB)) by (simpl; auto).
  assert (Hne : Task.id bobTask <> EmptyString) by (simpl; discriminate).
  assert (H0 : showsRowsOf bobDB [bobTask]).
  { constructor; [|constructor]. exists bobTask. split; [exact Hin|reflexivity]. }
  pose proof (local_list_agrees_after_toggle isId0 bobDB bobTask bob 3000 [bobTask]
                Hnd Hin Hne eq_refl eq_refl H0) as H1.
  assert (Hnd1 : taskIdsUnique (snd (toggleTask isId0 (Some "t1") bob 3000 bobDB))).
  { unfold taskIdsUnique. simpl. constructor; [simpl; tauto|constructor]. }
  assert (Hin1 : In (toggled bobTask 3000)
                   (tasks (snd (toggleTask isId0 (Some "t1") bob 3000 bobDB))))
    by (simpl; auto).
  exact (local_list_agrees_after_toggle isId0
           (snd (toggleTask isId0 (Some "t1") bob 3000 bobDB)) (toggled bobTask 3000) bob
           4000 (optimisticToggle "t1" [bobTask]) Hnd1 Hin1 Hne eq_refl eq_refl H1).
Defined.
